(** * The Council orchestration core: dispatch, budget gates and verdicts

A shallow embedding of the model-dispatch layer of the Council system:

- [scripts/models.py]: the fallback table, the tier and keyword tables,
  [classify_query_tier] and the lookups by tier;
- [scripts/gateway.py]: [CouncilGateway.call_model] and
  [sanitize_output];
- [scripts/parallel_executor.py]: [ParallelResult], [ParallelExecutor]
  and [DiamondOrchestrator];
- [dashboard/backend/pricing.py] and
  [dashboard/backend/diamond_cost_predictor.py]: the cost predictor;
- [scripts/opus_gatekeeper.py]: [OpusGatekeeper];
- [scripts/build_planner.py]: [truncate_output];
- [lib/schemas.py] and [scripts/refine.py]: the quality gate of the
  refinement, [RollbackStore] and [refine].

Conventions of the embedding.

- A Python [str] is a [string]; [lower] and [upper] act on the ASCII
  letters, which is all that the keyword tables and the verdict tokens
  contain.
- A Python [float] is an exact rational ([Q]): amounts of money,
  prices, token estimates.  Rounding of binary floating point, infinities
  and NaN are outside the model; in particular a sum of floats is an
  exact sum here, and that the last digits of a float sum depend on the
  order of its terms does not show.
- A [dict] that is only read through [get] is a [gmap]; a dict or list
  that the code iterates in order is a [list].
- The network is an oracle ([Http.backend]): the outcome of a request is
  a function of the request and of the number of requests issued before
  it.  Functions that call the network return, next to their result, the
  requests they issued, in order.
- The recursion through fallback aliases, which the source does not
  bound, takes a fuel argument: the depth of recursion allowed.  [None]
  means that the depth did not suffice.  What the interpreter does with
  [call_model] at its own recursion limit is [call_model_on_stack].
- Wall-clock readings ([latency_seconds], [total_latency]) are left out;
  the time stamps of the rollback store are arguments.
- An object that is shared between calls (the rollback store) is passed
  in and handed back.
- For [sanitize_output] a text is the list of its code points.
- The imports between the modules of the repository are taken to
  succeed; the [except ImportError] stubs are not modelled, apart from the
  pricing module in [estimate_tier_cost]. *)

From Stdlib Require Import ZArith QArith Qround Qabs Qminmax Lia.
From Stdlib Require Import List Bool Permutation.
From Stdlib Require Import Ascii String DecimalString.
From stdpp Require Import gmap strings.
Import ListNotations.

Local Open Scope string_scope.

(** ** Python strings *)

Module PyStr.

Definition lower_ascii (c : ascii) : ascii :=
  let n := nat_of_ascii c in
  if (65 <=? n)%nat && (n <=? 90)%nat then ascii_of_nat (n + 32) else c.

Definition upper_ascii (c : ascii) : ascii :=
  let n := nat_of_ascii c in
  if (97 <=? n)%nat && (n <=? 122)%nat then ascii_of_nat (n - 32) else c.

(** [s.lower()] and [s.upper()]. *)
Fixpoint lower (s : string) : string :=
  match s with
  | EmptyString => EmptyString
  | String c t => String (lower_ascii c) (lower t)
  end.

Fixpoint upper (s : string) : string :=
  match s with
  | EmptyString => EmptyString
  | String c t => String (upper_ascii c) (upper t)
  end.

(** [s.startswith(p)]. *)
Definition startswith (p s : string) : bool := String.prefix p s.

(** [sub in s]: [sub] occurs in [s] as a contiguous substring. *)
Fixpoint contains (sub s : string) : bool :=
  String.prefix sub s
  || match s with
     | EmptyString => false
     | String _ t => contains sub t
     end.

(** [s[:n]]. *)
Fixpoint slice_to (n : nat) (s : string) : string :=
  match n, s with
  | S k, String c t => String c (slice_to k t)
  | _, _ => EmptyString
  end.

(** [s.split(sep, 1)[1]] for a one-character separator that occurs in
    [s]: what follows the first separator. *)
Fixpoint after_first (sep : ascii) (s : string) : string :=
  match s with
  | EmptyString => EmptyString
  | String c t => if Ascii.eqb c sep then t else after_first sep t
  end.

(** [str(n)] for a non-negative integer. *)
Definition str_nat (n : nat) : string := NilZero.string_of_uint (Nat.to_uint n).

(** Truthiness of an optional string: [None] and [""] are falsy. *)
Definition truthy (o : option string) : option string :=
  match o with
  | Some EmptyString => None
  | other => other
  end.

(** Python's white space among the first 128 characters: tab to carriage
return, the four separators 28 to 31, and the blank. *)
Definition is_space (c : ascii) : bool :=
  let n := nat_of_ascii c in
  ((9 <=? n)%nat && (n <=? 13)%nat) || ((28 <=? n)%nat && (n <=? 32)%nat).

(** [s.lstrip()], [s.rstrip()] and [s.strip()]. *)
Fixpoint lstrip (s : string) : string :=
  match s with
  | EmptyString => EmptyString
  | String c t => if is_space c then lstrip t else s
  end.

Fixpoint rstrip (s : string) : string :=
  match s with
  | EmptyString => EmptyString
  | String c t =>
      match rstrip t with
      | EmptyString => if is_space c then EmptyString else String c EmptyString
      | t' => String c t'
      end
  end.

Definition strip (s : string) : string := rstrip (lstrip s).

(** [s.rfind(c)] for a character: the last position of [c], or [-1]. *)
Fixpoint rfind (c : ascii) (s : string) : Z :=
  match s with
  | EmptyString => (-1)%Z
  | String a t =>
      let r := rfind c t in
      if (0 <=? r)%Z then (r + 1)%Z
      else if Ascii.eqb a c then 0%Z else (-1)%Z
  end.

End PyStr.

(** ** Python numbers, on exact rationals *)

Module PyNum.

(** [x > y] and [x >= y]. *)
Definition gt (x y : Q) : bool := negb (Qle_bool x y).
Definition ge (x y : Q) : bool := Qle_bool y x.

(** The nearest integer, ties to the even one. *)
Definition round_half_even (q : Q) : Z :=
  let f := Qfloor q in
  match (q - inject_Z f ?= 1 # 2)%Q with
  | Lt => f
  | Gt => (f + 1)%Z
  | Eq => if Z.even f then f else (f + 1)%Z
  end.

(** [round(q, ndigits)]. *)
Definition round (q : Q) (ndigits : nat) : Q :=
  let scale := inject_Z (10 ^ Z.of_nat ndigits) in
  (inject_Z (round_half_even (q * scale)) / scale)%Q.

(** [int(q)]: truncation towards zero. *)
Definition int (q : Q) : Z := Qnum q ÷ Zpos (Qden q).

(** [str(z)] for an integer. *)
Definition str_Z (z : Z) : string := NilEmpty.string_of_int (Z.to_int z).

(** [f"{q:.2f}"]. *)
Definition fmt_2f (q : Q) : string :=
  let cents := round_half_even (Qabs q * 100) in
  let frac := (cents mod 100)%Z in
  (if Qlt_le_dec q 0 then "-" else "")
  ++ str_Z (cents / 100) ++ "."
  ++ (if (frac <? 10)%Z then "0" else "") ++ str_Z frac.

End PyNum.

(** ** [scripts/models.py] *)

Module Models.
Import PyStr.

Definition MODEL_FALLBACKS : gmap string string :=
  list_to_map
    [ ("gemini-flash", "gemini-flash-fallback");
      ("gemini-flash-latest", "gemini-flash");
      ("deepseek-v3", "gemini-flash");
      ("kimi-researcher", "kimi-synthesis");
      ("kimi-synthesis", "claude-sonnet");
      ("kimi-deep", "kimi-synthesis");
      ("claude-sonnet", "opus-synthesis");
      ("opus-synthesis", "claude-sonnet");
      ("gemini-architect", "gemini-flash");
      ("gemini-3-pro-semifinal", "claude-sonnet");
      ("gemini-pro", "claude-sonnet");
      ("gemini-pro-latest", "gemini-pro");
      ("perplexity-online", "gemini-flash");
      ("perplexity-researcher", "gemini-flash") ].

(** [TIER_CONFIG[tier]["models"]]. *)
Definition TIER_CONFIG_models : gmap string (list string) :=
  list_to_map
    [ ("tier_1", ["claude-sonnet"]);
      ("tier_2", ["perplexity-researcher"; "claude-sonnet"]);
      ("tier_3", ["kimi-researcher"; "perplexity-online";
                  "deepseek-v3"; "gemini-flash"; "claude-sonnet";
                  "gemini-pro"; "opus-synthesis"]);
      ("tier_3_lite", ["kimi-researcher"; "deepseek-v3"; "claude-sonnet";
                       "gemini-pro"]) ].

Definition ARCHITECTURAL_KEYWORDS : list string :=
  [ "architecture"; "design"; "refactor"; "restructure";
    "system"; "module"; "component"; "integration"; "api design";
    "database design"; "schema"; "workflow"; "pipeline"; "strategy";
    "pattern";
    " vs "; " versus "; " or "; " compare "; " which "; " should we use ";
    "microservices"; "monolith"; "postgresql"; "mongodb"; "mysql" ].

Definition SIMPLE_IMPLEMENTATION_KEYWORDS : list string :=
  [ "implement a"; "implement the"; "create a"; "create the";
    "write a"; "write the"; "add a"; "add the";
    "fix this"; "debug"; "syntax error"; "indentation" ].

Definition EXTERNAL_DOCS_KEYWORDS : list string :=
  [ "pricing"; "latest version"; "current docs"; "documentation";
    "api reference"; "changelog"; "release notes"; "official docs" ].

(** [any(kw in text for kw in kws)]. *)
Definition any_in (kws : list string) (text : string) : bool :=
  existsb (fun kw => contains kw text) kws.

(** [classify_query_tier(query, token_count, metadata)].  The two
    optional arguments are never read by the body and are left out. *)
Definition classify_query_tier (query : string) : string :=
  let query_lower := lower query in
  if contains "@council_v2" query_lower then "tier_3"
  else if contains "@council_lite" query_lower then "tier_3_lite"
  else if contains "@research" query_lower then "tier_2"
  else
    let has_simple_impl := any_in SIMPLE_IMPLEMENTATION_KEYWORDS query_lower in
    let has_arch_keywords := any_in ARCHITECTURAL_KEYWORDS query_lower in
    let has_docs_keywords := any_in EXTERNAL_DOCS_KEYWORDS query_lower in
    if has_simple_impl then "tier_1"
    else if has_docs_keywords then "tier_2"
    else if has_arch_keywords then "tier_3"
    else "tier_1".

(** [get_models_for_tier(tier)]; [None] stands for the [ValueError]. *)
Definition get_models_for_tier (tier : string) : option (list string) :=
  TIER_CONFIG_models !! tier.

(** [TIER_CONFIG[tier]["estimated_cost"]]. *)
Definition TIER_CONFIG_estimated_cost : gmap string (Q * Q) :=
  list_to_map
    [ ("tier_1", (0.001, 0.005)%Q);
      ("tier_2", (0.003, 0.010)%Q);
      ("tier_3", (0.10, 0.30)%Q);
      ("tier_3_lite", (0.05, 0.15)%Q) ].

(** [estimate_tier_cost(tier)]; [None] stands for the [ValueError]. *)
Definition estimate_tier_cost (tier : string) : option (Q * Q) :=
  TIER_CONFIG_estimated_cost !! tier.

End Models.


(** ** The HTTP boundary

  What [requests.post] followed by [raise_for_status], [response.json()]
  and the extraction of the content can do, as seen by the caller. *)

Module Http.

Record request := mk_request {
  req_model : string;
  req_system : option string;
  req_user : string;
  req_temperature : option Q;
  req_max_tokens : option Z;
  req_timeout : Z
}.

Inductive outcome :=
| Replied (content : string) (prompt_tokens completion_tokens total_tokens : Z)
    (* a 2xx reply whose JSON holds [choices[0].message.content] *)
| NoContent (e : string)
    (* a 2xx JSON reply without that field: KeyError, IndexError, TypeError *)
| Timeout
    (* [requests.exceptions.Timeout] *)
| RequestError (e : string)
    (* any other [requests.exceptions.RequestException] *)
| OtherError (e : string).
    (* any other [Exception] *)

(** The network: the outcome of a request, given how many requests were
    issued before it. *)
Definition backend := nat -> request -> outcome.

(** [x or default] for an optional integer: [None] and [0] are falsy. *)
Definition int_or (x : option Z) (default : Z) : Z :=
  match x with
  | Some 0%Z | None => default
  | Some z => z
  end.

End Http.

(** ** [scripts/gateway.py] *)

Module Gateway.
Import PyStr Http.

Record CouncilGateway := {
  default_timeout : Z;
  max_retries : nat
}.

(** [CouncilGateway.__init__]. *)
Definition CouncilGateway_init : CouncilGateway :=
  {| default_timeout := 120; max_retries := 2 |}.

(** The dictionary that [call_model] returns. *)
Record response := {
  success : bool;
  content : option string;
  model : string;
  tokens : Z;
  error : option string
}.

Definition failure (model : string) (msg : string) : response :=
  {| success := false; content := None; model := model; tokens := 0;
     error := Some msg |}.

(** The [payload] of [call_model], with the timeout of the request;
[max_tokens] is sent only when it is truthy. *)
Definition payload (model system_prompt user_prompt : string)
    (temperature : Q) (max_tokens : option Z) (timeout : Z) : request :=
  mk_request model (Some system_prompt) user_prompt (Some temperature)
    (match max_tokens with Some 0%Z => None | other => other end)
    timeout.

Section call_model.
Variable self : CouncilGateway.
Variable MODEL_FALLBACKS : gmap string string.
Variable net : backend.

(** The body of [for attempt in range(self.max_retries + 1)] from
    iteration [attempt] on, with [remaining] iterations left.  [hop] is
    the recursive call of [call_model] on the fallback alias; [n] counts
    the requests issued so far.  The result carries the requests issued,
    in order. *)
Fixpoint attempts
    (hop : string -> nat -> option (response * list request))
    (model system_prompt user_prompt : string) (timeout : Z)
    (temperature : Q) (max_tokens : option Z)
    (attempt remaining n : nat) : option (response * list request) :=
  match remaining with
  | O => Some (failure model "Max retries exceeded", [])
  | S remaining' =>
    let req :=
      payload model system_prompt user_prompt temperature max_tokens timeout in
    match net n req with
    | Replied c _ _ total =>
        Some ({| success := true; content := Some c; model := model;
                 tokens := total; error := None |}, [req])
    | NoContent e =>
        Some (failure model ("Invalid response format: " ++ e), [req])
    | Timeout =>
        if (attempt <? max_retries self)%nat then
          '(r, l) ← attempts hop model system_prompt user_prompt timeout
                      temperature max_tokens (S attempt) remaining' (S n);
          Some (r, req :: l)
        else
          Some (failure model
                  ("Request timeout after " ++ PyNum.str_Z timeout ++ "s"),
                [req])
    | RequestError e =>
        match truthy (MODEL_FALLBACKS !! model) with
        | Some fallback =>
            if (attempt =? 0)%nat then
              '(r, l) ← hop fallback (S n);
              Some (r, req :: l)
            else
              Some (failure model ("Request failed: " ++ slice_to 100 e),
                    [req])
        | None =>
            Some (failure model ("Request failed: " ++ slice_to 100 e),
                  [req])
        end
    | OtherError e =>
        Some (failure model ("Unexpected error: " ++ slice_to 100 e), [req])
    end
  end.

(** [CouncilGateway.call_model].  [fuel] bounds the depth of the
    recursion through fallback aliases; [None] says that this depth did
    not suffice, not what the interpreter does at its own limit, for
    which see [call_model_on_stack]. *)
Fixpoint call_model (fuel : nat)
    (model system_prompt user_prompt : string) (timeout : option Z)
    (temperature : Q) (max_tokens : option Z) (n : nat)
    : option (response * list request) :=
  match fuel with
  | O => None
  | S fuel' =>
    let timeout := int_or timeout (default_timeout self) in
    attempts
      (fun fallback n' =>
         call_model fuel' fallback system_prompt user_prompt (Some timeout)
           temperature max_tokens n')
      model system_prompt user_prompt timeout temperature max_tokens
      0 (max_retries self + 1) n
  end.

(** [call_model] as the interpreter runs it, when its stack has room for
    [frames] nested calls of [call_model] that can still issue their
    request.  In the call below them [requests.post] raises
    [RecursionError] inside the [try]; [except Exception] catches it, and
    the failure is handed back through every
    [return self.call_model(...)].  [recursion_error] is the text of that
    exception; the request that raised it gets no outcome from the
    backend and is not counted among the requests issued.  As long as the
    recursion stays within [frames] this is [call_model]. *)
Fixpoint call_model_on_stack (frames : nat) (recursion_error : string)
    (model system_prompt user_prompt : string) (timeout : option Z)
    (temperature : Q) (max_tokens : option Z) (n : nat)
    : option (response * list request) :=
  match frames with
  | O =>
      Some (failure model
              ("Unexpected error: " ++ slice_to 100 recursion_error), [])
  | S frames' =>
    let timeout := int_or timeout (default_timeout self) in
    attempts
      (fun fallback n' =>
         call_model_on_stack frames' recursion_error fallback system_prompt
           user_prompt (Some timeout) temperature max_tokens n')
      model system_prompt user_prompt timeout temperature max_tokens
      0 (max_retries self + 1) n
  end.

End call_model.

End Gateway.

(** ** [scripts/parallel_executor.py]: the stage executor *)

Module Executor.
Import PyStr Http.

(** [ModelResponse].  The field [latency_seconds] reads the wall clock
    and is left out, as is [total_latency] below. *)
Record ModelResponse := {
  model : string;
  content : string;
  success : bool;
  cost : Q;
  tokens_used : Z;
  error : option string;
  fallback_used : option string
}.

Definition failed (model : string) (e : string) : ModelResponse :=
  {| model := model; content := ""; success := false; cost := 0;
     tokens_used := 0; error := Some e; fallback_used := None |}.

Record ParallelResult := {
  responses : list ModelResponse;
  total_cost : Q;
  total_tokens : Z;
  success_count : nat;
  failure_count : nat
}.

(** What [PerplexityWrapper.search] does: a [PerplexityResponse], of
    which the answer, the citations (title and url), the cost and the
    token count are read, or an exception. *)
Inductive search_outcome :=
| Found (answer : string) (citations : list (string * string))
    (cost : Q) (tokens_used : Z)
| SearchFailed (e : string).

Record ParallelExecutor := {
  max_workers : Z;
  default_timeout : Z;
  perplexity : option (string -> string -> Z -> search_outcome)
}.

(** [ParallelExecutor.__init__] with its default arguments. *)
Definition ParallelExecutor_init
    (perplexity : option (string -> string -> Z -> search_outcome))
    : ParallelExecutor :=
  {| max_workers := 5; default_timeout := 120; perplexity := perplexity |}.

Definition nl : string := String (ascii_of_nat 10) "".

(** [_estimate_cost]. *)
Definition pricing : gmap string (Q * Q) :=
  list_to_map
    [ ("claude-sonnet", (3.0, 15.0)%Q);
      ("deepseek-v3", (0.27, 1.10)%Q);
      ("gemini-flash", (0.075, 0.30)%Q);
      ("kimi-researcher", (1.20, 12.0)%Q);
      ("gemini-pro", (0.075, 0.30)%Q);
      ("opus-synthesis", (15.0, 75.0)%Q) ].

Definition _estimate_cost (model : string)
    (prompt_tokens completion_tokens : Z) : Q :=
  match pricing !! model with
  | Some (input_price, output_price) =>
      ((inject_Z prompt_tokens / 1000000) * input_price
       + (inject_Z completion_tokens / 1000000) * output_price)%Q
  | None => 0.01%Q
  end.

(** The source list of a Perplexity answer, numbered from [i]. *)
Fixpoint format_citations (i : nat) (citations : list (string * string))
    : string :=
  match citations with
  | [] => ""
  | (title, url) :: rest =>
      str_nat i ++ ". [" ++ title ++ "](" ++ url ++ ")" ++ nl
      ++ format_citations (S i) rest
  end.

Section execute_model.
Variable self : ParallelExecutor.
Variable MODEL_FALLBACKS : gmap string string.
Variable net : backend.

(** [ParallelExecutor._execute_model].  [fuel] bounds the depth of the
    recursion through fallback aliases; [n] counts the requests issued
    to the gateway so far, and the result carries the requests issued
    by this call. *)
Fixpoint _execute_model (fuel : nat) (model prompt : string)
    (system_prompt : option string) (max_tokens : Z) (timeout : option Z)
    (n : nat) : option (ModelResponse * list request) :=
  match fuel with
  | O => None
  | S fuel' =>
    let timeout := int_or timeout (default_timeout self) in
    match (if startswith "perplexity-" model then perplexity self else None)
    with
    | Some search =>
        let perplexity_model :=
          if String.eqb model "perplexity-researcher"
          then "sonar-small-online" else "sonar-medium-online" in
        match search prompt perplexity_model timeout with
        | Found answer citations c t =>
            let content :=
              "## Web Research Results" ++ nl ++ nl
              ++ (if String.eqb answer "" then "" else answer ++ nl ++ nl)
              ++ "### Sources (" ++ str_nat (length citations) ++ ")" ++ nl
              ++ format_citations 1 citations in
            Some ({| model := model; content := content; success := true;
                     cost := c; tokens_used := t; error := None;
                     fallback_used := None |}, [])
        | SearchFailed e => Some (failed model e, [])
        end
    | None =>
        let req :=
          mk_request model (truthy system_prompt) prompt None
            (Some max_tokens) timeout in
        match net n req with
        | Replied c prompt_tokens completion_tokens total =>
            Some ({| model := model; content := c; success := true;
                     cost := _estimate_cost model prompt_tokens
                               completion_tokens;
                     tokens_used := total; error := None;
                     fallback_used := None |}, [req])
        | Timeout =>
            match truthy (MODEL_FALLBACKS !! model) with
            | Some fallback =>
                if String.eqb fallback model then
                  Some (failed model
                          ("Timeout after " ++ PyNum.str_Z timeout ++ "s"),
                        [req])
                else
                  '(r, l) ← _execute_model fuel' fallback prompt
                              system_prompt max_tokens (Some timeout) (S n);
                  Some (r, req :: l)
            | None =>
                Some (failed model
                        ("Timeout after " ++ PyNum.str_Z timeout ++ "s"),
                      [req])
            end
        | NoContent e | RequestError e | OtherError e =>
            match truthy (MODEL_FALLBACKS !! model) with
            | Some fallback =>
                if String.eqb fallback model then
                  Some (failed model e, [req])
                else
                  '(result, l) ← _execute_model fuel' fallback prompt
                                   system_prompt max_tokens (Some timeout)
                                   (S n);
                  Some ({| model := model ++ " (via " ++ fallback ++ ")";
                           content := content result;
                           success := success result;
                           cost := cost result;
                           tokens_used := tokens_used result;
                           error := error result;
                           fallback_used := Some model |}, req :: l)
            | None => Some (failed model e, [req])
            end
        end
    end
  end.

End execute_model.

(** *** [execute_parallel] *)

(** How a future settles: [_execute_model] returned a response, or an
    exception escaped it. *)
Inductive settled :=
| Returned (r : ModelResponse)
| Raised (e : string).

Inductive result (A : Type) :=
| Ok (a : A)
| ValueError (msg : string).
Arguments Ok {A} a.
Arguments ValueError {A} msg.

(** Removes the element at position [k]. *)
Fixpoint take_out {A} (k : nat) (l : list A) {struct l}
    : option (A * list A) :=
  match l with
  | [] => None
  | x :: t =>
      match k with
      | O => Some (x, t)
      | S k' => '(y, t') ← take_out k' t; Some (y, x :: t')
      end
  end.

(** [as_completed(futures)]: the futures in the order in which they
    settle.  The order is chosen by the scheduler: at each step
    [sched] names which of the [n] pending futures settles next. *)
Fixpoint as_completed {A} (sched : list nat) (pending : list A) (n : nat)
    : list A :=
  match n with
  | O => []
  | S n' =>
      match take_out (hd 0%nat sched mod length pending) pending with
      | Some (x, rest) => x :: as_completed (tl sched) rest n'
      | None => []
      end
  end.

(** The body of the loop over [as_completed]. *)
Definition collect (f : string * settled) : ModelResponse :=
  match f with
  | (_, Returned response) => response
  | (model, Raised e) => failed model ("Execution error: " ++ e)
  end.

(** [sum(...)] of floats, as the exact sum; [sum] of integers. *)
Definition sum_Q (l : list Q) : Q := fold_right Qplus 0%Q l.
Definition sum_Z (l : list Z) : Z := fold_right Z.add 0%Z l.

(** How the pool runs a submitted call
    [_execute_model(model, prompt, system_prompt, max_tokens, timeout)]:
    the first argument is the position of the call among the submitted
    ones. *)
Definition runner :=
  nat -> string -> string -> option string -> Z -> option Z -> settled.

(** [ParallelExecutor.execute_parallel].
    [ThreadPoolExecutor(max_workers=k)] raises [ValueError] when
    [k <= 0]. *)
Definition execute_parallel (self : ParallelExecutor)
    (run : runner) (sched : list nat)
    (models : list string) (prompt : string)
    (system_prompts : option (gmap string string))
    (max_tokens : Z) (timeout : option Z)
    : result ParallelResult :=
  let system_prompts := default ∅ system_prompts in
  if (Z.min (max_workers self) (Z.of_nat (length models)) <=? 0)%Z then
    ValueError "max_workers must be greater than 0"
  else
    let future_to_model :=
      imap (fun i model =>
              (model, run i model prompt (system_prompts !! model)
                        max_tokens timeout))
        models in
    let responses :=
      map collect (as_completed sched future_to_model (length future_to_model)) in
    let success_count := length (filter (fun r => success r = true) responses) in
    Ok {| responses := responses;
          total_cost := sum_Q (map cost responses);
          total_tokens := sum_Z (map tokens_used responses);
          success_count := success_count;
          failure_count := length responses - success_count |}.

(** [ParallelResult.get_successful_responses]. *)
Definition get_successful_responses (self : ParallelResult)
    : list ModelResponse :=
  filter (fun r => success r = true) (responses self).

(** [ParallelResult.get_model_content]: the content of the first response
that is a success and bears the name [name]. *)
Fixpoint first_content (name : string) (l : list ModelResponse)
    : option string :=
  match l with
  | [] => None
  | r :: rest =>
      if String.eqb (model r) name && success r then Some (content r)
      else first_content name rest
  end.

Definition get_model_content (self : ParallelResult) (name : string)
    : option string :=
  first_content name (responses self).

(** [f"{r.error}"] for an optional string. *)
Definition str_error (e : option string) : string := default "None" e.

(** One entry of [ParallelResult.format_for_synthesis]. *)
Definition format_response (r : ModelResponse) : string :=
  if success r then "### " ++ model r ++ nl ++ content r ++ nl
  else "### " ++ model r ++ " (FAILED)" ++ nl ++ "Error: "
       ++ str_error (error r) ++ nl.

(** [ParallelResult.format_for_synthesis]. *)
Definition format_for_synthesis (self : ParallelResult) : string :=
  String.concat nl
    (("## Parallel Deliberation Results" ++ nl)
     :: map format_response (responses self)).

End Executor.

(** ** [scripts/parallel_executor.py]: the orchestrator *)

Module Orchestrator.
Import PyStr Http Executor.

(** [DiamondOrchestrator._extract_recommendation]. *)
Definition _extract_recommendation (content : string) : string :=
  let content_upper := upper content in
  if contains "APPROVED" content_upper
     && negb (contains "CONDITIONAL" content_upper) then "APPROVED"
  else if contains "REJECTED" content_upper then "REJECTED"
  else if contains "CONDITIONAL" content_upper
          || contains "NEEDS_DEBATE" content_upper then "CONDITIONAL"
  else "UNCLEAR".

(** [DiamondOrchestrator._should_invoke_opus]. *)
Definition _should_invoke_opus (recommendation threshold : string) : bool :=
  if String.eqb threshold "always" then true
  else if String.eqb threshold "never" then false
  else if String.eqb threshold "conditional"
       then negb (String.eqb recommendation "APPROVED")
  else false.

Record DiamondDebateResult := {
  step1_architect : ModelResponse;
  step2_auditor : ModelResponse;
  step3_contextualist : ModelResponse;
  step4_judge : ModelResponse;
  debate_total_cost : Q;
  debate_total_tokens : Z
}.

(** The four prompts of [execute_diamond_debate]. *)
Definition step1_prompt (topic : string) (focus : option string) : string :=
  let focus_prompt :=
    match truthy focus with
    | Some f => " Focus your analysis on: " ++ f ++ "."
    | None => ""
    end in
  "You are the Architect. Propose a high-level technical solution for: "
  ++ topic ++ "

" ++ focus_prompt ++ "

Structure your response as:
1) Problem Statement
2) Recommended Approach
3) Key Components
4) Potential Risks

Be concise but thorough.".

Definition step2_prompt (proposal : string) : string :=
  "You are the Auditor. Critique this proposal for security, logic flaws, and edge cases. Be thorough but constructive.

PROPOSAL:
" ++ proposal ++ "

Focus on:
1) Security vulnerabilities
2) Logic flaws or edge cases
3) Scalability concerns
4) Missing considerations

Provide specific, actionable critique.".

Definition step3_prompt (proposal critique context : string) : string :=
  "You are the Contextualist with 256k context awareness. Analyze this proposal and critique from the perspective of: existing codebase patterns, integration points, historical decisions, and project context.

PROPOSAL:
" ++ proposal ++ "

AUDITOR'S CRITIQUE:
" ++ critique ++ "

Provide:
1) Connection to existing codebase patterns
2) Integration points with current system
3) Edge cases from project history
4) Recommendations for alignment with current architecture

Be specific about what already exists in the codebase that should be leveraged or followed.

" ++ context.

Definition step4_prompt (proposal critique analysis : string) : string :=
  "You are the Supreme Court Judge. Synthesize a final decision based on this proposal, critique, and context-aware analysis.

PROPOSAL:
" ++ proposal ++ "

AUDITOR'S CRITIQUE:
" ++ critique ++ "

CONTEXTUALIST'S ANALYSIS:
" ++ analysis ++ "

Weigh all perspectives and issue a final decree with:
1) Analysis of key points
2) Accepted recommendations
3) Final decision or implementation plan

Be decisive and actionable.".

Section debate.
Variable executor : ParallelExecutor.
Variable MODEL_FALLBACKS : gmap string string.
Variable net : backend.

Let run := _execute_model executor MODEL_FALLBACKS net.

(** [DiamondOrchestrator.execute_diamond_debate].  The result carries
    the requests sent to the gateway, in order. *)
Definition execute_diamond_debate (fuel : nat) (topic : string)
    (focus : option string) (context : string) (n : nat)
    : option (DiamondDebateResult * list request) :=
  '(step1, l1) ← run fuel "gemini-architect" (step1_prompt topic focus)
                   None 3000%Z (Some 60%Z) n;
  if negb (success step1) then
    Some ({| step1_architect := step1;
             step2_auditor := failed "deepseek-v3" "Architect failed, skipping";
             step3_contextualist :=
               failed "kimi-researcher" "Architect failed, skipping";
             step4_judge := failed "opus-synthesis" "Architect failed, skipping";
             debate_total_cost := cost step1;
             debate_total_tokens := tokens_used step1 |}, l1)
  else
    let n := (n + length l1)%nat in
    '(step2, l2) ← run fuel "deepseek-v3" (step2_prompt (content step1))
                     None 4000%Z (Some 90%Z) n;
    let n := (n + length l2)%nat in
    '(step3, l3) ← run fuel "kimi-researcher"
                     (step3_prompt (content step1) (content step2) context)
                     None 5000%Z (Some 180%Z) n;
    let n := (n + length l3)%nat in
    '(step4, l4) ← run fuel "opus-synthesis"
                     (step4_prompt (content step1) (content step2)
                        (content step3))
                     None 64000%Z (Some 180%Z) n;
    Some ({| step1_architect := step1;
             step2_auditor := step2;
             step3_contextualist := step3;
             step4_judge := step4;
             debate_total_cost :=
               sum_Q [cost step1; cost step2; cost step3; cost step4];
             debate_total_tokens :=
               sum_Z [tokens_used step1; tokens_used step2;
                      tokens_used step3; tokens_used step4] |},
          (l1 ++ l2 ++ l3 ++ l4)%list).

End debate.


(** *** The Diamond pipeline *)

(** One entry of [stage_configs] in [ParallelExecutor.execute_stage]. *)
Record StageConfig := {
  stage_models : list string;
  stage_system_prompts : gmap string string;
  stage_max_tokens : Z
}.

Definition stage_configs : gmap string StageConfig :=
  list_to_map
    [ ("stage1_context",
       {| stage_models := ["kimi-researcher"; "perplexity-online"];
          stage_system_prompts :=
            list_to_map
              [ ("kimi-researcher", "You are a Cost Architect. Analyze the query for cost-benefit, propose technical solutions, and identify key components.");
                ("perplexity-online", "You are a web research assistant. Find the latest information about the query.") ];
          stage_max_tokens := 1500 |});
      ("stage2_deliberate",
       {| stage_models := ["deepseek-v3"; "gemini-flash"; "claude-sonnet"];
          stage_system_prompts :=
            list_to_map
              [ ("deepseek-v3", "You are an Auditor. Critique the proposal for security risks, logic flaws, edge cases, and scalability issues. Identify BLOCKER issues prominently.");
                ("gemini-flash", "You are an Ideator. Generate creative solutions and alternatives. Think fast and be thorough.");
                ("claude-sonnet", "You are a Contextualist. Check existing codebase patterns, identify integration points, and what can be reused.") ];
          stage_max_tokens := 2000 |});
      ("stage3_synthesize",
       {| stage_models := ["gemini-pro"];
          stage_system_prompts :=
            list_to_map
              [ ("gemini-pro", "You are the Semi-Final Judge. Synthesize all perspectives and provide your assessment. Identify remaining concerns and recommend approval path (APPROVED, CONDITIONAL, NEEDS_DEBATE).") ];
          stage_max_tokens := 3000 |}) ].

(** [ParallelExecutor.execute_stage(stage_name, prompt, models, **kwargs)].
The keyword arguments read are [system_prompts], [max_tokens] and
[timeout]; [None] stands for a keyword that is not given. *)
Definition execute_stage (self : ParallelExecutor) (run : runner)
    (sched : list nat) (stage_name prompt : string)
    (models : option (list string))
    (kw_system_prompts : option (gmap string string))
    (kw_max_tokens : option Z) (kw_timeout : option Z)
    : result ParallelResult :=
  match stage_configs !! stage_name with
  | None => ValueError ("Unknown stage: " ++ stage_name)
  | Some config =>
      let models :=
        match models with
        | Some (m :: rest) => m :: rest
        | _ => stage_models config
        end in
      let system_prompts :=
        default (stage_system_prompts config) kw_system_prompts in
      let max_tokens := default (stage_max_tokens config) kw_max_tokens in
      execute_parallel self run sched models prompt (Some system_prompts)
        max_tokens kw_timeout
  end.

(** The dictionary that [execute_diamond] returns; [ratification] and
[opus_decision] are the two keys that are only set when stage 4 runs. *)
Record DiamondResult := {
  diamond_query : string;
  context_stage : ParallelResult;
  deliberation_stage : ParallelResult;
  synthesis_stage : ParallelResult;
  ratification_stage : option ParallelResult;
  final_recommendation : string;
  diamond_total_cost : Q;
  opus_decision : option string
}.

Definition stage2_prompt (query context_results : string) : string :=
  "Original Query: "
  ++ query
  ++ "

Context from Stage 1:
"
  ++ context_results
  ++ "

Please analyze this proposal based on your role.".

Definition stage3_prompt (query deliberation_results : string) : string :=
  "Original Query: "
  ++ query
  ++ "

Deliberation Results:
"
  ++ deliberation_results
  ++ "

As Semi-Final Judge, synthesize all perspectives and provide:
1. Your assessment of the approach
2. Any remaining concerns or gaps
3. Recommendation: APPROVED (ready for Opus), CONDITIONAL (fix X first), NEEDS_DEBATE (major concerns)".

Definition stage4_prompt (query synthesis_content : string) : string :=
  "Original Query: "
  ++ query
  ++ "

Semi-Final Assessment:
"
  ++ synthesis_content
  ++ "

As Final Judge, issue your decree:
1. APPROVED - Ready to build
2. CONDITIONAL - Fix X first
3. REJECTED - Not viable

Provide clear rationale and implementation phases.".

Definition opus_system_prompts : gmap string string :=
  {[ "opus-synthesis" := "You are the Final Judge. Review the semi-final assessment and issue a final decree with clear rationale." ]}.

(** [DiamondOrchestrator.execute_diamond].  [run k] and [sched k] are the
pool and the scheduler of stage [k]. *)
Definition execute_diamond (executor : ParallelExecutor)
    (run : nat -> runner) (sched : nat -> list nat)
    (query context : string) (invoke_opus : bool) (opus_threshold : string)
    : result DiamondResult :=
  let full_prompt := strip ("Query: " ++ query ++ nl ++ nl ++ context) in
  match execute_stage executor (run 1%nat) (sched 1%nat) "stage1_context"
          full_prompt None None None None with
  | ValueError e => ValueError e
  | Ok stage1 =>
  match execute_stage executor (run 2%nat) (sched 2%nat) "stage2_deliberate"
          (stage2_prompt query (format_for_synthesis stage1))
          None None None None with
  | ValueError e => ValueError e
  | Ok stage2 =>
  match execute_stage executor (run 3%nat) (sched 3%nat) "stage3_synthesize"
          (stage3_prompt query (format_for_synthesis stage2))
          None None None None with
  | ValueError e => ValueError e
  | Ok stage3 =>
      let cost3 :=
        (0 + total_cost stage1 + total_cost stage2 + total_cost stage3)%Q in
      let synthesis_content :=
        default "" (get_model_content stage3 "gemini-pro") in
      let recommendation := _extract_recommendation synthesis_content in
      if invoke_opus && _should_invoke_opus recommendation opus_threshold then
        match execute_parallel executor (run 4%nat) (sched 4%nat)
                ["opus-synthesis"] (stage4_prompt query synthesis_content)
                (Some opus_system_prompts) 4000 None with
        | ValueError e => ValueError e
        | Ok stage4 =>
            let opus_content :=
              default "" (get_model_content stage4 "opus-synthesis") in
            Ok {| diamond_query := query;
                  context_stage := stage1;
                  deliberation_stage := stage2;
                  synthesis_stage := stage3;
                  ratification_stage := Some stage4;
                  final_recommendation := _extract_recommendation opus_content;
                  diamond_total_cost := (cost3 + total_cost stage4)%Q;
                  opus_decision := Some opus_content |}
        end
      else
        Ok {| diamond_query := query;
              context_stage := stage1;
              deliberation_stage := stage2;
              synthesis_stage := stage3;
              ratification_stage := None;
              final_recommendation := recommendation;
              diamond_total_cost := cost3;
              opus_decision := None |}
  end end end.

End Orchestrator.

(** ** [dashboard/backend/pricing.py] *)

Module Pricing.

Record ModelPricing := {
  input_price_per_1m : Q;
  output_price_per_1m : Q;
  provider : string
}.

Definition MODEL_PRICING : gmap string ModelPricing :=
  list_to_map
    [ ("claude-opus-4-5-20251101", Build_ModelPricing 15.0 75.0 "anthropic");
      ("claude-sonnet-4-20250514", Build_ModelPricing 3.0 15.0 "anthropic");
      ("claude-haiku-4-20250514", Build_ModelPricing 0.80 4.0 "anthropic");
      ("gemini-3-pro-preview", Build_ModelPricing 0 0 "google");
      ("gemini-2.0-flash", Build_ModelPricing 0.075 0.30 "google");
      ("gemini-2.0-flash-thinking", Build_ModelPricing 0.075 0.30 "google");
      ("deepseek-chat", Build_ModelPricing 0.27 1.10 "deepseek");
      ("deepseek-reasoner", Build_ModelPricing 0.55 2.19 "deepseek");
      ("kimi-k2-thinking-turbo", Build_ModelPricing 1.20 12.0 "moonshot");
      ("kimi-k2-thinking", Build_ModelPricing 1.20 12.0 "moonshot");
      ("kimi-k2.5", Build_ModelPricing 1.20 12.0 "moonshot");
      ("gemini-2.0-flash-exp", Build_ModelPricing 0.075 0.30 "google") ].

Definition COUNCIL_MODEL_ALIASES : gmap string string :=
  list_to_map
    [ ("gemini-architect", "gemini-2.0-flash-exp");
      ("gemini-flash", "gemini-2.0-flash");
      ("gemini-flash-latest", "gemini-2.0-flash-exp");
      ("gemini-flash-fallback", "gemini-2.0-flash");
      ("gemini-3-pro-semifinal", "gemini-2.0-flash");
      ("gemini-pro", "gemini-2.0-flash-exp");
      ("gemini-pro-latest", "gemini-3-pro-preview");
      ("deepseek-v3", "deepseek-chat");
      ("deepseek-security", "deepseek-reasoner");
      ("kimi-researcher", "kimi-k2-thinking-turbo");
      ("kimi-deep", "kimi-k2-thinking");
      ("kimi-synthesis", "kimi-k2.5");
      ("claude-sonnet", "claude-sonnet-4-20250514");
      ("opus-synthesis", "claude-opus-4-5-20251101");
      ("perplexity-online", "perplexity-online");
      ("perplexity-researcher", "perplexity-researcher") ].

(** [PERPLEXITY_PRICING[model]["cost_per_search"]]. *)
Definition PERPLEXITY_PRICING : gmap string Q :=
  list_to_map
    [ ("perplexity-online", 0.002%Q);
      ("perplexity-researcher", 0.001%Q) ].

Definition get_pricing (model_alias : string) : ModelPricing :=
  match PERPLEXITY_PRICING !! model_alias with
  | Some cost_per_search => Build_ModelPricing cost_per_search 0 "perplexity"
  | None =>
      let underlying_model :=
        default model_alias (COUNCIL_MODEL_ALIASES !! model_alias) in
      match MODEL_PRICING !! underlying_model with
      | None => Build_ModelPricing 1.0 5.0 "unknown"
      | Some p => p
      end
  end.

Definition calculate_cost (model : string)
    (prompt_tokens completion_tokens : Q) : Q :=
  let pricing := get_pricing model in
  let input_cost := (prompt_tokens / 1000000 * input_price_per_1m pricing)%Q in
  let output_cost :=
    (completion_tokens / 1000000 * output_price_per_1m pricing)%Q in
  PyNum.round (input_cost + output_cost) 6.

(** [TIER_COSTS[tier]["estimated_cost_range"]]. *)
Definition TIER_COSTS_range : gmap string (Q * Q) :=
  list_to_map
    [ ("tier_1", (0.001, 0.005)%Q);
      ("tier_2", (0.003, 0.010)%Q);
      ("tier_3", (0.10, 0.30)%Q);
      ("tier_3_lite", (0.05, 0.15)%Q) ].

(** [get_tier_estimate(tier_name)]; [None] stands for the [ValueError]. *)
Definition get_tier_estimate (tier_name : string) : option (Q * Q) :=
  TIER_COSTS_range !! tier_name.

(** [estimate_max_cost(model, max_tokens)]. *)
Definition estimate_max_cost (model : string) (max_tokens : Q) : Q :=
  let pricing := get_pricing model in
  PyNum.round (max_tokens / 1000000 * output_price_per_1m pricing) 6.

End Pricing.

(** ** [dashboard/backend/diamond_cost_predictor.py] *)

Module CostPredictor.
Import PyStr PyNum Pricing.

Record CostEstimate := {
  tier : string;
  models : list string;
  estimated_min_cost : Q;
  estimated_max_cost : Q;
  estimated_tokens : Z;
  can_proceed : bool;
  reason : string
}.

Record TokenEstimate := {
  input_tokens : Z;
  output_per_model : gmap string Q
}.

Record DiamondCostPredictor := {
  monthly_budget : Q;
  current_monthly_spend : Q;
  tier_budget_allocation : gmap string Q
}.

Definition MAX_COST_PER_QUERY : Q := 2.50.
Definition AVG_INPUT_TOKENS_PER_CHAR : Q := 0.25.
Definition AVG_OUTPUT_TOKENS_PER_INPUT : Q := 0.5.

(** [DiamondCostPredictor.__init__]. *)
Definition DiamondCostPredictor_init (monthly_budget current_monthly_spend : Q)
    : DiamondCostPredictor :=
  {| monthly_budget := monthly_budget;
     current_monthly_spend := current_monthly_spend;
     tier_budget_allocation :=
       list_to_map [ ("tier_1", 0.20%Q); ("tier_2", 0.40%Q);
                     ("tier_3", 0.40%Q) ] |}.

Definition nl : string := String (ascii_of_nat 10) "".

Definition estimate_tokens (query context : string) : TokenEstimate :=
  let input_text := query ++ nl ++ context in
  let input_tokens :=
    int (inject_Z (Z.of_nat (String.length input_text))
         * AVG_INPUT_TOKENS_PER_CHAR) in
  let estimated_base_output :=
    inject_Z (int (inject_Z input_tokens * AVG_OUTPUT_TOKENS_PER_INPUT)) in
  {| input_tokens := input_tokens;
     output_per_model :=
       list_to_map
         [ ("claude-sonnet", Qmin estimated_base_output 2000);
           ("deepseek-v3", Qmin (estimated_base_output * 0.8) 2000);
           ("gemini-flash", Qmin (estimated_base_output * 0.5) 1000);
           ("kimi-researcher", Qmin (estimated_base_output * 1.5) 2000);
           ("gemini-pro", Qmin (estimated_base_output * 2.0) 5000);
           ("opus-synthesis", Qmin (estimated_base_output * 1.5) 4000);
           ("perplexity-online", 500%Q);
           ("perplexity-researcher", 300%Q) ] |}.

(** [estimate_tier_cost].  An exception in the loop body can only come
    from the pricing module failing to import, which [pricing_imported]
    records; every model then costs the conservative [0.01]-[0.05]. *)
Definition estimate_tier_cost (pricing_imported : bool) (tier : string)
    (models : list string) (input_tokens : Z)
    (output_per_model : gmap string Q) : Q * Q :=
  let '(min_cost, max_cost) :=
    fold_left
      (fun '(min_cost, max_cost) model =>
         let output_tokens := default 1000%Q (output_per_model !! model) in
         if negb pricing_imported then
           (min_cost + 0.01, max_cost + 0.05)%Q
         else if String.eqb model "perplexity-online"
                 || String.eqb model "perplexity-researcher" then
           let cost := default 0%Q (PERPLEXITY_PRICING !! model) in
           (min_cost + cost, max_cost + cost)%Q
         else
           let cost :=
             calculate_cost model (inject_Z input_tokens) output_tokens in
           (min_cost + cost, max_cost + cost)%Q)
      models (0%Q, 0%Q) in
  (round min_cost 4, round max_cost 4).

Definition check_budget_reservation (self : DiamondCostPredictor)
    (tier : string) (estimated_cost : Q) : bool * string :=
  if gt estimated_cost MAX_COST_PER_QUERY then
    (false, "Cost $" ++ fmt_2f estimated_cost
            ++ " exceeds per-query ceiling of $2.5")
  else
    let remaining_budget :=
      (monthly_budget self - current_monthly_spend self)%Q in
    if gt estimated_cost remaining_budget then
      (false, "Insufficient budget: $" ++ fmt_2f estimated_cost ++ " > $"
              ++ fmt_2f remaining_budget ++ " remaining")
    else
      let share := default 0.20%Q (tier_budget_allocation self !! tier) in
      let tier_budget := (monthly_budget self * share)%Q in
      let tier_spend := (current_monthly_spend self * share)%Q in
      if gt estimated_cost (tier_budget - tier_spend) then
        (false, "Tier budget exceeded: $" ++ fmt_2f estimated_cost ++ " > $"
                ++ fmt_2f (tier_budget - tier_spend)
                ++ " tier budget remaining")
      else (true, "Budget available").

(** [predict_and_reserve]; [models = None] is the default argument. *)
Definition predict_and_reserve (pricing_imported : bool)
    (self : DiamondCostPredictor) (query context tier : string)
    (models : option (list string)) : CostEstimate :=
  let models :=
    match models with
    | Some ms => ms
    | None => default ["claude-sonnet"] (Models.get_models_for_tier tier)
    end in
  let token_estimate := estimate_tokens query context in
  let '(min_cost, max_cost) :=
    estimate_tier_cost pricing_imported tier models
      (input_tokens token_estimate) (output_per_model token_estimate) in
  let '(can_proceed, reason) := check_budget_reservation self tier max_cost in
  {| tier := tier; models := models;
     estimated_min_cost := min_cost; estimated_max_cost := max_cost;
     estimated_tokens := input_tokens token_estimate;
     can_proceed := can_proceed; reason := reason |}.

Definition recommend_degradation (cost_estimate : CostEstimate) : string :=
  if String.eqb (tier cost_estimate) "tier_3" then
    if contains "budget" (lower (reason cost_estimate)) then "tier_1"
    else "tier_3_lite"
  else if String.eqb (tier cost_estimate) "tier_2" then "tier_1"
  else tier cost_estimate.

End CostPredictor.

(** ** [scripts/opus_gatekeeper.py] *)

Module Gatekeeper.
Import PyStr PyNum.

Inductive OpusDecision := INVOKE | SKIP | BUDGET_BLOCK.

Record GatekeeperResult := {
  decision : OpusDecision;
  reason : string;
  confidence : Q;
  category : string;
  tier : string;
  budget_remaining : Q;
  budget_threshold_used : Q
}.

Definition BUDGET_GATE_THRESHOLD : Q := 0.40.
Definition MIN_OPUS_BUDGET : Q := 0.50.

Definition MANDATORY_KEYWORDS : list (string * list string) :=
  [ ("strategy",
     [ "strategy"; "strategic"; "roadmap"; "vision"; "long-term";
       "architecture decision"; "system design"; "tech stack choice";
       "should we"; "which approach"; "evaluate options"; "compare" ]);
    ("architecture",
     [ "architecture"; "design"; "refactor"; "restructure"; "pattern";
       "system"; "module"; "component"; "integration"; "api design";
       "database design"; "schema"; "workflow"; "pipeline" ]);
    ("client_communication",
     [ "client"; "customer"; "stakeholder"; "presentation"; "proposal";
       "explain to"; "communicate"; "report"; "executive summary" ]);
    ("executive",
     [ "executive"; "leadership"; "decision"; "approve"; "authorize";
       "budget"; "timeline"; "resource allocation"; "priority" ]) ].

Definition SKIP_KEYWORDS : list (string * list string) :=
  [ ("code_implementation",
     [ "implement this"; "write code"; "create function"; "add method";
       "implement"; "build this"; "code this" ]);
    ("simple_debugging",
     [ "fix this bug"; "debug"; "error in"; "not working";
       "throws error"; "fails"; "broken" ]);
    ("syntax_error",
     [ "syntax error"; "parse error"; "indentation"; "missing";
       "unexpected token"; "invalid syntax" ]) ].

Record OpusGatekeeper := {
  monthly_budget : Q;
  current_monthly_spend : Q;
  budget_threshold : Q;
  budget_gate : Q
}.

(** [OpusGatekeeper.__init__]; the default [budget_threshold] is
    [BUDGET_GATE_THRESHOLD]. *)
Definition OpusGatekeeper_init
    (monthly_budget current_monthly_spend budget_threshold : Q)
    : OpusGatekeeper :=
  {| monthly_budget := monthly_budget;
     current_monthly_spend := current_monthly_spend;
     budget_threshold := budget_threshold;
     budget_gate := (monthly_budget * budget_threshold)%Q |}.

(** The two nested loops of [_classify_category] over one keyword table:
    the first category, in table order, one of whose keywords occurs in
    the lower-cased query. *)
Fixpoint first_category (table : list (string * list string))
    (query_lower : string) : option string :=
  match table with
  | [] => None
  | (category, keywords) :: rest =>
      if existsb (fun keyword => contains (lower keyword) query_lower) keywords
      then Some category
      else first_category rest query_lower
  end.

Definition _classify_category (query : string) : string * Q :=
  let query_lower := lower query in
  match first_category MANDATORY_KEYWORDS query_lower with
  | Some category => ("MANDATORY:" ++ category, 0.9%Q)
  | None =>
      match first_category SKIP_KEYWORDS query_lower with
      | Some category => ("SKIP:" ++ category, 0.9%Q)
      | None => ("NONE", 0.5%Q)
      end
  end.

Definition _check_budget (self : OpusGatekeeper) : bool * Q :=
  let remaining := (monthly_budget self - current_monthly_spend self)%Q in
  (ge remaining MIN_OPUS_BUDGET, remaining).

Definition _check_tier_eligibility (tier : string) : bool :=
  String.eqb tier "tier_3".

(** [should_invoke_opus(query, tier, token_count, metadata)]; the last
    two arguments are only handed to [classify_query_tier], which does
    not read them. *)
Definition should_invoke_opus (self : OpusGatekeeper) (query : string)
    (tier : option string) : GatekeeperResult :=
  let tier :=
    match tier with
    | None => Models.classify_query_tier query
    | Some t => t
    end in
  let '(category, confidence) := _classify_category query in
  let '(can_invoke_budget, remaining) := _check_budget self in
  let result d r c :=
    {| decision := d; reason := r; confidence := c; category := category;
       tier := tier; budget_remaining := remaining;
       budget_threshold_used := budget_gate self |} in
  if startswith "MANDATORY:" category then
    if can_invoke_budget then
      result INVOKE
        ("MANDATORY category (" ++ after_first ":" category
         ++ ") per Council ruling")
        confidence
    else
      result BUDGET_BLOCK
        ("MANDATORY category but budget insufficient ($"
         ++ fmt_2f remaining ++ " < $0.5)")
        1.0%Q
  else if startswith "SKIP:" category then
    result SKIP
      ("SKIP category (" ++ after_first ":" category ++ ") per Council ruling")
      confidence
  else if gt (current_monthly_spend self) (budget_gate self) then
    result BUDGET_BLOCK
      ("Budget gate exceeded ($" ++ fmt_2f (current_monthly_spend self)
       ++ " > $" ++ fmt_2f (budget_gate self) ++ ")")
      0.8%Q
  else if _check_tier_eligibility tier then
    if can_invoke_budget then
      result INVOKE ("Tier " ++ tier ++ " invokes Opus by default") 0.7%Q
    else
      result BUDGET_BLOCK ("Tier " ++ tier ++ " eligible but budget insufficient")
        0.7%Q
  else
    result SKIP
      ("No mandatory category detected, Tier " ++ tier
       ++ " does not require Opus")
      0.6%Q.

Definition recommend_degradation (result : GatekeeperResult) : option string :=
  match decision result with
  | INVOKE => None
  | BUDGET_BLOCK => Some "gemini-pro"
  | SKIP => if String.eqb (tier result) "tier_3" then Some "gemini-pro" else None
  end.

End Gatekeeper.


(** ** [scripts/gateway.py]: [sanitize_output]

The function works on characters beyond the first 128, so that here a
Python [str] is the list of its code points. *)

Module Sanitize.

(** The code points of an ASCII text. *)
Definition codes (s : string) : list N :=
  map (fun c => N.of_nat (nat_of_ascii c)) (list_ascii_of_string s).

(** The dictionary [replacements], in its order. *)
Definition replacements : list (N * list N) :=
  [ (0x2018%N, codes "'");
    (0x2019%N, codes "'");
    (0x201c%N, [34%N]);
    (0x201d%N, [34%N]);
    (0x2013%N, codes "-");
    (0x2014%N, codes "--");
    (0x2022%N, codes "*");
    (0x2192%N, codes "->");
    (0x2190%N, codes "<-");
    (0x2191%N, codes "^");
    (0x2193%N, codes "v");
    (0x2713%N, codes "[OK]");
    (0x2717%N, codes "[X]");
    (0x26a0%N, codes "[!]");
    (0x27a2%N, codes "[INFO]") ].

(** [text.replace(old, new)] for a single character [old]. *)
Definition replace_char (old : N) (new : list N) (text : list N) : list N :=
  flat_map (fun c => if (c =? old)%N then new else [c]) text.

(** [text.encode('ascii', errors='replace').decode('ascii')]. *)
Definition ascii_replace (text : list N) : list N :=
  map (fun c => if (c <? 128)%N then c else 63%N) text.

(** [sanitize_output(text)]. *)
Definition sanitize_output (text : list N) : list N :=
  match text with
  | [] => text
  | _ =>
      let text :=
        fold_left (fun text entry => replace_char (fst entry) (snd entry) text)
          replacements text in
      if forallb (fun c => (c <? 128)%N) text then text
      else ascii_replace text
  end.

End Sanitize.

(** ** [scripts/build_planner.py]: the helpers of the planning debate *)

Module BuildPlanner.
Import PyStr.

Definition truncation_notice : string :=
  "

[Output truncated due to size limits...]
".

(** [truncate_output(text, max_chars)], for a limit that is not
negative. *)
Definition truncate_output (text : string) (max_chars : nat) : string :=
  if (String.length text <=? max_chars)%nat then text
  else
    let truncated := slice_to max_chars text in
    let last_newline := rfind (ascii_of_nat 10) truncated in
    let truncated :=
      if PyNum.gt (inject_Z last_newline)
           (inject_Z (Z.of_nat max_chars) * 0.8)
      then slice_to (Z.to_nat last_newline) truncated
      else truncated in
    truncated ++ truncation_notice.

End BuildPlanner.

(** * Refinement: quality gate, rollback store and [refine] *)

Module Schemas.
Import PyStr.

Definition nl : string := String (ascii_of_nat 10) "".

(** [re.match(r"^(a|b|c)$", s)]: [s] is one of the alternatives, with at
most a line break after it. *)
Definition re_match_alternatives (alternatives : list string) (s : string)
    : bool :=
  existsb (fun a => String.eqb s a || String.eqb s (a ++ nl)) alternatives.

Definition unhelpful_patterns : list (list string) :=
  [ [ "looks good"; "fine"; "ok"; "approved"; "no issues" ];
    [ "i agree"; "agree"; "sounds good" ];
    [ "no changes"; "no improvements needed" ] ].

(** [QualityGate.validate_refinement_output(output, round_num)]. *)
Definition validate_refinement_output (output : string) (round_num : nat)
    : bool * option string :=
  if String.eqb output "" || (String.length (strip output) <? 50)%nat then
    (false, Some ("Round " ++ str_nat round_num ++ " output too short or empty"))
  else
    let output_lower := lower (strip output) in
    if existsb (fun pattern => re_match_alternatives pattern output_lower)
         unhelpful_patterns then
      (false,
       Some ("Round " ++ str_nat round_num ++ " provided no actual refinement"))
    else
      let has_critique :=
        contains "concern" output_lower
        || contains "issue" output_lower
        || contains "problem" output_lower
        || contains "improve" output_lower
        || contains "recommend" output_lower
        || contains "however" output_lower in
      if (1 <? round_num)%nat && negb has_critique then
        (false, Some ("Round " ++ str_nat round_num ++ " lacks critical review"))
      else (true, None).

(** One saved state, with the time of saving, which is read from the
clock and is an argument here. *)
Record entry (A : Type) := {
  timestamp : string;
  state : A
}.
Arguments timestamp {A} e.
Arguments state {A} e.

(** [RollbackStore]: [self.states], from session to the states saved for
it, oldest first. *)
Definition RollbackStore (A : Type) := gmap string (list (entry A)).

Definition RollbackStore_init {A} : RollbackStore A := ∅.

Definition save_state {A} (self : RollbackStore A) (now : string)
    (session_id : string) (s : A) : RollbackStore A :=
  <[session_id :=
      (default [] (self !! session_id)
       ++ [{| timestamp := now; state := s |}])%list]> self.

Definition get_original {A} (self : RollbackStore A) (session_id : string)
    : option A :=
  match self !! session_id with
  | Some (e :: _) => Some (state e)
  | _ => None
  end.

(** What a lookup by position gives: a value, or the [IndexError] of a
list index out of range. *)
Inductive indexed (A : Type) :=
| Value (a : A)
| IndexError.
Arguments Value {A} a.
Arguments IndexError {A}.

(** [get_previous(session_id, steps_back)]. *)
Definition get_previous {A} (self : RollbackStore A) (session_id : string)
    (steps_back : Z) : indexed (option A) :=
  match self !! session_id with
  | None | Some [] => Value None
  | Some states =>
      let idx := (Z.of_nat (length states) - 1 - steps_back)%Z in
      if (idx <? 0)%Z then Value None
      else
        match states !! Z.to_nat idx with
        | Some e => Value (Some (state e))
        | None => IndexError
        end
  end.

Definition get_latest {A} (self : RollbackStore A) (session_id : string)
    : option A :=
  match self !! session_id with
  | None | Some [] => None
  | Some states => option_map state (last states)
  end.

Definition list_states {A} (self : RollbackStore A) (session_id : string)
    : list (entry A) :=
  default [] (self !! session_id).

End Schemas.

Module Refine.
Import PyStr Http Schemas.

(** [REFINEMENT_MODELS["rounds"]]: model, role and timeout. *)
Definition REFINEMENT_rounds : list (string * string * Z) :=
  [ ("kimi-synthesis", "Draft and initial review", 90%Z);
    ("claude-sonnet", "Critique, expand, and improve", 180%Z);
    ("opus-synthesis", "Final polish and approval", 180%Z) ].

(** The dictionaries that [refine] saves: the first has the keys
[original] and [context] only. *)
Record saved := {
  saved_original : string;
  saved_context : string;
  saved_round : option nat;
  saved_output : option string;
  saved_model : option string
}.

Record critique := {
  critique_round : nat;
  critique_model : string;
  critique_role : string;
  critique_text : string;
  full_output : string
}.

(** The dictionary that [refine] returns; a key that a branch does not
set reads as [None]. *)
Record result := {
  success : bool;
  error : option string;
  refined_output : option string;
  critiques : option (list critique);
  rollback_available : option bool;
  rollback_state : option saved
}.

Definition session : string := "refine_session".

Definition round_prompt (role refined_output context : string) : string :=
  "You are a "
  ++ role
  ++ ". Your task is to review and refine the following text.

INPUT TO REFINE:
"
  ++ refined_output
  ++ "

"
  ++ context
  ++ "

Your CRITICAL REVIEW must:
1. Identify shortcomings and flaws
2. Check system compatibility (Windows/Linux/Mac)
3. Suggest specific improvements
4. Validate assumptions
5. If input is garbage, REJECT it and explain why

Your output should be the IMPROVED version. If the input is fundamentally flawed, explain why it cannot be refined.

Provide the refined text. Focus on progressive enhancement.".

Definition round_system_prompt (role : string) : string :=
  "You are a " ++ role ++ ". Be thorough and specific.".

Section refine.
Variable gateway : Gateway.CouncilGateway.
Variable MODEL_FALLBACKS : gmap string string.
Variable net : backend.
Variable fuel : nat.
(** The clock at the saves of a call: [now 0] at the first one, [now i]
after round [i]. *)
Variable now : nat -> string.
Variable input_text : string.
Variable context : string.

(** The loop over the rounds, from round [i] on.  The calls that record
the run for the dashboard do not touch the result and are left out, as
is what is printed. *)
Fixpoint rounds_from (rounds : list (string * string * Z)) (i : nat)
    (refined_output : string) (critiques : list critique)
    (rollback : RollbackStore saved) (n : nat)
    : option (result * RollbackStore saved * list request) :=
  match rounds with
  | [] =>
      Some ({| success := true;
               error := None;
               refined_output := Some refined_output;
               critiques := Some critiques;
               rollback_available := None;
               rollback_state := get_latest rollback session |},
            rollback, [])
  | (model, role, timeout) :: rest =>
      '(r, l) ← Gateway.call_model gateway MODEL_FALLBACKS net fuel model
                  (round_system_prompt role)
                  (round_prompt role refined_output context)
                  (Some timeout) 0.7 None n;
      if negb (Gateway.success r) then
        let original := get_original rollback session in
        Some ({| success := false;
                 error :=
                   Some ("Round " ++ str_nat i ++ " failed: "
                         ++ default "None" (Gateway.error r));
                 refined_output := None;
                 critiques := None;
                 rollback_available :=
                   Some (match original with Some _ => true | None => false end);
                 rollback_state := original |},
              rollback, l)
      else
        let round_output := default "" (Gateway.content r) in
        let '(passes, reason) := validate_refinement_output round_output i in
        match (if passes then None else get_original rollback session) with
        | Some original_state =>
            Some ({| success := false;
                     error :=
                       Some ("Quality gate failed at round " ++ str_nat i
                             ++ ": " ++ default "None" reason);
                     refined_output := Some (saved_original original_state);
                     critiques := Some critiques;
                     rollback_available := None;
                     rollback_state := Some original_state |},
                  rollback, l)
        | None =>
            let rollback :=
              save_state rollback (now i) session
                {| saved_original := input_text; saved_context := context;
                   saved_round := Some i; saved_output := Some round_output;
                   saved_model := Some model |} in
            let critiques :=
              (critiques
               ++ [{| critique_round := i; critique_model := model;
                      critique_role := role;
                      critique_text :=
                        if (500 <? String.length round_output)%nat
                        then slice_to 500 round_output else round_output;
                      full_output := round_output |}])%list in
            '(res, rollback, l') ← rounds_from rest (S i) round_output
                                     critiques rollback (n + length l)%nat;
            Some (res, rollback, (l ++ l')%list)
        end
  end.

(** [refine(input_text, context)], on the store [rollback] that
[get_rollback_store] hands out, the same for every call. *)
Definition refine (rollback : RollbackStore saved) (n : nat)
    : option (result * RollbackStore saved * list request) :=
  let rollback :=
    save_state rollback (now 0%nat) session
      {| saved_original := input_text; saved_context := context;
         saved_round := None; saved_output := None; saved_model := None |} in
  rounds_from REFINEMENT_rounds 1 input_text [] rollback n.

End refine.

End Refine.

(** * Vocabulary of the properties *)

Module Spec.
Import PyStr PyNum.

(** Verdict extraction in the order of the specification: REJECTED first,
then CONDITIONAL or NEEDS_DEBATE, then APPROVED, else UNCLEAR. *)
Definition verdict_rejected_first (content : string) : string :=
  let u := upper content in
  if contains "REJECTED" u then "REJECTED"
  else if contains "CONDITIONAL" u || contains "NEEDS_DEBATE" u
       then "CONDITIONAL"
  else if contains "APPROVED" u && negb (contains "CONDITIONAL" u)
       then "APPROVED"
  else "UNCLEAR".

(** Some keyword of a category table occurs in the query, letter case
apart. *)
Definition mentions (table : list (string * list string)) (query : string)
    : bool :=
  existsb
    (fun entry => existsb (fun keyword => contains keyword (lower query))
                    (snd entry))
    table.

(** The three budget checks of the cost predictor, in order, against the
outcome [(can_proceed, reason)] for an estimated maximum cost. *)
Definition checks_in_order (self : CostPredictor.DiamondCostPredictor)
    (tier : string) (cost : Q) (can_proceed : bool) (reason : string) : Prop :=
  let remaining :=
    (CostPredictor.monthly_budget self
     - CostPredictor.current_monthly_spend self)%Q in
  let share :=
    default 0.20%Q (CostPredictor.tier_budget_allocation self !! tier) in
  let tier_remaining :=
    (CostPredictor.monthly_budget self * share
     - CostPredictor.current_monthly_spend self * share)%Q in
  (can_proceed = true <->
   (cost <= 2.50 /\ cost <= remaining /\ cost <= tier_remaining)%Q)
  /\ ((2.50 < cost)%Q ->
      can_proceed = false
      /\ reason = "Cost $" ++ fmt_2f cost
                  ++ " exceeds per-query ceiling of $2.5")
  /\ ((cost <= 2.50)%Q -> (remaining < cost)%Q ->
      can_proceed = false
      /\ reason = "Insufficient budget: $" ++ fmt_2f cost ++ " > $"
                  ++ fmt_2f remaining ++ " remaining")
  /\ ((cost <= 2.50)%Q -> (cost <= remaining)%Q -> (tier_remaining < cost)%Q ->
      can_proceed = false
      /\ reason = "Tier budget exceeded: $" ++ fmt_2f cost ++ " > $"
                  ++ fmt_2f tier_remaining ++ " tier budget remaining")
  /\ ((cost <= 2.50)%Q -> (cost <= remaining)%Q -> (cost <= tier_remaining)%Q ->
      reason = "Budget available").

(** The chain of aliases that the fallback table gives from [model] on:
it ends at the first alias without a (truthy) fallback.  Its length is the
chain length.  A chain exists exactly when following the table from
[model] does not run into a cycle ([fallback_chain_iff_no_cycle]). *)
Inductive fallback_chain (fallbacks : gmap string string)
    : string -> list string -> Prop :=
| chain_last model :
    truthy (fallbacks !! model) = None ->
    fallback_chain fallbacks model [model]
| chain_hop model fallback rest :
    truthy (fallbacks !! model) = Some fallback ->
    fallback_chain fallbacks fallback rest ->
    fallback_chain fallbacks model (model :: rest).

(** The alias reached from [model] after [k] fallback hops, if the table
leads that far. *)
Fixpoint walk (fallbacks : gmap string string) (k : nat) (model : string)
    : option string :=
  match k with
  | O => Some model
  | S k' =>
      match walk fallbacks k' model with
      | Some alias => truthy (fallbacks !! alias)
      | None => None
      end
  end.

(** Following the table from [model] runs into a cycle: some alias is
reached twice. *)
Definition runs_into_cycle (fallbacks : gmap string string) (model : string)
    : Prop :=
  exists i j alias,
    (i < j)%nat
    /\ walk fallbacks i model = Some alias
    /\ walk fallbacks j model = Some alias.

(** The backend fails every request with a request failure that is not a
timeout. *)
Definition always_request_error (net : Http.backend) : Prop :=
  forall n req, exists e, net n req = Http.RequestError e.

(** The backend fails every request, in whatever way. *)
Definition never_replies (net : Http.backend) : Prop :=
  forall n req,
    match net n req with
    | Http.Replied _ _ _ _ => False
    | _ => True
    end.

(** The backend times out on every request. *)
Definition always_timeout (net : Http.backend) : Prop :=
  forall n req, net n req = Http.Timeout.

(** In the requests [log] issued from request number [n] on, a request
that timed out is followed, if at all, by the same request again. *)
Definition retried_after_timeout (net : Http.backend) (n : nat)
    (log : list Http.request) : Prop :=
  forall i req req',
    log !! i = Some req -> log !! S i = Some req' ->
    net (n + i)%nat req = Http.Timeout ->
    req' = req.

(** In the requests [log] issued from request number [n] on, a request
that timed out is followed, if at all, by a request to the fallback of its
alias, which is another alias. *)
Definition hopped_after_timeout (fallbacks : gmap string string)
    (net : Http.backend) (n : nat) (log : list Http.request) : Prop :=
  forall i req req',
    log !! i = Some req -> log !! S i = Some req' ->
    net (n + i)%nat req = Http.Timeout ->
    fallbacks !! Http.req_model req = Some (Http.req_model req')
    /\ Http.req_model req' <> Http.req_model req.

(** A submitted call fails when an exception escapes it or when its
response is not a success. *)
Definition call_failed (s : Executor.settled) : bool :=
  match s with
  | Executor.Returned r => negb (Executor.success r)
  | Executor.Raised _ => true
  end.

(** Every keyword of the table is in lower case. *)
Definition lower_case_table (table : list (string * list string)) : bool :=
  forallb
    (fun entry => forallb (fun keyword => String.eqb (lower keyword) keyword)
                    (snd entry))
    table.

(** A backend that refuses every connection. *)
Definition refusing : Http.backend :=
  fun _ _ => Http.RequestError "connection refused".

(** A backend that never answers in time. *)
Definition silent : Http.backend := fun _ _ => Http.Timeout.

(** A text of [n] characters. *)
Fixpoint text_of_length (n : nat) : string :=
  match n with
  | O => ""
  | S k => String "A" (text_of_length k)
  end.

(** A backend that answers every request with a text of [n] characters. *)
Definition chatty (n : nat) : Http.backend :=
  fun _ _ => Http.Replied (text_of_length n) 0 0 0.

(** *** The protocol of [call_model] *)

(** What [call_model] answers when its last request [last] had the outcome
[o]. *)
Definition response_of (last : Http.request) (o : Http.outcome)
    : Gateway.response :=
  let model := Http.req_model last in
  match o with
  | Http.Replied c _ _ total =>
      {| Gateway.success := true; Gateway.content := Some c;
         Gateway.model := model; Gateway.tokens := total;
         Gateway.error := None |}
  | Http.NoContent e =>
      Gateway.failure model ("Invalid response format: " ++ e)
  | Http.Timeout =>
      Gateway.failure model
        ("Request timeout after " ++ str_Z (Http.req_timeout last) ++ "s")
  | Http.RequestError e =>
      Gateway.failure model ("Request failed: " ++ slice_to 100 e)
  | Http.OtherError e =>
      Gateway.failure model ("Unexpected error: " ++ slice_to 100 e)
  end.

(** The same request, addressed to another alias. *)
Definition readdressed (alias : string) (req : Http.request) : Http.request :=
  Http.mk_request alias (Http.req_system req) (Http.req_user req)
    (Http.req_temperature req) (Http.req_max_tokens req)
    (Http.req_timeout req).

(** In the requests [log] issued by [_execute_model] from request number
[n] on, a request that timed out, for an alias whose fallback is another
alias that the Perplexity client does not serve, is followed by the same
request addressed to the fallback. *)
Definition hops_on_timeout (self : Executor.ParallelExecutor)
    (fallbacks : gmap string string) (net : Http.backend) (n : nat)
    (log : list Http.request) : Prop :=
  forall i req fallback,
    log !! i = Some req ->
    net (n + i)%nat req = Http.Timeout ->
    truthy (fallbacks !! Http.req_model req) = Some fallback ->
    fallback <> Http.req_model req ->
    startswith "perplexity-" fallback = false
    \/ Executor.perplexity self = None ->
    log !! S i = Some (readdressed fallback req).

(** When the request of attempt number [attempt] on an alias may be the
last one of the call: a timeout must have used up the retries, and a
request failure must have no fallback to go to, or not be the first
attempt. *)
Definition final (max_retries : nat) (fallbacks : gmap string string)
    (attempt : nat) (req : Http.request) (o : Http.outcome) : Prop :=
  match o with
  | Http.Timeout => attempt = max_retries
  | Http.RequestError _ =>
      attempt <> 0%nat \/ truthy (fallbacks !! Http.req_model req) = None
  | _ => True
  end.

(** [protocol max_retries fallbacks net attempt n log last o]: the requests
[log], issued from request number [n] on and starting with attempt number
[attempt] on the first alias, end with the request [last], whose outcome is
[o]; a request is repeated after a timeout while retries are left, and is
readdressed to the fallback after a request failure at a first attempt. *)
Inductive protocol (max_retries : nat) (fallbacks : gmap string string)
    (net : Http.backend)
    : nat -> nat -> list Http.request -> Http.request -> Http.outcome -> Prop :=
| protocol_last attempt n req :
    final max_retries fallbacks attempt req (net n req) ->
    protocol max_retries fallbacks net attempt n [req] req (net n req)
| protocol_retry attempt n req log last o :
    net n req = Http.Timeout ->
    (attempt < max_retries)%nat ->
    protocol max_retries fallbacks net (S attempt) (S n) (req :: log) last o ->
    protocol max_retries fallbacks net attempt n (req :: req :: log) last o
| protocol_hop n req e fallback log last o :
    net n req = Http.RequestError e ->
    truthy (fallbacks !! Http.req_model req) = Some fallback ->
    protocol max_retries fallbacks net 0 (S n) (readdressed fallback req :: log)
      last o ->
    protocol max_retries fallbacks net 0 n
      (req :: readdressed fallback req :: log) last o.

(** A backend whose answers are scripted by request number; past the
script every request is answered with [rest]. *)
Definition scripted (script : list Http.outcome) (rest : Http.outcome)
    : Http.backend :=
  fun n _ => nth n script rest.

(** The chain of aliases that [_execute_model] can go through from
[model] on: it ends at the first alias without a (truthy) fallback, or
whose fallback is the alias itself. *)
Inductive executor_chain (fallbacks : gmap string string)
    : string -> list string -> Prop :=
| executor_chain_last model :
    truthy (fallbacks !! model) = None
    \/ truthy (fallbacks !! model) = Some model ->
    executor_chain fallbacks model [model]
| executor_chain_hop model fallback rest :
    truthy (fallbacks !! model) = Some fallback ->
    fallback <> model ->
    executor_chain fallbacks fallback rest ->
    executor_chain fallbacks model (model :: rest).

(** A pool in which the first call answers, the second raises and the
others answer with a failure. *)
Definition mixed_run : Executor.runner :=
  fun i model _ _ _ _ =>
    match i with
    | 0%nat =>
        Executor.Returned
          {| Executor.model := model; Executor.content := "fine";
             Executor.success := true; Executor.cost := 0.01;
             Executor.tokens_used := 10; Executor.error := None;
             Executor.fallback_used := None |}
    | 1%nat => Executor.Raised "boom"
    | _ => Executor.Returned (Executor.failed model "HTTP 500")
    end.

(** A pool in which every call is answered by a fallback: the response
is a success with the content [content], renamed as [_execute_model]
renames it. *)
Definition via_fallback_run (content : string) : Executor.runner :=
  fun _ model _ _ _ _ =>
    Executor.Returned
      {| Executor.model := model ++ " (via claude-sonnet)";
         Executor.content := content; Executor.success := true;
         Executor.cost := 0; Executor.tokens_used := 0;
         Executor.error := None; Executor.fallback_used := Some model |}.

(** A pool in which every call is answered with the content [content]. *)
Definition answering_run (content : string) : Executor.runner :=
  fun _ model _ _ _ _ =>
    Executor.Returned
      {| Executor.model := model; Executor.content := content;
         Executor.success := true; Executor.cost := 0.01;
         Executor.tokens_used := 10; Executor.error := None;
         Executor.fallback_used := None |}.

(** From request number [k] on, the backend answers no request. *)
Definition fails_from (net : Http.backend) (k : nat) : Prop :=
  forall n req,
    (k <= n)%nat ->
    match net n req with
    | Http.Replied _ _ _ _ => False
    | _ => True
    end.

(** The aliases from which the shipped fallbacks lead into the pair
[claude-sonnet], [opus-synthesis]. *)
Definition leads_into_cycle : list string :=
  [ "claude-sonnet"; "opus-synthesis"; "kimi-synthesis"; "kimi-researcher";
    "kimi-deep"; "gemini-3-pro-semifinal"; "gemini-pro"; "gemini-pro-latest" ].

(** Once the backend has stopped answering, no amount of fuel makes
[_execute_model] return on [alias]. *)
Definition never_returns (self : Executor.ParallelExecutor)
    (fallbacks : gmap string string) (net : Http.backend) (alias : string)
    : Prop :=
  forall (fuel : nat) (prompt : string) (system_prompt : option string)
    (max_tokens : Z) (timeout : option Z) (n : nat),
    fails_from net n ->
    Executor._execute_model self fallbacks net fuel alias prompt
      system_prompt max_tokens timeout n = None.

(** The other alias of the pair [claude-sonnet], [opus-synthesis]. *)
Definition across (alias : string) : string :=
  if String.eqb alias "claude-sonnet" then "opus-synthesis"
  else "claude-sonnet".

(** [k] aliases, to and fro between the two of the pair, from [alias]
on. *)
Fixpoint to_and_fro (k : nat) (alias : string) : list string :=
  match k with
  | O => []
  | S k' => alias :: to_and_fro k' (across alias)
  end.

End Spec.

(** * Properties *)

(** ** Strings *)

Section string_facts.
Import PyStr.

Lemma append_nil (t : string) : "" ++ t = t.
Proof. reflexivity. Qed.

Lemma append_cons (c : ascii) (s t : string) :
  String c s ++ t = String c (s ++ t).
Proof. reflexivity. Qed.

Lemma append_assoc (s t u : string) : (s ++ t) ++ u = s ++ t ++ u.
Proof.
  induction s as [|c s IH]; [reflexivity|].
  rewrite !append_cons. congruence.
Qed.

Lemma length_append (s t : string) :
  String.length (s ++ t) = (String.length s + String.length t)%nat.
Proof.
  induction s as [|c s IH]; [reflexivity|].
  rewrite append_cons. simpl. congruence.
Qed.

Lemma prefix_app (p s : string) :
  String.prefix p s = true <-> exists t, s = p ++ t.
Proof.
  revert s; induction p as [|a p IH]; intros s.
  - destruct s; simpl; split; eauto.
  - destruct s as [|b s]; simpl.
    + split; [discriminate | intros [t Ht]; discriminate].
    + destruct (ascii_dec a b) as [->|Hab].
      * rewrite IH. split; intros [t Ht]; exists t;
          rewrite append_cons in *; congruence.
      * split; [discriminate|].
        intros [t Ht]. rewrite append_cons in Ht. congruence.
Qed.

(** [contains] is Python's substring test. *)
Lemma contains_spec (sub s : string) :
  contains sub s = true <-> exists pre post, s = pre ++ sub ++ post.
Proof.
  induction s as [|c s IH]; cbn [contains].
  - rewrite orb_false_r, prefix_app. split.
    + intros [t Ht]. exists "", t. exact Ht.
    + intros [pre [post H]]. destruct pre; [eauto | discriminate].
  - rewrite orb_true_iff, prefix_app, IH. split.
    + intros [[t Ht] | [pre [post H]]].
      * exists "", t. exact Ht.
      * exists (String c pre), post. rewrite append_cons. congruence.
    + intros [pre [post H]]. destruct pre as [|a pre].
      * left. eauto.
      * right. exists pre, post. rewrite append_cons in H. congruence.
Qed.

Lemma contains_append_r (sub s t : string) :
  contains sub s = true -> contains sub (s ++ t) = true.
Proof.
  rewrite !contains_spec. intros [pre [post ->]].
  exists pre, (post ++ t). rewrite !append_assoc. reflexivity.
Qed.

Lemma truthy_Some (o : option string) (s : string) :
  truthy o = Some s -> o = Some s.
Proof. destruct o as [[|c t]|]; simpl; congruence. Qed.

End string_facts.

(** ** Tier classification *)

Section tier_examples.
Import PyStr Models.

Example scenario_A_tier :
  classify_query_tier "fix this syntax error" = "tier_1".
Proof. reflexivity. Qed.

Example scenario_B_tier :
  classify_query_tier "@council_v2 should we use PostgreSQL or MongoDB"
  = "tier_3".
Proof. reflexivity. Qed.

Example tag_beats_simple_keyword :
  classify_query_tier "@COUNCIL_LITE fix this" = "tier_3_lite".
Proof. reflexivity. Qed.

Lemma classify_query_tier_case_insensitive (q1 q2 : string) :
  lower q1 = lower q2 -> classify_query_tier q1 = classify_query_tier q2.
Proof. unfold classify_query_tier. intros ->. reflexivity. Qed.

End tier_examples.

(** C9. [classify_query_tier] returns, for every query, one of the four
tier names; an explicit tag decides the tier whatever keywords the
query holds ([@council_v2] first, then [@council_lite], then
[@research]); and, with no tag, a simple-implementation keyword gives
[tier_1] even when an architecture or comparison keyword (or a
documentation keyword) is present too. *)
Theorem classify_query_tier_total_tags_first (query : string) :
  let q := PyStr.lower query in
  let tier := Models.classify_query_tier query in
  (tier = "tier_1" \/ tier = "tier_2" \/ tier = "tier_3"
   \/ tier = "tier_3_lite")
  /\ (PyStr.contains "@council_v2" q = true -> tier = "tier_3")
  /\ (PyStr.contains "@council_v2" q = false ->
      PyStr.contains "@council_lite" q = true -> tier = "tier_3_lite")
  /\ (PyStr.contains "@council_v2" q = false ->
      PyStr.contains "@council_lite" q = false ->
      PyStr.contains "@research" q = true -> tier = "tier_2")
  /\ (PyStr.contains "@council_v2" q = false ->
      PyStr.contains "@council_lite" q = false ->
      PyStr.contains "@research" q = false ->
      Models.any_in Models.SIMPLE_IMPLEMENTATION_KEYWORDS q = true ->
      tier = "tier_1").
Proof.
  cbv zeta. unfold Models.classify_query_tier.
  generalize (PyStr.lower query) as q. intros q.
  destruct (PyStr.contains "@council_v2" q);
    destruct (PyStr.contains "@council_lite" q);
    destruct (PyStr.contains "@research" q);
    destruct (Models.any_in Models.SIMPLE_IMPLEMENTATION_KEYWORDS q);
    destruct (Models.any_in Models.EXTERNAL_DOCS_KEYWORDS q);
    destruct (Models.any_in Models.ARCHITECTURAL_KEYWORDS q);
    intuition congruence.
Qed.

(** The precedence of C9 at a query that holds a simple-implementation
keyword and two architecture keywords. *)
Lemma classify_query_tier_total_tags_first_witness :
  Models.any_in Models.ARCHITECTURAL_KEYWORDS
    (PyStr.lower "Implement a new system architecture") = true
  /\ Models.classify_query_tier "Implement a new system architecture"
     = "tier_1".
Proof.
  split; [reflexivity|].
  apply (classify_query_tier_total_tags_first
           "Implement a new system architecture"); reflexivity.
Defined.

(** ** Verdict extraction *)

Section verdict_examples.
Import PyStr Orchestrator.

Example verdict_approved_and_conditional :
  _extract_recommendation "APPROVED in part, CONDITIONAL on a fix" = "CONDITIONAL".
Proof. reflexivity. Qed.

Example verdict_no_token :
  _extract_recommendation "Looks fine to me." = "UNCLEAR".
Proof. reflexivity. Qed.

Example verdict_lower_case :
  _extract_recommendation "the plan is rejected" = "REJECTED".
Proof. reflexivity. Qed.

End verdict_examples.

(** C4, as the claim states it, fails: a text that holds both REJECTED and
APPROVED (and not CONDITIONAL) is extracted as APPROVED, and so is a text
that holds NEEDS_DEBATE and APPROVED. *)
Lemma extract_recommendation_not_rejected_first :
  PyStr.contains "REJECTED"
    (PyStr.upper "Plan A is APPROVED; plan B is REJECTED.") = true
  /\ Orchestrator._extract_recommendation
       "Plan A is APPROVED; plan B is REJECTED." = "APPROVED"
  /\ Spec.verdict_rejected_first
       "Plan A is APPROVED; plan B is REJECTED." = "REJECTED"
  /\ Orchestrator._extract_recommendation
       "needs_debate before this can be approved" = "APPROVED"
  /\ Spec.verdict_rejected_first
       "needs_debate before this can be approved" = "CONDITIONAL".
Proof. repeat split; reflexivity. Qed.

(** C4, amended.  [_extract_recommendation] tests, on the upper-cased
text: APPROVED present and CONDITIONAL absent gives APPROVED; otherwise
REJECTED present gives REJECTED; otherwise CONDITIONAL or NEEDS_DEBATE
present gives CONDITIONAL; otherwise UNCLEAR.  APPROVED together with
CONDITIONAL gives CONDITIONAL when REJECTED is absent, a text with none
of the four tokens gives UNCLEAR, and the result is that of the
REJECTED-first order except when APPROVED occurs without CONDITIONAL and
with REJECTED or NEEDS_DEBATE. *)
Theorem extract_recommendation_order (content : string) :
  let u := PyStr.upper content in
  let approved := PyStr.contains "APPROVED" u in
  let conditional := PyStr.contains "CONDITIONAL" u in
  let rejected := PyStr.contains "REJECTED" u in
  let needs_debate := PyStr.contains "NEEDS_DEBATE" u in
  let verdict := Orchestrator._extract_recommendation content in
  (approved = true -> conditional = false -> verdict = "APPROVED")
  /\ (approved && negb conditional = false -> rejected = true ->
      verdict = "REJECTED")
  /\ (approved && negb conditional = false -> rejected = false ->
      conditional || needs_debate = true -> verdict = "CONDITIONAL")
  /\ (approved && negb conditional = false -> rejected = false ->
      conditional || needs_debate = false -> verdict = "UNCLEAR")
  /\ (approved = true -> conditional = true -> rejected = false ->
      verdict = "CONDITIONAL")
  /\ (approved = false -> conditional = false -> rejected = false ->
      needs_debate = false -> verdict = "UNCLEAR")
  /\ (approved && negb conditional && (rejected || needs_debate) = false ->
      verdict = Spec.verdict_rejected_first content).
Proof.
  cbv zeta.
  unfold Orchestrator._extract_recommendation, Spec.verdict_rejected_first.
  generalize (PyStr.upper content) as u. intros u.
  destruct (PyStr.contains "APPROVED" u);
    destruct (PyStr.contains "CONDITIONAL" u);
    destruct (PyStr.contains "REJECTED" u);
    destruct (PyStr.contains "NEEDS_DEBATE" u);
    simpl; intuition congruence.
Qed.

(** The amended C4 at a text with APPROVED and CONDITIONAL. *)
Lemma extract_recommendation_order_witness :
  Orchestrator._extract_recommendation
    "APPROVED in part, CONDITIONAL on a fix" = "CONDITIONAL".
Proof.
  apply (extract_recommendation_order
           "APPROVED in part, CONDITIONAL on a fix"); reflexivity.
Defined.

(** ** The cost predictor *)

Ltac q_contra :=
  match goal with
  | H1 : (?x < ?y)%Q, H2 : (?y <= ?x)%Q |- _ =>
      exfalso; exact (Qlt_not_le _ _ H1 H2)
  end.

Ltac settle_check :=
  simpl;
  first
    [ split; [discriminate | intros (? & ? & ?); q_contra]
    | split; [intros _; repeat split; assumption | reflexivity]
    | intros; first [q_contra | split; reflexivity | reflexivity] ].

Section cost_predictor_facts.
Import PyNum CostPredictor.

Lemma gt_true (x y : Q) : gt x y = true <-> (y < x)%Q.
Proof.
  unfold gt. rewrite negb_true_iff, <- not_true_iff_false, Qle_bool_iff.
  split; [apply Qnot_le_lt | apply Qlt_not_le].
Qed.

Lemma gt_false (x y : Q) : gt x y = false <-> (x <= y)%Q.
Proof. unfold gt. rewrite negb_false_iff. apply Qle_bool_iff. Qed.

Lemma ge_true (x y : Q) : ge x y = true <-> (y <= x)%Q.
Proof. apply Qle_bool_iff. Qed.

Lemma ge_false (x y : Q) : ge x y = false <-> (x < y)%Q.
Proof.
  unfold ge. rewrite <- not_true_iff_false, Qle_bool_iff.
  split; [apply Qnot_le_lt | apply Qlt_not_le].
Qed.

Lemma check_budget_reservation_in_order
    (self : DiamondCostPredictor) (tier : string) (cost : Q) :
  Spec.checks_in_order self tier cost
    (fst (check_budget_reservation self tier cost))
    (snd (check_budget_reservation self tier cost)).
Proof.
  unfold Spec.checks_in_order, check_budget_reservation, MAX_COST_PER_QUERY.
  cbv zeta.
  set (remaining := (monthly_budget self - current_monthly_spend self)%Q).
  set (share := default 0.20%Q (tier_budget_allocation self !! tier)).
  set (tier_remaining :=
         (monthly_budget self * share - current_monthly_spend self * share)%Q).
  destruct (gt cost 2.50) eqn:H1;
    [apply gt_true in H1 | apply gt_false in H1].
  { split; [|split; [|split; [|split]]]; settle_check. }
  destruct (gt cost remaining) eqn:H2;
    [apply gt_true in H2 | apply gt_false in H2].
  { split; [|split; [|split; [|split]]]; settle_check. }
  destruct (gt cost tier_remaining) eqn:H3;
    [apply gt_true in H3 | apply gt_false in H3].
  { split; [|split; [|split; [|split]]]; settle_check. }
  split; [|split; [|split; [|split]]]; settle_check.
Qed.

Lemma predict_and_reserve_checks (pricing_imported : bool)
    (self : DiamondCostPredictor) (query context tier : string)
    (models : option (list string)) :
  let estimate :=
    predict_and_reserve pricing_imported self query context tier models in
  (can_proceed estimate, reason estimate)
  = check_budget_reservation self tier (estimated_max_cost estimate).
Proof.
  unfold predict_and_reserve. cbv zeta.
  destruct (estimate_tier_cost _ _ _ _ _) as [min_cost max_cost].
  destruct (check_budget_reservation self tier max_cost) as [ok why] eqn:E.
  simpl. congruence.
Qed.

End cost_predictor_facts.

(** C1. The outcome of [check_budget_reservation], and so the
[can_proceed] and [reason] of every [predict_and_reserve] estimate, is that
of the three checks in order: the per-query ceiling of $2.50, the remaining
monthly budget, the remaining budget of the tier; [can_proceed] holds
exactly when the three pass, the first check that fails gives the reason,
and an estimate above the ceiling never proceeds. *)
Theorem budget_checks_in_order (pricing_imported : bool)
    (self : CostPredictor.DiamondCostPredictor) (query context tier : string)
    (models : option (list string)) :
  let estimate :=
    CostPredictor.predict_and_reserve pricing_imported self query context
      tier models in
  (forall cost : Q,
     Spec.checks_in_order self tier cost
       (fst (CostPredictor.check_budget_reservation self tier cost))
       (snd (CostPredictor.check_budget_reservation self tier cost)))
  /\ Spec.checks_in_order self tier
       (CostPredictor.estimated_max_cost estimate)
       (CostPredictor.can_proceed estimate) (CostPredictor.reason estimate)
  /\ ((2.50 < CostPredictor.estimated_max_cost estimate)%Q ->
      CostPredictor.can_proceed estimate = false).
Proof.
  intros estimate.
  pose proof (predict_and_reserve_checks pricing_imported self query context
                tier models) as E.
  fold estimate in E. cbv zeta in E.
  pose proof (check_budget_reservation_in_order self tier
                (CostPredictor.estimated_max_cost estimate)) as H.
  rewrite <- E in H. simpl in H.
  split; [intros cost; apply check_budget_reservation_in_order|].
  split; [exact H|].
  intros Hgt. destruct H as (_ & Hceiling & _).
  apply (Hceiling Hgt).
Qed.

Section cost_predictor_examples.
Import CostPredictor.

Example over_the_ceiling :
  check_budget_reservation (DiamondCostPredictor_init 100 0) "tier_3" 3
  = (false, "Cost $3.00 exceeds per-query ceiling of $2.5").
Proof. reflexivity. Qed.

Example over_the_remaining_budget :
  check_budget_reservation (DiamondCostPredictor_init 100 99) "tier_1" 1.5
  = (false, "Insufficient budget: $1.50 > $1.00 remaining").
Proof. reflexivity. Qed.

Example over_the_tier_budget :
  check_budget_reservation (DiamondCostPredictor_init 10 0) "tier_1" 2.2
  = (false, "Tier budget exceeded: $2.20 > $2.00 tier budget remaining").
Proof. reflexivity. Qed.

Example tier_3_estimate :
  let e :=
    predict_and_reserve true (DiamondCostPredictor_init 100 0)
      "@council_v2 design a new auth system architecture" "" "tier_3" None in
  (estimated_tokens e, estimated_max_cost e, can_proceed e, reason e)
  = (12%Z, 0.0031%Q, true, "Budget available").
Proof. vm_compute. reflexivity. Qed.

End cost_predictor_examples.

(** ** The gatekeeper *)

Section gatekeeper_facts.
Import PyStr PyNum Gatekeeper.


Lemma first_category_mentions (table : list (string * list string))
    (query : string) :
  Spec.lower_case_table table = true ->
  Spec.mentions table query
  = match first_category table (lower query) with
    | Some _ => true
    | None => false
    end.
Proof.
  unfold Spec.mentions.
  induction table as [|[category keywords] rest IH]; simpl; [reflexivity|].
  rewrite andb_true_iff. intros [Hk Hrest].
  assert (existsb (fun keyword => contains (lower keyword) (lower query))
            keywords
          = existsb (fun keyword => contains keyword (lower query)) keywords)
    as ->.
  { clear -Hk. induction keywords as [|k ks IHk]; simpl; [reflexivity|].
    simpl in Hk. apply andb_true_iff in Hk as [Hk1 Hk2].
    apply String.eqb_eq in Hk1. rewrite Hk1, (IHk Hk2). reflexivity. }
  destruct (existsb _ keywords); simpl; [reflexivity | apply IH, Hrest].
Qed.

Lemma startswith_tag (tag rest : string) : startswith tag (tag ++ rest) = true.
Proof. apply prefix_app. eauto. Qed.

(** The category that [_classify_category] reports, read off the keyword
tables: mandatory keywords come first. *)
Lemma classify_category_mentions (query : string) :
  let category := fst (_classify_category query) in
  (Spec.mentions MANDATORY_KEYWORDS query = true ->
   startswith "MANDATORY:" category = true)
  /\ (Spec.mentions MANDATORY_KEYWORDS query = false ->
      Spec.mentions SKIP_KEYWORDS query = true ->
      startswith "SKIP:" category = true)
  /\ (Spec.mentions MANDATORY_KEYWORDS query = false ->
      Spec.mentions SKIP_KEYWORDS query = false ->
      category = "NONE").
Proof.
  cbv zeta.
  rewrite (first_category_mentions MANDATORY_KEYWORDS query eq_refl).
  rewrite (first_category_mentions SKIP_KEYWORDS query eq_refl).
  unfold _classify_category.
  destruct (first_category MANDATORY_KEYWORDS (lower query)) as [c|];
    [|destruct (first_category SKIP_KEYWORDS (lower query)) as [c|]];
    simpl fst; repeat split; try discriminate; intros;
      try apply startswith_tag; reflexivity.
Qed.

(** The decision of [should_invoke_opus], read off the keyword tables. *)
Lemma should_invoke_opus_decision (self : OpusGatekeeper) (query : string)
    (tier : option string) :
  decision (should_invoke_opus self query tier)
  = let tier := default (Models.classify_query_tier query) tier in
    let floor :=
      ge (monthly_budget self - current_monthly_spend self) MIN_OPUS_BUDGET in
    if Spec.mentions MANDATORY_KEYWORDS query then
      if floor then INVOKE else BUDGET_BLOCK
    else if Spec.mentions SKIP_KEYWORDS query then SKIP
    else if gt (current_monthly_spend self) (budget_gate self) then BUDGET_BLOCK
    else if String.eqb tier "tier_3" then
      if floor then INVOKE else BUDGET_BLOCK
    else SKIP.
Proof.
  rewrite (first_category_mentions MANDATORY_KEYWORDS query eq_refl).
  rewrite (first_category_mentions SKIP_KEYWORDS query eq_refl).
  unfold should_invoke_opus, _classify_category, _check_budget,
    _check_tier_eligibility.
  cbv zeta.
  destruct (first_category MANDATORY_KEYWORDS (lower query)) as [c|].
  { rewrite startswith_tag.
    destruct (ge _ MIN_OPUS_BUDGET); reflexivity. }
  destruct (first_category SKIP_KEYWORDS (lower query)) as [c|].
  { replace (startswith "MANDATORY:" ("SKIP:" ++ c)) with false
      by reflexivity.
    rewrite startswith_tag. reflexivity. }
  replace (startswith "MANDATORY:" "NONE") with false by reflexivity.
  replace (startswith "SKIP:" "NONE") with false by reflexivity.
  destruct tier as [t|]; simpl;
    destruct (gt _ _); try reflexivity;
    destruct (String.eqb _ "tier_3"); try reflexivity;
    destruct (ge _ MIN_OPUS_BUDGET); reflexivity.
Qed.

Example scenario_A :
  let r := should_invoke_opus (OpusGatekeeper_init 100 30 BUDGET_GATE_THRESHOLD)
             "fix this syntax error" None in
  (tier r, category r, decision r) = ("tier_1", "SKIP:syntax_error", SKIP).
Proof. vm_compute. reflexivity. Qed.

Example scenario_B :
  let r := should_invoke_opus (OpusGatekeeper_init 100 30 BUDGET_GATE_THRESHOLD)
             "@council_v2 should we use PostgreSQL or MongoDB" None in
  (tier r, decision r) = ("tier_3", INVOKE).
Proof. vm_compute. reflexivity. Qed.

Example scenario_C :
  let r := should_invoke_opus
             (OpusGatekeeper_init 100 99.60 BUDGET_GATE_THRESHOLD)
             "@council_v2 should we use PostgreSQL or MongoDB" None in
  (decision r, recommend_degradation r) = (BUDGET_BLOCK, Some "gemini-pro").
Proof. vm_compute. reflexivity. Qed.

End gatekeeper_facts.

(** C2. The decision of [should_invoke_opus] follows the seven rules in
order.  A mandatory category is a mandatory keyword in the query; a skip
category is a skip keyword in a query without a mandatory keyword; the
budget gate of a gatekeeper built by [OpusGatekeeper_init] is the monthly
budget times the threshold, 40% by default; the tier is the one given or,
failing that, the one the classifier computes. *)
Theorem should_invoke_opus_precedence
    (monthly_budget current_monthly_spend budget_threshold : Q)
    (query : string) (tier : option string) :
  let self :=
    Gatekeeper.OpusGatekeeper_init monthly_budget current_monthly_spend
      budget_threshold in
  let decision :=
    Gatekeeper.decision (Gatekeeper.should_invoke_opus self query tier) in
  let tier := default (Models.classify_query_tier query) tier in
  let remaining := (monthly_budget - current_monthly_spend)%Q in
  let gate := (monthly_budget * budget_threshold)%Q in
  let mandatory := Spec.mentions Gatekeeper.MANDATORY_KEYWORDS query in
  let skip := Spec.mentions Gatekeeper.SKIP_KEYWORDS query in
  (mandatory = true -> (0.50 <= remaining)%Q -> decision = Gatekeeper.INVOKE)
  /\ (mandatory = true -> (remaining < 0.50)%Q ->
      decision = Gatekeeper.BUDGET_BLOCK)
  /\ (mandatory = false -> skip = true -> decision = Gatekeeper.SKIP)
  /\ (mandatory = false -> skip = false -> (gate < current_monthly_spend)%Q ->
      decision = Gatekeeper.BUDGET_BLOCK)
  /\ (mandatory = false -> skip = false -> (current_monthly_spend <= gate)%Q ->
      tier = "tier_3" -> (0.50 <= remaining)%Q -> decision = Gatekeeper.INVOKE)
  /\ (mandatory = false -> skip = false -> (current_monthly_spend <= gate)%Q ->
      tier = "tier_3" -> (remaining < 0.50)%Q ->
      decision = Gatekeeper.BUDGET_BLOCK)
  /\ (mandatory = false -> skip = false -> (current_monthly_spend <= gate)%Q ->
      tier <> "tier_3" -> decision = Gatekeeper.SKIP)
  /\ Gatekeeper.BUDGET_GATE_THRESHOLD = 0.40%Q.
Proof.
  cbv zeta. rewrite should_invoke_opus_decision. cbv zeta.
  generalize (Spec.mentions Gatekeeper.MANDATORY_KEYWORDS query) as mandatory.
  generalize (Spec.mentions Gatekeeper.SKIP_KEYWORDS query) as skip.
  generalize (default (Models.classify_query_tier query) tier) as t.
  intros t skip mandatory.
  unfold Gatekeeper.MIN_OPUS_BUDGET. simpl.
  set (remaining := (monthly_budget - current_monthly_spend)%Q).
  set (gate := (monthly_budget * budget_threshold)%Q).
  destruct mandatory; destruct skip;
    destruct (PyNum.ge remaining 0.50) eqn:Hfloor;
    [apply ge_true in Hfloor | apply ge_false in Hfloor
    |apply ge_true in Hfloor | apply ge_false in Hfloor
    |apply ge_true in Hfloor | apply ge_false in Hfloor
    |apply ge_true in Hfloor | apply ge_false in Hfloor];
    destruct (PyNum.gt current_monthly_spend gate) eqn:Hgate;
    [apply gt_true in Hgate | apply gt_false in Hgate
    |apply gt_true in Hgate | apply gt_false in Hgate
    |apply gt_true in Hgate | apply gt_false in Hgate
    |apply gt_true in Hgate | apply gt_false in Hgate
    |apply gt_true in Hgate | apply gt_false in Hgate
    |apply gt_true in Hgate | apply gt_false in Hgate
    |apply gt_true in Hgate | apply gt_false in Hgate
    |apply gt_true in Hgate | apply gt_false in Hgate];
    destruct (String.eqb_spec t "tier_3") as [Ht|Ht];
    repeat apply conj; try reflexivity; try discriminate;
      intros; try reflexivity; try contradiction; try q_contra.
Qed.

(** C3, as the claim states it, fails: a query with a skip keyword
([debug]) and a mandatory keyword ([pipeline]) is classified as mandatory
and, given the budget, decided INVOKE, here at tier_3 with nothing
spent. *)
Lemma skip_keyword_can_invoke :
  ~ (forall (self : Gatekeeper.OpusGatekeeper) (query : string)
       (tier : option string),
       Spec.mentions Gatekeeper.SKIP_KEYWORDS query = true ->
       Gatekeeper.decision (Gatekeeper.should_invoke_opus self query tier)
       <> Gatekeeper.INVOKE).
Proof.
  intros H.
  apply (H (Gatekeeper.OpusGatekeeper_init 100 0
              Gatekeeper.BUDGET_GATE_THRESHOLD)
           "debug the data pipeline" (Some "tier_3")).
  - reflexivity.
  - vm_compute. reflexivity.
Qed.

(** C3, amended.  A query that holds a skip keyword and no mandatory
keyword is decided SKIP, hence never INVOKE, for every tier, given or
classified, and every budget state. *)
Theorem skip_category_never_invokes (self : Gatekeeper.OpusGatekeeper)
    (query : string) (tier : option string) :
  Spec.mentions Gatekeeper.SKIP_KEYWORDS query = true ->
  Spec.mentions Gatekeeper.MANDATORY_KEYWORDS query = false ->
  Gatekeeper.decision (Gatekeeper.should_invoke_opus self query tier)
  = Gatekeeper.SKIP
  /\ Gatekeeper.decision (Gatekeeper.should_invoke_opus self query tier)
     <> Gatekeeper.INVOKE.
Proof.
  intros Hskip Hmandatory.
  rewrite should_invoke_opus_decision. cbv zeta.
  rewrite Hskip, Hmandatory. split; [reflexivity | discriminate].
Qed.

(** The amended C3 at scenario A with the highest tier and nothing
spent. *)
Lemma skip_category_never_invokes_witness :
  Gatekeeper.decision
    (Gatekeeper.should_invoke_opus
       (Gatekeeper.OpusGatekeeper_init 1000000 0
          Gatekeeper.BUDGET_GATE_THRESHOLD)
       "fix this syntax error" (Some "tier_3"))
  = Gatekeeper.SKIP
  /\ Gatekeeper.decision
       (Gatekeeper.should_invoke_opus
          (Gatekeeper.OpusGatekeeper_init 1000000 0
             Gatekeeper.BUDGET_GATE_THRESHOLD)
          "fix this syntax error" (Some "tier_3"))
     <> Gatekeeper.INVOKE.
Proof.
  apply (skip_category_never_invokes
           (Gatekeeper.OpusGatekeeper_init 1000000 0
              Gatekeeper.BUDGET_GATE_THRESHOLD)
           "fix this syntax error" (Some "tier_3")); reflexivity.
Defined.

(** ** Fallback chains *)

Section fallback_chains.
Import PyStr.

Variable fallbacks : gmap string string.

Lemma walk_front (k : nat) (model : string) :
  Spec.walk fallbacks (S k) model
  = match truthy (fallbacks !! model) with
    | Some fallback => Spec.walk fallbacks k fallback
    | None => None
    end.
Proof.
  induction k as [|k IH].
  - simpl. destruct (truthy (fallbacks !! model)); reflexivity.
  - change (Spec.walk fallbacks (S (S k)) model)
      with (match Spec.walk fallbacks (S k) model with
            | Some alias => truthy (fallbacks !! alias)
            | None => None
            end).
    rewrite IH. destruct (truthy (fallbacks !! model)); reflexivity.
Qed.

Lemma fallback_chain_functional (model : string) (l1 l2 : list string) :
  Spec.fallback_chain fallbacks model l1 ->
  Spec.fallback_chain fallbacks model l2 ->
  l1 = l2.
Proof.
  intros H1. revert l2.
  induction H1 as [model Hlast|model fallback rest Hnext Hrest IH];
    intros l2 H2; inversion H2; subst; try congruence.
  assert (fallback0 = fallback) as -> by congruence.
  f_equal. auto.
Qed.

Lemma fallback_chain_walk (model : string) (chain : list string) :
  Spec.fallback_chain fallbacks model chain ->
  forall k, Spec.walk fallbacks k model = chain !! k.
Proof.
  induction 1 as [model Hlast|model fallback rest Hnext Hrest IH];
    intros [|k]; try reflexivity; rewrite walk_front.
  - rewrite Hlast. reflexivity.
  - rewrite Hnext. apply IH.
Qed.

Lemma fallback_chain_drop (model : string) (chain : list string) :
  Spec.fallback_chain fallbacks model chain ->
  forall i alias,
    chain !! i = Some alias ->
    Spec.fallback_chain fallbacks alias (drop i chain).
Proof.
  induction 1 as [model Hlast|model fallback rest Hnext Hrest IH];
    intros [|i] alias; simpl.
  - intros [= <-]. constructor. exact Hlast.
  - discriminate.
  - intros [= <-]. econstructor; eassumption.
  - apply IH.
Qed.

Lemma fallback_chain_no_cycle (model : string) (chain : list string) :
  Spec.fallback_chain fallbacks model chain ->
  ~ Spec.runs_into_cycle fallbacks model.
Proof.
  intros Hchain (i & j & alias & Hij & Hi & Hj).
  rewrite (fallback_chain_walk _ _ Hchain) in Hi, Hj.
  pose proof (fallback_chain_functional _ _ _
                (fallback_chain_drop _ _ Hchain _ _ Hi)
                (fallback_chain_drop _ _ Hchain _ _ Hj)) as Heq.
  apply (f_equal length) in Heq. rewrite !length_drop in Heq.
  apply lookup_lt_Some in Hj. lia.
Qed.

Lemma walk_None_chain (k : nat) :
  forall model,
    Spec.walk fallbacks k model = None ->
    exists chain, Spec.fallback_chain fallbacks model chain.
Proof.
  induction k as [|k IH]; intros model; [discriminate|].
  rewrite walk_front.
  destruct (truthy (fallbacks !! model)) as [fallback|] eqn:Hnext.
  - intros Hk. destruct (IH _ Hk) as [chain Hchain].
    exists (model :: chain). econstructor; eassumption.
  - intros _. exists [model]. constructor. exact Hnext.
Qed.

Lemma walk_Some_before (k : nat) (model : string) :
  is_Some (Spec.walk fallbacks k model) ->
  forall i, (i <= k)%nat -> is_Some (Spec.walk fallbacks i model).
Proof.
  induction k as [|k IH]; intros Hk i Hi.
  - replace i with 0%nat by lia. exact Hk.
  - destruct (Nat.eq_dec i (S k)) as [->|Hne]; [exact Hk|].
    apply IH; [|lia]. simpl in Hk.
    destruct (Spec.walk fallbacks k model); [eauto | destruct Hk; discriminate].
Qed.

Lemma no_cycle_fallback_chain (model : string) :
  ~ Spec.runs_into_cycle fallbacks model ->
  exists chain, Spec.fallback_chain fallbacks model chain.
Proof.
  intros Hno.
  set (N := S (size fallbacks)).
  destruct (Spec.walk fallbacks N model) as [last|] eqn:Hlast;
    [exfalso | eapply walk_None_chain; eassumption].
  assert (forall i, (i <= N)%nat -> is_Some (Spec.walk fallbacks i model))
    as Hsome.
  { apply walk_Some_before. rewrite Hlast. eauto. }
  set (visited :=
         (fun i => default model (Spec.walk fallbacks i model)) <$> seq 0 N).
  assert (forall i alias,
            visited !! i = Some alias ->
            (i < N)%nat /\ Spec.walk fallbacks i model = Some alias)
    as Hvisited.
  { intros i alias. unfold visited. rewrite list_lookup_fmap.
    destruct (seq 0 N !! i) as [i'|] eqn:Hi; simpl; [|discriminate].
    apply lookup_seq in Hi as [-> Hlt]. simpl.
    destruct (Hsome i) as [a Ha]; [lia|]. rewrite Ha. simpl.
    intros [= <-]. auto. }
  assert (NoDup visited) as Hnodup.
  { apply NoDup_alt. intros i j alias Hi Hj.
    apply Hvisited in Hi as [_ Hi]. apply Hvisited in Hj as [_ Hj].
    destruct (lt_eq_lt_dec i j) as [[Hlt|Heq]|Hlt]; [|exact Heq|];
      exfalso; apply Hno; [exists i, j, alias | exists j, i, alias]; auto. }
  assert (list_to_set visited ⊆ dom fallbacks) as Hdom.
  { intros alias Halias. apply elem_of_list_to_set in Halias.
    apply list_elem_of_lookup in Halias as [i Hi].
    apply Hvisited in Hi as [Hlt Hi].
    destruct (Hsome (S i)) as [next Hnext]; [lia|].
    simpl in Hnext. rewrite Hi in Hnext. apply truthy_Some in Hnext.
    apply elem_of_dom. rewrite Hnext. eauto. }
  apply subseteq_size in Hdom.
  rewrite size_list_to_set, size_dom in Hdom by exact Hnodup.
  unfold visited in Hdom. rewrite length_fmap, length_seq in Hdom.
  unfold N in Hdom. lia.
Qed.

(** A fallback chain from an alias exists exactly when following the table
from it does not run into a cycle. *)
Lemma fallback_chain_iff_no_cycle (model : string) :
  (exists chain, Spec.fallback_chain fallbacks model chain)
  <-> ~ Spec.runs_into_cycle fallbacks model.
Proof.
  split.
  - intros [chain Hchain]. eapply fallback_chain_no_cycle, Hchain.
  - apply no_cycle_fallback_chain.
Qed.

End fallback_chains.

(** ** The gateway *)

Section gateway_facts.
Import PyStr Http Gateway.

Variable self : CouncilGateway.
Variable fallbacks : gmap string string.
Variable net : backend.

Lemma attempts_all_timeout
    (hop : string -> nat -> option (response * list request))
    (model system_prompt user_prompt : string) (timeout : Z)
    (temperature : Q) (max_tokens : option Z) :
  Spec.always_timeout net ->
  forall remaining attempt n,
    remaining <> 0%nat ->
    (attempt + remaining = max_retries self + 1)%nat ->
    attempts self fallbacks net hop model system_prompt user_prompt timeout
      temperature max_tokens attempt remaining n
    = Some (failure model ("Request timeout after " ++ PyNum.str_Z timeout ++ "s"),
            repeat (payload model system_prompt user_prompt temperature
                      max_tokens timeout) remaining).
Proof.
  intros Hnet.
  induction remaining as [|remaining IH]; intros attempt n Hpos Hsum;
    [congruence|].
  cbn [attempts]. rewrite Hnet.
  destruct (Nat.ltb_spec attempt (max_retries self)) as [Hlt|Hge].
  - rewrite IH by lia. reflexivity.
  - assert (remaining = 0%nat) as -> by lia. reflexivity.
Qed.

Lemma call_model_all_timeout (fuel : nat)
    (model system_prompt user_prompt : string) (timeout : option Z)
    (temperature : Q) (max_tokens : option Z) (n : nat) :
  Spec.always_timeout net ->
  let t := int_or timeout (default_timeout self) in
  call_model self fallbacks net (S fuel) model system_prompt user_prompt
    timeout temperature max_tokens n
  = Some (failure model ("Request timeout after " ++ PyNum.str_Z t ++ "s"),
          repeat (payload model system_prompt user_prompt temperature
                    max_tokens t) (max_retries self + 1)).
Proof.
  intros Hnet t. cbn [call_model].
  apply attempts_all_timeout; [exact Hnet | lia | lia].
Qed.

Lemma attempts_head
    (hop : string -> nat -> option (response * list request))
    (model system_prompt user_prompt : string) (timeout : Z)
    (temperature : Q) (max_tokens : option Z)
    (attempt remaining n : nat) (r : response) (l : list request) :
  attempts self fallbacks net hop model system_prompt user_prompt timeout
    temperature max_tokens attempt remaining n = Some (r, l) ->
  forall req, l !! 0%nat = Some req ->
  req = payload model system_prompt user_prompt temperature max_tokens timeout.
Proof.
  destruct remaining as [|remaining]; cbn [attempts].
  { intros [= <- <-]. discriminate. }
  destruct (net n _) as [c pt ct tt|e| |e|e].
  - intros [= <- <-] req [= <-]. reflexivity.
  - intros [= <- <-] req [= <-]. reflexivity.
  - destruct (attempt <? max_retries self)%nat.
    + destruct (attempts _ _ _ _ _ _ _ _ _ _ _ _ _) as [[r' l']|]; simpl;
        [|discriminate].
      intros [= <- <-] req [= <-]. reflexivity.
    + intros [= <- <-] req [= <-]. reflexivity.
  - destruct (truthy (fallbacks !! model)) as [fallback|].
    + destruct (attempt =? 0)%nat.
      * destruct (hop fallback (S n)) as [[r' l']|]; simpl; [|discriminate].
        intros [= <- <-] req [= <-]. reflexivity.
      * intros [= <- <-] req [= <-]. reflexivity.
    + intros [= <- <-] req [= <-]. reflexivity.
  - intros [= <- <-] req [= <-]. reflexivity.
Qed.

Lemma retried_singleton (n : nat) (req : request) :
  Spec.retried_after_timeout net n [req].
Proof. intros i r r' _ H. destruct i; discriminate. Qed.

Lemma attempts_retried
    (hop : string -> nat -> option (response * list request))
    (model system_prompt user_prompt : string) (timeout : Z)
    (temperature : Q) (max_tokens : option Z) :
  (forall fallback n r l,
     hop fallback n = Some (r, l) -> Spec.retried_after_timeout net n l) ->
  forall remaining attempt n r l,
    attempts self fallbacks net hop model system_prompt user_prompt timeout
      temperature max_tokens attempt remaining n = Some (r, l) ->
    Spec.retried_after_timeout net n l.
Proof.
  intros Hhop.
  induction remaining as [|remaining IH]; intros attempt n r l;
    cbn [attempts].
  { intros [= <- <-] i req req' H. destruct i; discriminate. }
  destruct (net n _) as [c pt ct tt|e| |e|e] eqn:Hnet;
    try (intros [= <- <-]; apply retried_singleton).
  - destruct (attempt <? max_retries self)%nat;
      [|intros [= <- <-]; apply retried_singleton].
    destruct (attempts _ _ _ _ _ _ _ _ _ _ _ _ _) as [[r' l']|] eqn:Hrest;
      simpl; [|discriminate].
    intros [= <- <-] i req req' Hi Hi' Hout.
    destruct i as [|i]; simpl in Hi, Hi'.
    + injection Hi as <-.
      exact (attempts_head _ _ _ _ _ _ _ _ _ _ _ _ Hrest _ Hi').
    + apply (IH _ _ _ _ Hrest i req req' Hi Hi').
      rewrite <- Hout. f_equal. lia.
  - destruct (truthy (fallbacks !! model)) as [fallback|];
      [|intros [= <- <-]; apply retried_singleton].
    destruct (attempt =? 0)%nat;
      [|intros [= <- <-]; apply retried_singleton].
    destruct (hop fallback (S n)) as [[r' l']|] eqn:Hrest; simpl;
      [|discriminate].
    intros [= <- <-] i req req' Hi Hi' Hout.
    destruct i as [|i]; simpl in Hi, Hi'.
    + injection Hi as <-. rewrite Nat.add_0_r in Hout. congruence.
    + apply (Hhop _ _ _ _ Hrest i req req' Hi Hi').
      rewrite <- Hout. f_equal. lia.
Qed.

Lemma call_model_retried (fuel : nat) :
  forall (model system_prompt user_prompt : string) (timeout : option Z)
    (temperature : Q) (max_tokens : option Z) (n : nat) r l,
    call_model self fallbacks net fuel model system_prompt user_prompt
      timeout temperature max_tokens n = Some (r, l) ->
    Spec.retried_after_timeout net n l.
Proof.
  induction fuel as [|fuel IH]; intros model sp up timeout temp mt n r l;
    cbn [call_model]; [discriminate|].
  apply attempts_retried. intros fallback n' r' l'. apply IH.
Qed.

(** With a backend that only fails requests, and never by a timeout, a
call walks the fallback chain, one request per alias, and returns the
failure of the last alias. *)
Lemma call_model_walks_chain (model : string) (chain : list string) :
  Spec.always_request_error net ->
  Spec.fallback_chain fallbacks model chain ->
  forall fuel (system_prompt user_prompt : string) (timeout : option Z)
    (temperature : Q) (max_tokens : option Z) (n : nat),
    (length chain <= fuel)%nat ->
    exists r log,
      call_model self fallbacks net fuel model system_prompt user_prompt
        timeout temperature max_tokens n = Some (r, log)
      /\ success r = false
      /\ map req_model log = chain.
Proof.
  intros Hnet Hchain.
  induction Hchain as [model Hlast|model fallback rest Hnext Hrest IH];
    intros fuel sp up timeout temp mt n Hfuel;
    (destruct fuel as [|fuel]; [simpl in Hfuel; lia|]);
    cbn [call_model]; rewrite Nat.add_1_r; cbn [attempts];
    destruct (Hnet n (payload model sp up temp mt
                        (int_or timeout (default_timeout self)))) as [e ->].
  - rewrite Hlast. eexists _, _. repeat split.
  - rewrite Hnext. cbn [Nat.eqb].
    destruct (IH fuel sp up (Some (int_or timeout (default_timeout self)))
                temp mt (S n)) as (r & log & -> & Hr & Hlog).
    { simpl in Hfuel. lia. }
    simpl. eexists _, _. split; [reflexivity|]. split; [exact Hr|].
    simpl. rewrite Hlog. reflexivity.
Qed.

End gateway_facts.

Section gateway_fuel.
Import PyStr Http Gateway.

Variable self : CouncilGateway.
Variable fallbacks : gmap string string.
Variable net : backend.

Lemma attempts_mono
    (hop hop' : string -> nat -> option (response * list request))
    (model system_prompt user_prompt : string) (timeout : Z)
    (temperature : Q) (max_tokens : option Z) :
  (forall fallback n x, hop fallback n = Some x -> hop' fallback n = Some x) ->
  forall remaining attempt n x,
    attempts self fallbacks net hop model system_prompt user_prompt timeout
      temperature max_tokens attempt remaining n = Some x ->
    attempts self fallbacks net hop' model system_prompt user_prompt timeout
      temperature max_tokens attempt remaining n = Some x.
Proof.
  intros Hhop.
  induction remaining as [|remaining IH]; intros attempt n x;
    cbn [attempts]; [trivial|].
  destruct (net n _) as [c pt ct tt|e| |e|e]; try trivial.
  - destruct (attempt <? max_retries self)%nat; [|trivial].
    destruct (attempts _ _ _ hop _ _ _ _ _ _ _ _ _) as [[r l]|] eqn:Hrest;
      simpl; [|discriminate].
    rewrite (IH _ _ _ Hrest). trivial.
  - destruct (truthy (fallbacks !! model)) as [fallback|]; [|trivial].
    destruct (attempt =? 0)%nat; [|trivial].
    destruct (hop fallback (S n)) as [[r l]|] eqn:Hrest; simpl;
      [|discriminate].
    rewrite (Hhop _ _ _ Hrest). trivial.
Qed.

(** More fuel does not change a response. *)
Lemma call_model_mono (fuel fuel' : nat) :
  (fuel <= fuel')%nat ->
  forall (model system_prompt user_prompt : string) (timeout : option Z)
    (temperature : Q) (max_tokens : option Z) (n : nat) x,
    call_model self fallbacks net fuel model system_prompt user_prompt
      timeout temperature max_tokens n = Some x ->
    call_model self fallbacks net fuel' model system_prompt user_prompt
      timeout temperature max_tokens n = Some x.
Proof.
  revert fuel'.
  induction fuel as [|fuel IH]; intros fuel' Hle model sp up timeout temp mt n x;
    cbn [call_model]; [discriminate|].
  destruct fuel' as [|fuel']; [lia|]. cbn [call_model].
  apply attempts_mono. intros fallback n' x'. apply IH. lia.
Qed.

End gateway_fuel.

Section shipped_fallbacks.
Import PyStr Http Gateway Models.

Lemma no_chain_through_the_cycle (model : string) (chain : list string) :
  Spec.fallback_chain MODEL_FALLBACKS model chain ->
  model <> "claude-sonnet" /\ model <> "opus-synthesis".
Proof.
  induction 1 as [model Hlast|model fallback rest Hnext Hrest IH].
  - split; intros ->; discriminate Hlast.
  - split; intros ->; injection Hnext as <-; tauto.
Qed.

(** On the cycle no depth of recursion is enough for [call_model]. *)
Lemma call_model_cycle (self : CouncilGateway) (net : backend) :
  Spec.always_request_error net ->
  forall fuel (model system_prompt user_prompt : string) (timeout : option Z)
    (temperature : Q) (max_tokens : option Z) (n : nat),
    model = "claude-sonnet" \/ model = "opus-synthesis" ->
    call_model self MODEL_FALLBACKS net fuel model system_prompt user_prompt
      timeout temperature max_tokens n = None.
Proof.
  intros Hnet.
  induction fuel as [|fuel IH]; intros model sp up timeout temp mt n Hmodel;
    [reflexivity|].
  cbn [call_model]. rewrite Nat.add_1_r. cbn [attempts].
  destruct (Hnet n (payload model sp up temp mt
                      (int_or timeout (default_timeout self)))) as [e ->].
  destruct Hmodel as [-> | ->].
  - replace (truthy (MODEL_FALLBACKS !! "claude-sonnet"))
      with (Some "opus-synthesis") by reflexivity.
    cbn [Nat.eqb]. rewrite IH by tauto. reflexivity.
  - replace (truthy (MODEL_FALLBACKS !! "opus-synthesis"))
      with (Some "claude-sonnet") by reflexivity.
    cbn [Nat.eqb]. rewrite IH by tauto. reflexivity.
Qed.

End shipped_fallbacks.

Section gateway_failures.
Import PyStr Http Gateway.

Variable self : CouncilGateway.
Variable fallbacks : gmap string string.
Variable net : backend.

Lemma fallback_chain_nonempty (model : string) (chain : list string) :
  Spec.fallback_chain fallbacks model chain -> (1 <= length chain)%nat.
Proof. destruct 1; simpl; lia. Qed.

(** After the first attempt no fallback is tried any more: the loop ends
with a failure within the attempts that are left. *)
Lemma attempts_fail_later
    (hop : string -> nat -> option (response * list request))
    (model system_prompt user_prompt : string) (timeout : Z)
    (temperature : Q) (max_tokens : option Z) :
  Spec.never_replies net ->
  forall remaining attempt n,
    attempt <> 0%nat ->
    exists r l,
      attempts self fallbacks net hop model system_prompt user_prompt timeout
        temperature max_tokens attempt remaining n = Some (r, l)
      /\ success r = false
      /\ (length l <= remaining)%nat.
Proof.
  intros Hnet.
  induction remaining as [|remaining IH]; intros attempt n Hattempt;
    cbn [attempts].
  { eexists _, _. repeat split. simpl. lia. }
  pose proof (Hnet n (payload model system_prompt user_prompt temperature
                        max_tokens timeout)) as Hout.
  destruct (net n _) as [c pt ct tt|e| |e|e]; [contradiction| | | |];
    try (eexists _, _; repeat split; simpl; lia).
  - destruct (attempt <? max_retries self)%nat.
    + destruct (IH (S attempt) (S n)) as (r & l & -> & Hr & Hl); [lia|].
      simpl. eexists _, _. repeat split; [exact Hr | simpl; lia].
    + eexists _, _. repeat split. simpl. lia.
  - destruct (truthy (fallbacks !! model)) as [fallback|].
    + destruct (Nat.eqb_spec attempt 0) as [|_]; [contradiction|].
      eexists _, _. repeat split. simpl. lia.
    + eexists _, _. repeat split. simpl. lia.
Qed.

(** With a backend that fails every request, by timeouts or otherwise, a
call over a chain without a cycle ends with a failure: every alias but
the last one visited gets a single request, the last one at most
[1 + max_retries]. *)
Lemma call_model_fails_within_bound (model : string) (chain : list string) :
  Spec.never_replies net ->
  Spec.fallback_chain fallbacks model chain ->
  forall fuel (system_prompt user_prompt : string) (timeout : option Z)
    (temperature : Q) (max_tokens : option Z) (n : nat),
    (length chain <= fuel)%nat ->
    exists r log,
      call_model self fallbacks net fuel model system_prompt user_prompt
        timeout temperature max_tokens n = Some (r, log)
      /\ success r = false
      /\ (length log + 1 <= length chain + (1 + max_retries self))%nat
      /\ (length log <= length chain * (1 + max_retries self))%nat.
Proof.
  intros Hnet Hchain.
  induction Hchain as [model Hlast|model fallback rest Hnext Hrest IH];
    intros fuel sp up timeout temp mt n Hfuel;
    (destruct fuel as [|fuel]; [simpl in Hfuel; lia|]);
    cbn [call_model]; rewrite Nat.add_1_r; cbn [attempts];
    set (t := int_or timeout (default_timeout self));
    pose proof (Hnet n (payload model sp up temp mt t)) as Hout;
    destruct (net n _) as [c pt ct tt|e| |e|e]; try contradiction;
    try (eexists _, _; repeat split; simpl; lia).
  - (* the last alias times out *)
    destruct (0 <? max_retries self)%nat;
      [|eexists _, _; repeat split; simpl; lia].
    destruct (attempts_fail_later
                (fun fallback n' =>
                   call_model self fallbacks net fuel fallback sp up (Some t)
                     temp mt n')
                model sp up t temp mt Hnet (max_retries self) 1 (S n))
      as (r & l & -> & Hr & Hl); [lia|].
    simpl. eexists _, _. repeat split; [exact Hr | simpl; lia | simpl; lia].
  - (* the last alias refuses *)
    rewrite Hlast. eexists _, _. repeat split; simpl; lia.
  - (* an alias with a fallback times out: it is retried, not left *)
    pose proof (fallback_chain_nonempty _ _ Hrest) as Hne.
    destruct (0 <? max_retries self)%nat;
      [|eexists _, _; repeat split; simpl; lia].
    destruct (attempts_fail_later
                (fun fallback n' =>
                   call_model self fallbacks net fuel fallback sp up (Some t)
                     temp mt n')
                model sp up t temp mt Hnet (max_retries self) 1 (S n))
      as (r & l & -> & Hr & Hl); [lia|].
    simpl. eexists _, _. repeat split; [exact Hr | simpl; lia |].
    simpl length in *. nia.
  - (* an alias with a fallback refuses: the call moves on *)
    pose proof (fallback_chain_nonempty _ _ Hrest) as Hne.
    rewrite Hnext. cbn [Nat.eqb].
    destruct (IH fuel sp up (Some t) temp mt (S n))
      as (r & log & -> & Hr & Hlen & _); [simpl in Hfuel; lia|].
    simpl. eexists _, _. repeat split; [exact Hr | simpl; lia |].
    simpl length in *. nia.
Qed.

End gateway_failures.

(** C7. When the fallback chain from the called alias has no cycle and the
backend fails every request with a request failure that is not a timeout,
[call_model] terminates: with fuel for the length of the chain, and with
any more, it returns one and the same failed response, after one request
per alias of the chain, which is at most
[chain_length * (1 + retry_budget)] requests. *)
Theorem call_model_terminates_without_cycle
    (self : Gateway.CouncilGateway) (fallbacks : gmap string string)
    (net : Http.backend) (model : string) (chain : list string)
    (system_prompt user_prompt : string) (timeout : option Z)
    (temperature : Q) (max_tokens : option Z) (n : nat) :
  Spec.fallback_chain fallbacks model chain ->
  Spec.always_request_error net ->
  exists r log,
    (forall fuel, (length chain <= fuel)%nat ->
       Gateway.call_model self fallbacks net fuel model system_prompt
         user_prompt timeout temperature max_tokens n = Some (r, log))
    /\ Gateway.success r = false
    /\ map Http.req_model log = chain
    /\ (length log <= length chain * (1 + Gateway.max_retries self))%nat.
Proof.
  intros Hchain Hnet.
  destruct (call_model_walks_chain self fallbacks net model chain Hnet Hchain
              (length chain) system_prompt user_prompt timeout temperature
              max_tokens n (Nat.le_refl _)) as (r & log & Hcall & Hr & Hlog).
  exists r, log. repeat split; [ |exact Hr|exact Hlog| ].
  - intros fuel Hfuel.
    exact (call_model_mono self fallbacks net _ _ Hfuel _ _ _ _ _ _ _ _ Hcall).
  - rewrite <- Hlog, length_map. nia.
Qed.



Example deepseek_chain_refused :
  option_map
    (fun x => (Gateway.model (fst x), Gateway.error (fst x),
               map Http.req_model (snd x)))
    (Gateway.call_model Gateway.CouncilGateway_init Models.MODEL_FALLBACKS
       Spec.refusing 3 "deepseek-v3" "system" "user" None 0.7 None 0)
  = Some ("gemini-flash-fallback",
          Some "Request failed: connection refused",
          ["deepseek-v3"; "gemini-flash"; "gemini-flash-fallback"]).
Proof. vm_compute. reflexivity. Qed.

(** C7 on the shipped table, from [deepseek-v3], whose chain has three
aliases. *)
Lemma call_model_terminates_without_cycle_witness :
  exists r log,
    (forall fuel, (3 <= fuel)%nat ->
       Gateway.call_model Gateway.CouncilGateway_init Models.MODEL_FALLBACKS
         Spec.refusing fuel "deepseek-v3" "system" "user" None 0.7 None 0
       = Some (r, log))
    /\ Gateway.success r = false
    /\ map Http.req_model log
       = ["deepseek-v3"; "gemini-flash"; "gemini-flash-fallback"]
    /\ (length log <= 3 * (1 + 2))%nat.
Proof.
  apply (call_model_terminates_without_cycle Gateway.CouncilGateway_init
           Models.MODEL_FALLBACKS Spec.refusing "deepseek-v3"
           ["deepseek-v3"; "gemini-flash"; "gemini-flash-fallback"]
           "system" "user" None 0.7 None 0).
  - apply Spec.chain_hop with (fallback := "gemini-flash"); [reflexivity|].
    apply Spec.chain_hop with (fallback := "gemini-flash-fallback");
      [reflexivity|].
    apply Spec.chain_last. reflexivity.
  - intros n req. exists "connection refused". reflexivity.
Defined.

(** ** The gateway at the recursion limit *)

Section gateway_on_stack.
Import PyStr Http Gateway.

Variable self : CouncilGateway.
Variable fallbacks : gmap string string.
Variable net : backend.

(** Within the stack, the interpreter's run is the run of [call_model]. *)
Lemma call_model_on_stack_agrees (recursion_error : string) (fuel : nat) :
  forall (frames : nat) (model system_prompt user_prompt : string)
    (timeout : option Z) (temperature : Q) (max_tokens : option Z) (n : nat)
    x,
    (fuel <= frames)%nat ->
    call_model self fallbacks net fuel model system_prompt user_prompt
      timeout temperature max_tokens n = Some x ->
    call_model_on_stack self fallbacks net frames recursion_error model
      system_prompt user_prompt timeout temperature max_tokens n = Some x.
Proof.
  induction fuel as [|fuel IH];
    intros frames model sp up timeout temp mt n x Hle;
    cbn [call_model]; [discriminate|].
  destruct frames as [|frames]; [lia|]. cbn [call_model_on_stack].
  apply attempts_mono. intros fallback n' x'. apply IH. lia.
Qed.

Lemma attempts_total
    (hop : string -> nat -> option (response * list request))
    (model system_prompt user_prompt : string) (timeout : Z)
    (temperature : Q) (max_tokens : option Z) :
  (forall fallback n, exists x, hop fallback n = Some x) ->
  forall remaining attempt n,
    exists x,
      attempts self fallbacks net hop model system_prompt user_prompt timeout
        temperature max_tokens attempt remaining n = Some x.
Proof.
  intros Hhop.
  induction remaining as [|remaining IH]; intros attempt n; cbn [attempts];
    [eauto|].
  destruct (net n _) as [c pt ct tt|e| |e|e]; eauto.
  - destruct (attempt <? max_retries self)%nat; [|eauto].
    destruct (IH (S attempt) (S n)) as [[r l] ->]. simpl. eauto.
  - destruct (truthy (fallbacks !! model)) as [fallback|]; [|eauto].
    destruct (attempt =? 0)%nat; [|eauto].
    destruct (Hhop fallback (S n)) as [[r l] ->]. simpl. eauto.
Qed.

(** Under the recursion limit every call returns, whatever the table and
the backend. *)
Lemma call_model_on_stack_returns (recursion_error : string) (frames : nat) :
  forall (model system_prompt user_prompt : string) (timeout : option Z)
    (temperature : Q) (max_tokens : option Z) (n : nat),
    exists x,
      call_model_on_stack self fallbacks net frames recursion_error model
        system_prompt user_prompt timeout temperature max_tokens n = Some x.
Proof.
  induction frames as [|frames IH]; intros model sp up timeout temp mt n;
    cbn [call_model_on_stack]; [eauto|].
  apply attempts_total. intros fallback n'. apply IH.
Qed.

End gateway_on_stack.

Section shipped_cycle_on_stack.
Import PyStr Http Gateway.

Variable self : CouncilGateway.
Variable net : backend.

Lemma across_across (alias : string) :
  alias = "claude-sonnet" \/ alias = "opus-synthesis" ->
  Spec.across (Spec.across alias) = alias
  /\ (Spec.across alias = "claude-sonnet"
      \/ Spec.across alias = "opus-synthesis")
  /\ truthy (Models.MODEL_FALLBACKS !! alias) = Some (Spec.across alias).
Proof. intros [-> | ->]; repeat split; auto. Qed.

(** Between the two aliases of the cycle every call that still has room
on the stack sends one request and goes on to the other alias; the call
that has none ends the recursion. *)
Lemma call_model_on_stack_cycle (recursion_error : string) (frames : nat) :
  Spec.always_request_error net ->
  forall (alias system_prompt user_prompt : string) (timeout : option Z)
    (temperature : Q) (max_tokens : option Z) (n : nat),
    alias = "claude-sonnet" \/ alias = "opus-synthesis" ->
    call_model_on_stack self Models.MODEL_FALLBACKS net frames
      recursion_error alias system_prompt user_prompt timeout temperature
      max_tokens n
    = Some (failure (if Nat.even frames then alias else Spec.across alias)
              ("Unexpected error: " ++ slice_to 100 recursion_error),
            map (fun a =>
                   payload a system_prompt user_prompt temperature max_tokens
                     (int_or timeout (default_timeout self)))
              (Spec.to_and_fro frames alias)).
Proof.
  intros Hnet.
  induction frames as [|frames IH];
    intros alias sp up timeout temp mt n Halias; [reflexivity|].
  destruct (across_across alias Halias) as (Hback & Hother & Hfb).
  cbn [call_model_on_stack]. rewrite Nat.add_1_r. cbn [attempts].
  destruct (Hnet n (payload alias sp up temp mt
                      (int_or timeout (default_timeout self)))) as [e ->].
  rewrite Hfb. cbn [Nat.eqb].
  rewrite (IH (Spec.across alias) sp up _ temp mt (S n) Hother).
  assert (int_or (Some (int_or timeout (default_timeout self)))
            (default_timeout self)
          = int_or timeout (default_timeout self)) as ->
    by (destruct timeout as [[| |]|]; destruct (default_timeout self);
        reflexivity).
  rewrite Hback, Nat.even_succ, <- Nat.negb_even.
  destruct (Nat.even frames); reflexivity.
Qed.

End shipped_cycle_on_stack.

(** C10, as the claim states it, fails: the recursion of [call_model]
between [claude-sonnet] and [opus-synthesis] comes to an end at the
recursion limit of the interpreter, and the call returns a response.
With room for a thousand nested calls and a backend that refuses every
connection, the call on [claude-sonnet] returns the failure
[Unexpected error: maximum recursion depth exceeded] after a thousand
requests. *)
Lemma call_model_on_cycle_returns_a_response :
  option_map
    (fun x => (Gateway.success (fst x), Gateway.model (fst x),
               Gateway.error (fst x), length (snd x)))
    (Gateway.call_model_on_stack Gateway.CouncilGateway_init
       Models.MODEL_FALLBACKS Spec.refusing 1000
       "maximum recursion depth exceeded" "claude-sonnet" "system" "user"
       None 0.7 None 0)
  = Some (false, "claude-sonnet",
          Some "Unexpected error: maximum recursion depth exceeded",
          1000%nat).
Proof. vm_compute. reflexivity. Qed.

(** C10, amended.  In the shipped [MODEL_FALLBACKS], [claude-sonnet] falls
back to [opus-synthesis] and [opus-synthesis] to [claude-sonnet]:
following the table from either alias runs into a cycle, and neither has
a fallback chain that ends.  When the backend fails every request with a
request failure that is not a timeout, the recursion of [call_model] on
either alias has no end of its own: every call that has room on the stack
sends one request and calls the other alias, so that the requests go to
and fro between the two, as many as nested calls fit on the stack.  The
call that has no room ends the recursion: the [RecursionError] of its
request is caught, and the call returns, through all the calls above it,
the failed response [Unexpected error: ...] with the text of that
exception, under the alias at which the stack ran out. *)
Theorem shipped_fallbacks_cycle (self : Gateway.CouncilGateway)
    (net : Http.backend) (frames : nat) (recursion_error : string)
    (system_prompt user_prompt : string)
    (timeout : option Z) (temperature : Q) (max_tokens : option Z) (n : nat) :
  Spec.always_request_error net ->
  Models.MODEL_FALLBACKS !! "claude-sonnet" = Some "opus-synthesis"
  /\ Models.MODEL_FALLBACKS !! "opus-synthesis" = Some "claude-sonnet"
  /\ Spec.runs_into_cycle Models.MODEL_FALLBACKS "claude-sonnet"
  /\ Spec.runs_into_cycle Models.MODEL_FALLBACKS "opus-synthesis"
  /\ (forall chain,
        ~ Spec.fallback_chain Models.MODEL_FALLBACKS "claude-sonnet" chain
        /\ ~ Spec.fallback_chain Models.MODEL_FALLBACKS "opus-synthesis" chain)
  /\ (forall alias,
        alias = "claude-sonnet" \/ alias = "opus-synthesis" ->
        exists r log,
          Gateway.call_model_on_stack self Models.MODEL_FALLBACKS net frames
            recursion_error alias system_prompt user_prompt timeout
            temperature max_tokens n = Some (r, log)
          /\ r = Gateway.failure
                   (if Nat.even frames then alias else Spec.across alias)
                   ("Unexpected error: " ++ PyStr.slice_to 100 recursion_error)
          /\ length log = frames
          /\ log = map (fun a =>
                          Gateway.payload a system_prompt user_prompt
                            temperature max_tokens
                            (Http.int_or timeout
                               (Gateway.default_timeout self)))
                     (Spec.to_and_fro frames alias)).
Proof.
  intros Hnet.
  split; [reflexivity|]. split; [reflexivity|].
  split; [exists 0%nat, 2%nat, "claude-sonnet"; repeat split; lia|].
  split; [exists 0%nat, 2%nat, "opus-synthesis"; repeat split; lia|].
  split.
  - intros chain. split; intros Hchain;
      apply no_chain_through_the_cycle in Hchain; tauto.
  - intros alias Halias. eexists _, _.
    split; [apply call_model_on_stack_cycle; assumption|].
    split; [reflexivity|]. split; [|reflexivity].
    rewrite length_map. clear. revert alias.
    induction frames as [|k IH]; intros alias; [reflexivity|].
    simpl. rewrite IH. reflexivity.
Qed.

(** The amended C10 with the gateway as constructed, a backend that
refuses every connection and room for four nested calls. *)
Lemma shipped_fallbacks_cycle_witness :
  exists r log,
    Gateway.call_model_on_stack Gateway.CouncilGateway_init
      Models.MODEL_FALLBACKS Spec.refusing 4
      "maximum recursion depth exceeded" "claude-sonnet" "system" "user"
      None 0.7 None 0 = Some (r, log)
    /\ r = Gateway.failure "claude-sonnet"
             "Unexpected error: maximum recursion depth exceeded"
    /\ length log = 4%nat
    /\ map Http.req_model log
       = ["claude-sonnet"; "opus-synthesis"; "claude-sonnet";
          "opus-synthesis"].
Proof.
  destruct (shipped_fallbacks_cycle Gateway.CouncilGateway_init Spec.refusing
              4 "maximum recursion depth exceeded" "system" "user" None 0.7
              None 0) as (_ & _ & _ & _ & _ & Hrun).
  { intros n req. exists "connection refused". reflexivity. }
  destruct (Hrun "claude-sonnet" (or_introl eq_refl))
    as (r & log & Hcall & Hr & Hlen & Hlog).
  exists r, log. repeat split; try assumption.
  rewrite Hlog. reflexivity.
Defined.

(** ** The stage executor: one call *)

Section execute_model_facts.
Import PyStr Http Executor.

Variable self : ParallelExecutor.
Variable fallbacks : gmap string string.
Variable net : backend.

Lemma execute_model_head (fuel : nat) (model prompt : string)
    (system_prompt : option string) (max_tokens : Z) (timeout : option Z)
    (n : nat) (r : ModelResponse) (l : list request) :
  _execute_model self fallbacks net fuel model prompt system_prompt
    max_tokens timeout n = Some (r, l) ->
  forall req, l !! 0%nat = Some req -> req_model req = model.
Proof.
  destruct fuel as [|fuel]; cbn [_execute_model]; [discriminate|].
  destruct (if startswith "perplexity-" model then perplexity self else None)
    as [search|].
  { destruct (search _ _ _); intros [= <- <-]; discriminate. }
  destruct (net n _) as [c pt ct tt|e| |e|e];
    try (intros [= <- <-] req [= <-]; reflexivity);
    (destruct (truthy (fallbacks !! model)) as [fallback|];
     [|intros [= <- <-] req [= <-]; reflexivity];
     destruct (String.eqb fallback model);
     [intros [= <- <-] req [= <-]; reflexivity|];
     destruct (_execute_model _ _ _ fuel _ _ _ _ _ _) as [[r' l']|]; simpl;
     [|discriminate];
     intros [= <- <-] req [= <-]; reflexivity).
Qed.

Lemma hopped_nil (n : nat) : Spec.hopped_after_timeout fallbacks net n [].
Proof. intros i req req' H. discriminate. Qed.

Lemma hopped_singleton (n : nat) (req : request) :
  Spec.hopped_after_timeout fallbacks net n [req].
Proof. intros i r r' _ H. destruct i; discriminate. Qed.

Lemma hopped_cons (n : nat) (req : request) (l : list request) :
  Spec.hopped_after_timeout fallbacks net (S n) l ->
  (forall req', l !! 0%nat = Some req' -> net n req = Timeout ->
     fallbacks !! req_model req = Some (req_model req')
     /\ req_model req' <> req_model req) ->
  Spec.hopped_after_timeout fallbacks net n (req :: l).
Proof.
  intros Hl Hhead i r r' Hi Hi' Hout.
  destruct i as [|i]; simpl in Hi, Hi'.
  - injection Hi as <-. rewrite Nat.add_0_r in Hout. auto.
  - apply (Hl i r r' Hi Hi'). rewrite <- Hout. f_equal. lia.
Qed.

(** [_execute_model] never repeats a request that timed out: the next
request, if any, goes to the fallback alias. *)
Lemma execute_model_hopped (fuel : nat) :
  forall (model prompt : string) (system_prompt : option string)
    (max_tokens : Z) (timeout : option Z) (n : nat) r l,
    _execute_model self fallbacks net fuel model prompt system_prompt
      max_tokens timeout n = Some (r, l) ->
    Spec.hopped_after_timeout fallbacks net n l.
Proof.
  induction fuel as [|fuel IH]; intros model prompt sp mt timeout n r l;
    cbn [_execute_model]; [discriminate|].
  destruct (if startswith "perplexity-" model then perplexity self else None)
    as [search|].
  { destruct (search _ _ _); intros [= <- <-]; apply hopped_nil. }
  destruct (net n _) as [c pt ct tt|e| |e|e] eqn:Hnet;
    try (intros [= <- <-]; apply hopped_singleton);
    (destruct (truthy (fallbacks !! model)) as [fallback|] eqn:Hfb;
     [|intros [= <- <-]; apply hopped_singleton];
     destruct (String.eqb_spec fallback model) as [Heq|Hne];
     [intros [= <- <-]; apply hopped_singleton|];
     destruct (_execute_model _ _ _ fuel _ _ _ _ _ _) as [[r' l']|] eqn:Hrest;
     simpl; [|discriminate];
     intros [= <- <-]; apply hopped_cons; [exact (IH _ _ _ _ _ _ _ _ Hrest)|];
     intros req' Hreq' Hout;
     rewrite (execute_model_head _ _ _ _ _ _ _ _ _ Hrest _ Hreq');
     simpl; split; [exact (truthy_Some _ _ Hfb) | exact Hne]).
Qed.

(** Without a fallback, a timeout is final after a single request. *)
Lemma execute_model_timeout_no_fallback (fuel : nat) (model prompt : string)
    (system_prompt : option string) (max_tokens : Z) (timeout : option Z)
    (n : nat) :
  Spec.always_timeout net ->
  startswith "perplexity-" model = false \/ perplexity self = None ->
  (forall fallback,
     truthy (fallbacks !! model) = Some fallback -> fallback = model) ->
  let t := int_or timeout (default_timeout self) in
  _execute_model self fallbacks net (S fuel) model prompt system_prompt
    max_tokens timeout n
  = Some (failed model ("Timeout after " ++ PyNum.str_Z t ++ "s"),
          [mk_request model (truthy system_prompt) prompt None
             (Some max_tokens) t]).
Proof.
  intros Hnet Hp Hfb t. cbn [_execute_model].
  replace (if startswith "perplexity-" model then perplexity self else None)
    with (@None (string -> string -> Z -> search_outcome))
    by (destruct Hp as [-> | ->]; [|destruct (startswith _ _)]; reflexivity).
  rewrite Hnet.
  destruct (truthy (fallbacks !! model)) as [fallback|]; [|reflexivity].
  rewrite (Hfb fallback eq_refl), String.eqb_refl. reflexivity.
Qed.

End execute_model_facts.


Section execute_model_hops.
Import PyStr Http Executor.

Variable self : ParallelExecutor.
Variable fallbacks : gmap string string.
Variable net : backend.

(** The first request of a call that goes to the gateway. *)
Lemma execute_model_first_request (fuel : nat) (model prompt : string)
    (system_prompt : option string) (max_tokens : Z) (timeout : option Z)
    (n : nat) (r : ModelResponse) (l : list request) :
  startswith "perplexity-" model = false \/ perplexity self = None ->
  _execute_model self fallbacks net fuel model prompt system_prompt
    max_tokens timeout n = Some (r, l) ->
  l !! 0%nat
  = Some (mk_request model (truthy system_prompt) prompt None
            (Some max_tokens) (int_or timeout (default_timeout self))).
Proof.
  intros Hp.
  destruct fuel as [|fuel]; cbn [_execute_model]; [discriminate|].
  replace (if startswith "perplexity-" model then perplexity self else None)
    with (@None (string -> string -> Z -> search_outcome))
    by (destruct Hp as [-> | ->]; [|destruct (startswith _ _)]; reflexivity).
  destruct (net n _) as [c pt ct tt|e| |e|e];
    try (intros [= <- <-]; reflexivity);
    (destruct (truthy (fallbacks !! model)) as [fallback|];
     [|intros [= <- <-]; reflexivity];
     destruct (String.eqb fallback model);
     [intros [= <- <-]; reflexivity|];
     destruct (_execute_model _ _ _ fuel _ _ _ _ _ _) as [[r' l']|]; simpl;
     [|discriminate];
     intros [= <- <-]; reflexivity).
Qed.

Local Abbreviation hops n l := (Spec.hops_on_timeout self fallbacks net n l).

Lemma hops_singleton (n : nat) (req0 : request) :
  net n req0 <> Timeout
  \/ (forall f, truthy (fallbacks !! req_model req0) = Some f ->
                f = req_model req0) ->
  hops n [req0].
Proof.
  intros Hend i req fb Hi Hout Hfb Hne _.
  destruct i as [|i]; [|discriminate]. injection Hi as <-.
  rewrite Nat.add_0_r in Hout. destruct Hend as [Hend|Hend].
  - contradiction.
  - apply Hend in Hfb. contradiction.
Qed.

Lemma hops_cons (n : nat) (req0 : request) (l : list request) :
  hops (S n) l ->
  (net n req0 = Timeout ->
   forall fb,
     truthy (fallbacks !! req_model req0) = Some fb ->
     fb <> req_model req0 ->
     startswith "perplexity-" fb = false \/ perplexity self = None ->
     l !! 0%nat = Some (Spec.readdressed fb req0)) ->
  hops n (req0 :: l).
Proof.
  intros Hl Hhead i req fb Hi Hout Hfb Hne Hp.
  destruct i as [|i]; simpl in Hi |- *.
  - injection Hi as <-. rewrite Nat.add_0_r in Hout. auto.
  - apply (Hl i req fb Hi); try assumption.
    rewrite <- Hout. f_equal. lia.
Qed.

(** [_execute_model] answers a timeout with a request to the fallback:
a request that timed out, for an alias with a fallback other than itself
that goes to the gateway, is followed by the same request for the
fallback. *)
Lemma execute_model_hops_on_timeout (fuel : nat) :
  forall (model prompt : string) (system_prompt : option string)
    (max_tokens : Z) (timeout : option Z) (n : nat) r l,
    _execute_model self fallbacks net fuel model prompt system_prompt
      max_tokens timeout n = Some (r, l) ->
    hops n l.
Proof.
  induction fuel as [|fuel IH]; intros model prompt sp mt timeout n r l;
    cbn [_execute_model]; [discriminate|].
  destruct (if startswith "perplexity-" model then perplexity self else None)
    as [search|].
  { destruct (search _ _ _); intros [= <- <-] i req fb Hi; discriminate. }
  set (t := int_or timeout (default_timeout self)).
  set (req0 := mk_request model (truthy sp) prompt None (Some mt) t).
  assert (forall fb0 r' l',
            _execute_model self fallbacks net fuel fb0 prompt sp mt (Some t)
              (S n) = Some (r', l') ->
            net n req0 <> Timeout -> hops n (req0 :: l')) as Hother.
  { intros fb0 r' l' Hrest Hout. apply hops_cons.
    - exact (IH _ _ _ _ _ _ _ _ Hrest).
    - intros Hout'. contradiction. }
  destruct (net n req0) as [c pt ct tt|e| |e|e] eqn:Hnet.
  - intros [= <- <-]. apply hops_singleton. left. rewrite Hnet. discriminate.
  - destruct (truthy (fallbacks !! model)) as [fb0|] eqn:Hfb0;
      [|intros [= <- <-]; apply hops_singleton; left; rewrite Hnet; discriminate].
    destruct (String.eqb_spec fb0 model) as [->|Hne0];
      [intros [= <- <-]; apply hops_singleton; left; rewrite Hnet; discriminate|].
    destruct (_execute_model _ _ _ fuel _ _ _ _ _ _) as [[r' l']|] eqn:Hrest;
      simpl; [|discriminate].
    intros [= <- <-]. apply (Hother _ _ _ Hrest). discriminate.
  - destruct (truthy (fallbacks !! model)) as [fb0|] eqn:Hfb0.
    2: { intros [= <- <-]. apply hops_singleton. right.
         unfold req0. cbn [req_model]. rewrite Hfb0. intros f [=]. }
    destruct (String.eqb_spec fb0 model) as [->|Hne0].
    { intros [= <- <-]. apply hops_singleton. right.
      unfold req0. cbn [req_model]. rewrite Hfb0. intros f [= <-].
      reflexivity. }
    destruct (_execute_model _ _ _ fuel _ _ _ _ _ _) as [[r' l']|] eqn:Hrest;
      simpl; [|discriminate].
    intros [= <- <-]. apply hops_cons; [exact (IH _ _ _ _ _ _ _ _ Hrest)|].
    intros _ fb Hfb Hne Hp.
    unfold req0 in Hfb. cbn [req_model] in Hfb.
    rewrite Hfb0 in Hfb. injection Hfb as <-.
    rewrite (execute_model_first_request _ _ _ _ _ _ _ _ _ Hp Hrest).
    f_equal. unfold Spec.readdressed, req0, t. simpl. f_equal.
    destruct timeout as [[| |]|]; destruct (default_timeout self);
      reflexivity.
  - destruct (truthy (fallbacks !! model)) as [fb0|] eqn:Hfb0;
      [|intros [= <- <-]; apply hops_singleton; left; rewrite Hnet; discriminate].
    destruct (String.eqb_spec fb0 model) as [->|Hne0];
      [intros [= <- <-]; apply hops_singleton; left; rewrite Hnet; discriminate|].
    destruct (_execute_model _ _ _ fuel _ _ _ _ _ _) as [[r' l']|] eqn:Hrest;
      simpl; [|discriminate].
    intros [= <- <-]. apply (Hother _ _ _ Hrest). discriminate.
  - destruct (truthy (fallbacks !! model)) as [fb0|] eqn:Hfb0;
      [|intros [= <- <-]; apply hops_singleton; left; rewrite Hnet; discriminate].
    destruct (String.eqb_spec fb0 model) as [->|Hne0];
      [intros [= <- <-]; apply hops_singleton; left; rewrite Hnet; discriminate|].
    destruct (_execute_model _ _ _ fuel _ _ _ _ _ _) as [[r' l']|] eqn:Hrest;
      simpl; [|discriminate].
    intros [= <- <-]. apply (Hother _ _ _ Hrest). discriminate.
Qed.

(** The hop happens: when the request of the alias times out and the one
of its fallback is answered, the call returns that answer, under the name
of the fallback. *)
Lemma execute_model_answered_after_timeout (fuel : nat)
    (model prompt : string) (system_prompt : option string) (max_tokens : Z)
    (timeout : option Z) (n : nat) (fallback c : string) (pt ct tt : Z) :
  startswith "perplexity-" model = false \/ perplexity self = None ->
  startswith "perplexity-" fallback = false \/ perplexity self = None ->
  truthy (fallbacks !! model) = Some fallback ->
  fallback <> model ->
  let req :=
    mk_request model (truthy system_prompt) prompt None (Some max_tokens)
      (int_or timeout (default_timeout self)) in
  net n req = Timeout ->
  net (S n) (Spec.readdressed fallback req) = Replied c pt ct tt ->
  _execute_model self fallbacks net (S (S fuel)) model prompt system_prompt
    max_tokens timeout n
  = Some ({| model := fallback; content := c; success := true;
             cost := _estimate_cost fallback pt ct; tokens_used := tt;
             error := None; fallback_used := None |},
          [req; Spec.readdressed fallback req]).
Proof.
  intros Hp Hpf Hfb Hne req Hout Hnext.
  assert (forall m,
            startswith "perplexity-" m = false \/ perplexity self = None ->
            (if startswith "perplexity-" m then perplexity self else None)
            = None) as Hnone.
  { intros m [-> | ->]; [|destruct (startswith "perplexity-" m)]; reflexivity. }
  cbn [_execute_model]. rewrite (Hnone _ Hp).
  fold req. rewrite Hout, Hfb.
  destruct (String.eqb_spec fallback model) as [|_]; [contradiction|].
  cbn [_execute_model]. rewrite (Hnone _ Hpf).
  assert (int_or (Some (int_or timeout (default_timeout self)))
            (default_timeout self)
          = int_or timeout (default_timeout self)) as ->
    by (destruct timeout as [[| |]|]; destruct (default_timeout self);
        reflexivity).
  change (mk_request fallback (truthy system_prompt) prompt None
            (Some max_tokens) (int_or timeout (default_timeout self)))
    with (Spec.readdressed fallback req).
  rewrite Hnext. reflexivity.
Qed.

(** A call whose request timed out, for an alias with a fallback other
than itself, is the call on the fallback, with the request before those of
that call. *)
Lemma execute_model_timeout_is_fallback_call (fuel : nat)
    (model prompt : string) (system_prompt : option string) (max_tokens : Z)
    (timeout : option Z) (n : nat) (fallback : string) :
  startswith "perplexity-" model = false \/ perplexity self = None ->
  let t := int_or timeout (default_timeout self) in
  let req :=
    mk_request model (truthy system_prompt) prompt None (Some max_tokens) t in
  net n req = Timeout ->
  truthy (fallbacks !! model) = Some fallback ->
  fallback <> model ->
  _execute_model self fallbacks net (S fuel) model prompt system_prompt
    max_tokens timeout n
  = '(r, l) ← _execute_model self fallbacks net fuel fallback prompt
                system_prompt max_tokens (Some t) (S n);
    Some (r, req :: l).
Proof.
  intros Hp t req Hout Hfb Hne. cbn [_execute_model].
  replace (if startswith "perplexity-" model then perplexity self else None)
    with (@None (string -> string -> Z -> search_outcome))
    by (destruct Hp as [-> | ->];
        [|destruct (startswith "perplexity-" model)]; reflexivity).
  fold t. fold req. rewrite Hout, Hfb.
  destruct (String.eqb_spec fallback model) as [|_]; [contradiction|].
  reflexivity.
Qed.

End execute_model_hops.

Example gateway_retries_on_timeout :
  option_map
    (fun x => (Gateway.model (fst x), Gateway.error (fst x),
               map (fun q => (Http.req_model q, Http.req_timeout q)) (snd x)))
    (Gateway.call_model Gateway.CouncilGateway_init Models.MODEL_FALLBACKS
       Spec.silent 1 "deepseek-v3" "system" "user" (Some 30%Z) 0.7 None 0)
  = Some ("deepseek-v3", Some "Request timeout after 30s",
          [("deepseek-v3", 30%Z); ("deepseek-v3", 30%Z); ("deepseek-v3", 30%Z)]).
Proof. vm_compute. reflexivity. Qed.

(** C6, as the claim states it, fails for the model client of the stage
executor: [_execute_model] answers the timeout of [deepseek-v3] with a
request to its fallback [gemini-flash], and the timeout of that one with a
request to [gemini-flash-fallback]; no alias is tried twice. *)
Lemma execute_model_falls_back_on_timeout :
  option_map
    (fun x => (Executor.model (fst x), Executor.error (fst x),
               map Http.req_model (snd x)))
    (Executor._execute_model (Executor.ParallelExecutor_init None)
       Models.MODEL_FALLBACKS Spec.silent 3 "deepseek-v3" "prompt" None 2000 None 0)
  = Some ("gemini-flash-fallback", Some "Timeout after 120s",
          ["deepseek-v3"; "gemini-flash"; "gemini-flash-fallback"]).
Proof. vm_compute. reflexivity. Qed.

(** C6, amended.  [CouncilGateway.call_model] repeats a request that
timed out, same alias and same timeout, up to [max_retries] more times (2
as constructed); when every attempt times out it returns a failed response
whose error is [Request timeout after <timeout>s]; whatever the backend
does, a request of [call_model] that timed out is never followed by a
request to another alias.  [ParallelExecutor._execute_model] does not
retry: whatever the backend does, a request that timed out is followed, if
at all, by a request to the fallback alias, and without a fallback other
than the alias itself the call fails with [Timeout after <timeout>s] after
that one request.  With a fallback other than the alias itself, the call
whose request timed out is the call on the fallback, with the same
prompts, token limit and timeout, and its response is returned as it is:
in the requests of a call, one that timed out is followed by the same
request addressed to the fallback (when the gateway, not the Perplexity
client, serves the fallback), and when that request is answered the call
returns the answer under the name of the fallback. *)
Theorem timeout_retries_in_gateway_hops_in_executor
    (gateway : Gateway.CouncilGateway) (executor : Executor.ParallelExecutor)
    (fallbacks : gmap string string) (net : Http.backend) (fuel : nat)
    (model system_prompt user_prompt : string) (timeout : option Z)
    (temperature : Q) (max_tokens : option Z) (n : nat) :
  (Spec.always_timeout net ->
   let t := Http.int_or timeout (Gateway.default_timeout gateway) in
   Gateway.call_model gateway fallbacks net (S fuel) model system_prompt
     user_prompt timeout temperature max_tokens n
   = Some (Gateway.failure model
             ("Request timeout after " ++ PyNum.str_Z t ++ "s"),
           repeat (Gateway.payload model system_prompt user_prompt temperature
                     max_tokens t) (Gateway.max_retries gateway + 1)))
  /\ (forall r log,
        Gateway.call_model gateway fallbacks net fuel model system_prompt
          user_prompt timeout temperature max_tokens n = Some (r, log) ->
        Spec.retried_after_timeout net n log)
  /\ (forall system max r log,
        Executor._execute_model executor fallbacks net fuel model user_prompt
          system max timeout n = Some (r, log) ->
        Spec.hopped_after_timeout fallbacks net n log)
  /\ (Spec.always_timeout net ->
      PyStr.startswith "perplexity-" model = false
      \/ Executor.perplexity executor = None ->
      (forall fallback,
         PyStr.truthy (fallbacks !! model) = Some fallback ->
         fallback = model) ->
      forall system max,
        let t := Http.int_or timeout (Executor.default_timeout executor) in
        Executor._execute_model executor fallbacks net (S fuel) model
          user_prompt system max timeout n
        = Some (Executor.failed model
                  ("Timeout after " ++ PyNum.str_Z t ++ "s"),
                [Http.mk_request model (PyStr.truthy system) user_prompt None
                   (Some max) t]))
  /\ (PyStr.startswith "perplexity-" model = false
      \/ Executor.perplexity executor = None ->
      forall system max fallback,
        let t := Http.int_or timeout (Executor.default_timeout executor) in
        let req :=
          Http.mk_request model (PyStr.truthy system) user_prompt None
            (Some max) t in
        net n req = Http.Timeout ->
        PyStr.truthy (fallbacks !! model) = Some fallback ->
        fallback <> model ->
        Executor._execute_model executor fallbacks net (S fuel) model
          user_prompt system max timeout n
        = '(r, log) ← Executor._execute_model executor fallbacks net fuel
                         fallback user_prompt system max (Some t) (S n);
          Some (r, req :: log))
  /\ (forall system max r log,
        Executor._execute_model executor fallbacks net fuel model user_prompt
          system max timeout n = Some (r, log) ->
        Spec.hops_on_timeout executor fallbacks net n log)
  /\ (PyStr.startswith "perplexity-" model = false
      \/ Executor.perplexity executor = None ->
      forall system max fallback c prompt_tokens completion_tokens total,
        PyStr.startswith "perplexity-" fallback = false
        \/ Executor.perplexity executor = None ->
        PyStr.truthy (fallbacks !! model) = Some fallback ->
        fallback <> model ->
        let req :=
          Http.mk_request model (PyStr.truthy system) user_prompt None
            (Some max)
            (Http.int_or timeout (Executor.default_timeout executor)) in
        net n req = Http.Timeout ->
        net (S n) (Spec.readdressed fallback req)
        = Http.Replied c prompt_tokens completion_tokens total ->
        Executor._execute_model executor fallbacks net (S (S fuel)) model
          user_prompt system max timeout n
        = Some ({| Executor.model := fallback; Executor.content := c;
                   Executor.success := true;
                   Executor.cost :=
                     Executor._estimate_cost fallback prompt_tokens
                       completion_tokens;
                   Executor.tokens_used := total; Executor.error := None;
                   Executor.fallback_used := None |},
                [req; Spec.readdressed fallback req]))
  /\ Gateway.max_retries Gateway.CouncilGateway_init = 2%nat.
Proof.
  split; [intros Hnet; apply call_model_all_timeout, Hnet|].
  split; [intros r log; apply call_model_retried|].
  split; [intros system max r log; apply execute_model_hopped|].
  split.
  { intros Hnet Hp Hfb system max.
    apply execute_model_timeout_no_fallback; assumption. }
  split.
  { intros Hp system max fallback t req Hout Hfb Hne.
    apply execute_model_timeout_is_fallback_call; assumption. }
  split; [intros system max r log; apply execute_model_hops_on_timeout|].
  split; [|reflexivity].
  intros Hp system max fallback c pt ct tt Hpf Hfb Hne req Hout Hnext.
  apply execute_model_answered_after_timeout; assumption.
Qed.

(** The amended C6 with the gateway as constructed and a backend that
never answers in time: three requests to the alias called.  And with the
executor as constructed and a backend that lets the first request time out
and answers the second: [deepseek-v3] times out and its fallback
[gemini-flash] answers. *)
Lemma timeout_retries_in_gateway_hops_in_executor_witness :
  Gateway.call_model Gateway.CouncilGateway_init Models.MODEL_FALLBACKS
    Spec.silent 1 "deepseek-v3" "system" "user" None 0.7 None 0
  = Some (Gateway.failure "deepseek-v3" "Request timeout after 120s",
          repeat (Gateway.payload "deepseek-v3" "system" "user" 0.7 None 120)
            3)
  /\ Executor._execute_model (Executor.ParallelExecutor_init None)
       Models.MODEL_FALLBACKS
       (Spec.scripted [Http.Timeout] (Http.Replied "4" 7 1 8)) 2
       "deepseek-v3" "user" None 2000 None 0
     = Some ({| Executor.model := "gemini-flash"; Executor.content := "4";
                Executor.success := true;
                Executor.cost := Executor._estimate_cost "gemini-flash" 7 1;
                Executor.tokens_used := 8; Executor.error := None;
                Executor.fallback_used := None |},
             [Http.mk_request "deepseek-v3" None "user" None (Some 2000%Z)
                120;
              Http.mk_request "gemini-flash" None "user" None (Some 2000%Z)
                120]).
Proof.
  split.
  - apply (timeout_retries_in_gateway_hops_in_executor
             Gateway.CouncilGateway_init (Executor.ParallelExecutor_init None)
             Models.MODEL_FALLBACKS Spec.silent 0 "deepseek-v3" "system"
             "user" None 0.7 None 0).
    intros n req. reflexivity.
  - apply (timeout_retries_in_gateway_hops_in_executor
             Gateway.CouncilGateway_init (Executor.ParallelExecutor_init None)
             Models.MODEL_FALLBACKS
             (Spec.scripted [Http.Timeout] (Http.Replied "4" 7 1 8)) 0
             "deepseek-v3" "system" "user" None 0.7 None 0);
      try reflexivity; try (right; reflexivity); discriminate.
Defined.

(** ** The stage executor: a parallel stage *)

Section execute_parallel_facts.
Import Executor.

Lemma take_out_Permutation {A} (k : nat) (l : list A) (x : A) (rest : list A) :
  take_out k l = Some (x, rest) -> Permutation l (x :: rest).
Proof.
  revert k x rest.
  induction l as [|y l IH]; intros k x rest; simpl; [discriminate|].
  destruct k as [|k].
  - intros [= <- <-]. reflexivity.
  - destruct (take_out k l) as [[z t]|] eqn:Hk; simpl; [|discriminate].
    intros [= <- <-]. rewrite (IH _ _ _ Hk). apply perm_swap.
Qed.

Lemma take_out_in_range {A} (k : nat) (l : list A) :
  (k < length l)%nat -> exists x rest, take_out k l = Some (x, rest).
Proof.
  revert k.
  induction l as [|y l IH]; intros k Hk; simpl in Hk; [lia|].
  destruct k as [|k]; simpl; [eauto|].
  destruct (IH k) as (x & rest & ->); [lia|]. simpl. eauto.
Qed.

(** Whatever the scheduler does, every pending future settles, once. *)
Lemma as_completed_Permutation {A} (n : nat) :
  forall (sched : list nat) (pending : list A),
    length pending = n -> Permutation (as_completed sched pending n) pending.
Proof.
  induction n as [|n IH]; intros sched pending Hlen.
  - destruct pending; [reflexivity | discriminate].
  - cbn [as_completed].
    destruct (take_out_in_range (hd 0%nat sched mod length pending) pending)
      as (x & rest & Hout).
    { apply Nat.mod_upper_bound. lia. }
    rewrite Hout.
    pose proof (take_out_Permutation _ _ _ _ Hout) as Hperm.
    rewrite Hperm. constructor. apply IH.
    apply Permutation_length in Hperm. simpl in Hperm. lia.
Qed.

Lemma success_collect (f : string * settled) :
  success (collect f) = negb (Spec.call_failed (snd f)).
Proof.
  destruct f as [model [r|e]]; simpl; [|reflexivity].
  destruct (success r); reflexivity.
Qed.

Lemma count_successes (l : list ModelResponse) :
  (length (filter (fun r => success r = true) l)
   + length (filter (fun r => success r = false) l) = length l)%nat.
Proof.
  induction l as [|r l IH]; [reflexivity|].
  rewrite !filter_cons. simpl.
  destruct (success r); simpl; repeat case_decide; simpl; try congruence; lia.
Qed.

End execute_parallel_facts.

Section execute_parallel_counts.
Import Executor.

Lemma count_failed (futures : list (string * settled)) :
  length (filter (fun r => success r = false) (map collect futures))
  = length (filter (fun f => Spec.call_failed (snd f) = true) futures).
Proof.
  induction futures as [|f futures IH]; [reflexivity|].
  cbn [map]. rewrite !filter_cons, success_collect.
  destruct (Spec.call_failed (snd f)); simpl; repeat case_decide;
    simpl; congruence.
Qed.

End execute_parallel_counts.

(** C5, as the claim states it, fails for the stage without models: the
pool is then created with [max_workers = 0], which raises, and no
[ParallelResult] is returned. *)
Lemma execute_parallel_empty_stage_raises :
  Executor.execute_parallel (Executor.ParallelExecutor_init None)
    (fun _ _ _ _ _ _ => Executor.Raised "unreachable") [] [] "prompt" None
    2000 None
  = Executor.ValueError "max_workers must be greater than 0".
Proof. reflexivity. Qed.

(** C5, amended.  For a stage of [N >= 1] models and an executor with
[max_workers >= 1], whatever the order in which the calls settle,
[execute_parallel] returns a [ParallelResult] that holds the response of
every submitted call, [N] in all, with [failure_count] the number [K] of
calls that failed (an exception, or a response that is not a success) and
[success_count = N - K]; no failure of a call makes it raise. *)
Theorem execute_parallel_collects_every_call
    (self : Executor.ParallelExecutor) (run : Executor.runner)
    (sched : list nat) (models : list string) (prompt : string)
    (system_prompts : option (gmap string string)) (max_tokens : Z)
    (timeout : option Z) :
  (0 < Executor.max_workers self)%Z ->
  models <> [] ->
  let futures :=
    imap (fun i model =>
            (model, run i model prompt (default ∅ system_prompts !! model)
                      max_tokens timeout))
      models in
  let K :=
    length (filter (fun f => Spec.call_failed (snd f) = true) futures) in
  exists result,
    Executor.execute_parallel self run sched models prompt system_prompts
      max_tokens timeout = Executor.Ok result
    /\ Permutation (Executor.responses result) (map Executor.collect futures)
    /\ length (Executor.responses result) = length models
    /\ Executor.success_count result = (length models - K)%nat
    /\ Executor.failure_count result = K.
Proof.
  intros Hworkers Hmodels futures K.
  unfold Executor.execute_parallel.
  destruct (Z.leb_spec (Z.min (Executor.max_workers self)
                          (Z.of_nat (length models))) 0) as [Hle|_].
  { destruct models; [congruence | simpl length in Hle; lia]. }
  fold futures.
  set (responses :=
         map Executor.collect
           (Executor.as_completed sched futures (length futures))).
  assert (Permutation responses (map Executor.collect futures)) as Hperm.
  { apply Permutation_map, as_completed_Permutation. reflexivity. }
  assert (length responses = length models) as Hlen.
  { rewrite (Permutation_length Hperm), length_map. apply length_imap. }
  assert (length (filter (fun r => Executor.success r = false) responses) = K)
    as HK.
  { rewrite Hperm. apply count_failed. }
  pose proof (count_successes responses) as Hsum.
  eexists. split; [reflexivity|]. simpl.
  split; [exact Hperm|]. split; [exact Hlen|]. split; lia.
Qed.

(** The amended C5 on a stage of three models of which the second raises
and the third answers with a failure, settling in the order 2, 0, 1. *)
Lemma execute_parallel_collects_every_call_witness :
  exists result,
    Executor.execute_parallel (Executor.ParallelExecutor_init None)
      (fun i model _ _ _ _ =>
         match i with
         | 0%nat =>
             Executor.Returned
               {| Executor.model := model; Executor.content := "fine";
                  Executor.success := true; Executor.cost := 0.01;
                  Executor.tokens_used := 10; Executor.error := None;
                  Executor.fallback_used := None |}
         | 1%nat => Executor.Raised "boom"
         | _ => Executor.Returned (Executor.failed model "HTTP 500")
         end)
      [2; 0; 0]%nat ["kimi-researcher"; "perplexity-online"; "deepseek-v3"]
      "prompt" None 1500 None
    = Executor.Ok result
    /\ length (Executor.responses result) = 3%nat
    /\ Executor.success_count result = 1%nat
    /\ Executor.failure_count result = 2%nat.
Proof.
  destruct (execute_parallel_collects_every_call
              (Executor.ParallelExecutor_init None)
              (fun i model _ _ _ _ =>
                 match i with
                 | 0%nat =>
                     Executor.Returned
                       {| Executor.model := model; Executor.content := "fine";
                          Executor.success := true; Executor.cost := 0.01;
                          Executor.tokens_used := 10; Executor.error := None;
                          Executor.fallback_used := None |}
                 | 1%nat => Executor.Raised "boom"
                 | _ => Executor.Returned (Executor.failed model "HTTP 500")
                 end)
              [2; 0; 0]%nat
              ["kimi-researcher"; "perplexity-online"; "deepseek-v3"]
              "prompt" None 1500 None)
    as (result & Hrun & _ & Hlen & Hok & Hko).
  - reflexivity.
  - discriminate.
  - exists result. repeat split; assumption.
Defined.

(** ** The four-step debate *)



Section debate_facts.
Import Orchestrator.

Lemma step2_prompt_length (proposal : string) :
  String.length (step2_prompt proposal) = (286 + String.length proposal)%nat.
Proof. unfold step2_prompt. rewrite !length_append. simpl. lia. Qed.

Lemma step3_prompt_length (proposal critique context : string) :
  String.length (step3_prompt proposal critique context)
  = (524 + String.length proposal + String.length critique
     + String.length context)%nat.
Proof. unfold step3_prompt. rewrite !length_append. simpl. lia. Qed.

Lemma step4_prompt_length (proposal critique analysis : string) :
  String.length (step4_prompt proposal critique analysis)
  = (363 + String.length proposal + String.length critique
     + String.length analysis)%nat.
Proof. unfold step4_prompt. rewrite !length_append. simpl. lia. Qed.

End debate_facts.

(** C8 does not hold of [execute_diamond_debate]: the prompts of steps 2
to 4 embed the earlier outputs whole, so that their length is that of the
fixed text plus the full length of every embedded output; with a backend
that answers each step with 3000 characters, the prompts sent to the
Auditor, the Contextualist and the Judge are 3286, 6524 and 9363
characters long. *)
Theorem debate_embeds_whole_outputs :
  (forall proposal critique analysis context : string,
     String.length (Orchestrator.step2_prompt proposal)
     = (286 + String.length proposal)%nat
     /\ String.length (Orchestrator.step3_prompt proposal critique context)
        = (524 + String.length proposal + String.length critique
           + String.length context)%nat
     /\ String.length (Orchestrator.step4_prompt proposal critique analysis)
        = (363 + String.length proposal + String.length critique
           + String.length analysis)%nat)
  /\ option_map
       (fun x => map (fun q => (Http.req_model q,
                                N.of_nat (String.length (Http.req_user q))))
                   (snd x))
       (Orchestrator.execute_diamond_debate
          (Executor.ParallelExecutor_init None) Models.MODEL_FALLBACKS
          (Spec.chatty 3000) 1 "topic" None "" 0)
     = Some [("gemini-architect", 212%N); ("deepseek-v3", 3286%N);
             ("kimi-researcher", 6524%N); ("opus-synthesis", 9363%N)].
Proof.
  split.
  - intros proposal critique analysis context.
    split; [apply step2_prompt_length|].
    split; [apply step3_prompt_length | apply step4_prompt_length].
  - vm_compute. reflexivity.
Qed.


(** * Further properties *)

(** ** The protocol of the gateway *)

Section gateway_protocol.
Import PyStr Http Gateway.

Variable self : CouncilGateway.
Variable fallbacks : gmap string string.
Variable net : backend.

Lemma int_or_idem (timeout : option Z) (d : Z) :
  int_or (Some (int_or timeout d)) d = int_or timeout d.
Proof. destruct timeout as [[| |]|]; destruct d; reflexivity. Qed.

Lemma attempts_protocol
    (hop : string -> nat -> option (response * list request))
    (model system_prompt user_prompt : string) (timeout : Z)
    (temperature : Q) (max_tokens : option Z) :
  (forall fallback n r l,
     hop fallback n = Some (r, l) ->
     exists rest last o,
       l = payload fallback system_prompt user_prompt temperature max_tokens
             timeout :: rest
       /\ Spec.protocol (max_retries self) fallbacks net 0 n l last o
       /\ r = Spec.response_of last o) ->
  forall remaining attempt n r l,
    (attempt + remaining = max_retries self + 1)%nat ->
    remaining <> 0%nat ->
    attempts self fallbacks net hop model system_prompt user_prompt timeout
      temperature max_tokens attempt remaining n = Some (r, l) ->
    exists rest last o,
      l = payload model system_prompt user_prompt temperature max_tokens
            timeout :: rest
      /\ Spec.protocol (max_retries self) fallbacks net attempt n l last o
      /\ r = Spec.response_of last o.
Proof.
  intros Hhop.
  set (req := payload model system_prompt user_prompt temperature max_tokens
                timeout).
  assert (forall attempt n o,
            net n req = o ->
            Spec.final (max_retries self) fallbacks attempt req o ->
            exists rest last o',
              [req] = req :: rest
              /\ Spec.protocol (max_retries self) fallbacks net attempt n [req]
                   last o'
              /\ Spec.response_of req o = Spec.response_of last o')
    as Hlast.
  { intros attempt n o <- Hfinal. exists [], req, (net n req).
    repeat split. constructor. exact Hfinal. }
  induction remaining as [|remaining IH]; intros attempt n r l Hsum Hpos;
    [congruence|].
  cbn [attempts]. fold req.
  destruct (net n req) as [c pt ct tt|e| |e|e] eqn:Hnet.
  - intros [= <- <-]. apply (Hlast _ _ _ Hnet). exact I.
  - intros [= <- <-]. apply (Hlast _ _ _ Hnet). exact I.
  - destruct (Nat.ltb_spec attempt (max_retries self)) as [Hlt|Hge].
    + destruct (attempts _ _ _ _ _ _ _ _ _ _ _ _ _) as [[r' l']|] eqn:Hrest;
        simpl; [|discriminate].
      intros [= <- <-].
      destruct (IH (S attempt) (S n) r' l' ltac:(lia) ltac:(lia) Hrest)
        as (rest & last & o & -> & Hp & ->).
      exists (req :: rest), last, o. repeat split.
      apply Spec.protocol_retry; assumption.
    + intros [= <- <-]. apply (Hlast _ _ _ Hnet). simpl. lia.
  - destruct (truthy (fallbacks !! model)) as [fallback|] eqn:Hfb.
    + destruct (Nat.eqb_spec attempt 0) as [->|Hne].
      * destruct (hop fallback (S n)) as [[r' l']|] eqn:Hrest; simpl;
          [|discriminate].
        intros [= <- <-].
        destruct (Hhop _ _ _ _ Hrest) as (rest & last & o & -> & Hp & ->).
        exists (payload fallback system_prompt user_prompt temperature
                  max_tokens timeout :: rest), last, o.
        repeat split.
        eapply Spec.protocol_hop; [exact Hnet | exact Hfb | exact Hp].
      * intros [= <- <-]. apply (Hlast _ _ _ Hnet). simpl. auto.
    + intros [= <- <-]. apply (Hlast _ _ _ Hnet). simpl. auto.
  - intros [= <- <-]. apply (Hlast _ _ _ Hnet). exact I.
Qed.

Lemma call_model_protocol (fuel : nat) :
  forall (model system_prompt user_prompt : string) (timeout : option Z)
    (temperature : Q) (max_tokens : option Z) (n : nat) r l,
    call_model self fallbacks net fuel model system_prompt user_prompt
      timeout temperature max_tokens n = Some (r, l) ->
    exists rest last o,
      l = payload model system_prompt user_prompt temperature max_tokens
            (int_or timeout (default_timeout self)) :: rest
      /\ Spec.protocol (max_retries self) fallbacks net 0 n l last o
      /\ r = Spec.response_of last o.
Proof.
  induction fuel as [|fuel IH]; intros model sp up timeout temp mt n r l;
    cbn [call_model]; [discriminate|].
  apply attempts_protocol; [|lia|lia].
  intros fallback n' r' l' Hhop.
  apply IH in Hhop. rewrite int_or_idem in Hhop. exact Hhop.
Qed.

(** In a run that is past the first attempt, only the last request can be
a request failure. *)
Lemma protocol_later_failure (attempt n : nat) (log : list request)
    (last : request) (o : outcome) :
  Spec.protocol (max_retries self) fallbacks net attempt n log last o ->
  attempt <> 0%nat ->
  forall i req e,
    log !! i = Some req ->
    net (n + i)%nat req = RequestError e ->
    S i = length log /\ last = req /\ o = RequestError e.
Proof.
  induction 1 as [attempt n req Hfinal
                 |attempt n req log last o Hnet Hlt Hrest IH
                 |n req e' fallback log last o Hnet Hfb Hrest IH];
    intros Hattempt i r e Hi Hout.
  - destruct i; [|discriminate]. injection Hi as <-.
    rewrite Nat.add_0_r in Hout. auto.
  - destruct i as [|i]; simpl in Hi.
    + injection Hi as <-. rewrite Nat.add_0_r in Hout. congruence.
    + destruct (IH ltac:(lia) i r e Hi) as (Hlen & Hlast & Ho).
      * rewrite <- Hout. f_equal. lia.
      * simpl in *. auto.
  - congruence.
Qed.

Lemma protocol_failure_after_timeout (attempt n : nat) (log : list request)
    (last : request) (o : outcome) :
  Spec.protocol (max_retries self) fallbacks net attempt n log last o ->
  forall i req req' e,
    log !! i = Some req -> log !! S i = Some req' ->
    net (n + i)%nat req = Timeout ->
    net (n + S i)%nat req' = RequestError e ->
    S (S i) = length log /\ req' = req /\ last = req /\ o = RequestError e.
Proof.
  induction 1 as [attempt n req Hfinal
                 |attempt n req log last o Hnet Hlt Hrest IH
                 |n req e' fallback log last o Hnet Hfb Hrest IH];
    intros i r r' e Hi Hi' Hout Hout'.
  - destruct i; discriminate.
  - destruct i as [|i]; simpl in Hi, Hi'.
    + injection Hi as <-. injection Hi' as <-.
      destruct (protocol_later_failure _ _ _ _ _ Hrest ltac:(lia) 0%nat req e
                  eq_refl) as (Hlen & Hlast & Ho).
      * rewrite <- Hout'. f_equal. lia.
      * simpl in *. auto.
    + destruct (IH i r r' e Hi Hi') as (Hlen & Hreq & Hlast & Ho).
      * rewrite <- Hout. f_equal. lia.
      * rewrite <- Hout'. f_equal. lia.
      * simpl in *. auto.
  - destruct i as [|i]; simpl in Hi, Hi'.
    + injection Hi as <-. rewrite Nat.add_0_r in Hout. congruence.
    + destruct (IH i r r' e Hi Hi') as (Hlen & Hreq & Hlast & Ho).
      * rewrite <- Hout. f_equal. lia.
      * rewrite <- Hout'. f_equal. lia.
      * simpl in *. auto.
Qed.

End gateway_protocol.

Section gateway_returns.
Import PyStr Http Gateway.

Variable self : CouncilGateway.
Variable fallbacks : gmap string string.
Variable net : backend.

(** Past the first attempt the loop ends within the attempts that are
left, whatever the backend does. *)
Lemma attempts_later_returns
    (hop : string -> nat -> option (response * list request))
    (model system_prompt user_prompt : string) (timeout : Z)
    (temperature : Q) (max_tokens : option Z) :
  forall remaining attempt n,
    attempt <> 0%nat ->
    exists r l,
      attempts self fallbacks net hop model system_prompt user_prompt timeout
        temperature max_tokens attempt remaining n = Some (r, l)
      /\ (length l <= remaining)%nat.
Proof.
  induction remaining as [|remaining IH]; intros attempt n Hattempt;
    cbn [attempts].
  { eexists _, _. split; [reflexivity | simpl; lia]. }
  destruct (net n _) as [c pt ct tt|e| |e|e];
    try (eexists _, _; split; [reflexivity | simpl; lia]).
  - destruct (attempt <? max_retries self)%nat.
    + destruct (IH (S attempt) (S n)) as (r & l & -> & Hl); [lia|].
      simpl. eexists _, _. split; [reflexivity | simpl; lia].
    + eexists _, _. split; [reflexivity | simpl; lia].
  - destruct (truthy (fallbacks !! model)) as [fallback|].
    + destruct (Nat.eqb_spec attempt 0) as [|_]; [contradiction|].
      eexists _, _. split; [reflexivity | simpl; lia].
    + eexists _, _. split; [reflexivity | simpl; lia].
Qed.

Lemma call_model_returns_within_bound (model : string) (chain : list string) :
  Spec.fallback_chain fallbacks model chain ->
  forall fuel (system_prompt user_prompt : string) (timeout : option Z)
    (temperature : Q) (max_tokens : option Z) (n : nat),
    (length chain <= fuel)%nat ->
    exists r log,
      call_model self fallbacks net fuel model system_prompt user_prompt
        timeout temperature max_tokens n = Some (r, log)
      /\ (length log + 1 <= length chain + (1 + max_retries self))%nat.
Proof.
  intros Hchain.
  induction Hchain as [model Hlast|model fallback rest Hnext Hrest IH];
    intros fuel sp up timeout temp mt n Hfuel;
    (destruct fuel as [|fuel]; [simpl in Hfuel; lia|]);
    cbn [call_model]; rewrite Nat.add_1_r; cbn [attempts];
    set (t := int_or timeout (default_timeout self));
    destruct (net n _) as [c pt ct tt|e| |e|e];
    try (eexists _, _; split; [reflexivity | simpl; lia]).
  - destruct (0 <? max_retries self)%nat;
      [|eexists _, _; split; [reflexivity | simpl; lia]].
    destruct (attempts_later_returns
                (fun fallback n' =>
                   call_model self fallbacks net fuel fallback sp up (Some t)
                     temp mt n')
                model sp up t temp mt (max_retries self) 1 (S n))
      as (r & l & -> & Hl); [lia|].
    simpl. eexists _, _. split; [reflexivity | simpl; lia].
  - rewrite Hlast. eexists _, _. split; [reflexivity | simpl; lia].
  - pose proof (fallback_chain_nonempty fallbacks _ _ Hrest) as Hne.
    destruct (0 <? max_retries self)%nat;
      [|eexists _, _; split; [reflexivity | simpl; lia]].
    destruct (attempts_later_returns
                (fun fallback n' =>
                   call_model self fallbacks net fuel fallback sp up (Some t)
                     temp mt n')
                model sp up t temp mt (max_retries self) 1 (S n))
      as (r & l & -> & Hl); [lia|].
    simpl. eexists _, _. split; [reflexivity | simpl; lia].
  - rewrite Hnext. cbn [Nat.eqb].
    destruct (IH fuel sp up (Some t) temp mt (S n))
      as (r & log & -> & Hlen); [simpl in Hfuel; lia|].
    simpl. eexists _, _. split; [reflexivity | simpl; lia].
Qed.

End gateway_returns.

(** X1 (gateway.py, [call_model]).  Whatever the backend does, a call on an
alias whose fallbacks do not run into a cycle returns: with fuel for the
length of the chain the model gives a response, the same for any more
fuel, after at least one request and at most one request for each alias
of the chain but one, plus [1 + max_retries] for the alias where the call
ends. *)
Theorem call_model_returns_on_chain
    (self : Gateway.CouncilGateway) (fallbacks : gmap string string)
    (net : Http.backend) (model : string) (chain : list string)
    (system_prompt user_prompt : string) (timeout : option Z)
    (temperature : Q) (max_tokens : option Z) (n : nat) :
  Spec.fallback_chain fallbacks model chain ->
  exists r log,
    (forall fuel, (length chain <= fuel)%nat ->
       Gateway.call_model self fallbacks net fuel model system_prompt
         user_prompt timeout temperature max_tokens n = Some (r, log))
    /\ (1 <= length log)%nat
    /\ (length log + 1
        <= length chain + (1 + Gateway.max_retries self))%nat.
Proof.
  intros Hchain.
  destruct (call_model_returns_within_bound self fallbacks net model chain
              Hchain (length chain) system_prompt user_prompt timeout
              temperature max_tokens n (Nat.le_refl _))
    as (r & log & Hcall & Hlen).
  exists r, log. repeat split; [ | |exact Hlen].
  - intros fuel Hfuel.
    exact (call_model_mono self fallbacks net _ _ Hfuel _ _ _ _ _ _ _ _ Hcall).
  - destruct (call_model_protocol self fallbacks net _ _ _ _ _ _ _ _ _ _ Hcall)
      as (rest & _ & _ & -> & _). simpl. lia.
Qed.

(** X1 on the shipped table, from [deepseek-v3], with a backend that
refuses the first request, lets the second time out twice and answers
the fourth. *)
Lemma call_model_returns_on_chain_witness :
  exists r log,
    (forall fuel, (3 <= fuel)%nat ->
       Gateway.call_model Gateway.CouncilGateway_init Models.MODEL_FALLBACKS
         (Spec.scripted
            [Http.RequestError "reset"; Http.Timeout; Http.Timeout]
            (Http.Replied "ok" 1 1 2))
         fuel "deepseek-v3" "system" "user" None 0.7 None 0
       = Some (r, log))
    /\ (1 <= length log)%nat
    /\ (length log + 1 <= 3 + (1 + 2))%nat.
Proof.
  apply (call_model_returns_on_chain Gateway.CouncilGateway_init
           Models.MODEL_FALLBACKS
           (Spec.scripted
              [Http.RequestError "reset"; Http.Timeout; Http.Timeout]
              (Http.Replied "ok" 1 1 2))
           "deepseek-v3"
           ["deepseek-v3"; "gemini-flash"; "gemini-flash-fallback"]
           "system" "user" None 0.7 None 0).
  apply Spec.chain_hop with (fallback := "gemini-flash"); [reflexivity|].
  apply Spec.chain_hop with (fallback := "gemini-flash-fallback");
    [reflexivity|].
  apply Spec.chain_last. reflexivity.
Defined.

Example scripted_call :
  option_map
    (fun x => (Gateway.success (fst x), Gateway.model (fst x),
               map Http.req_model (snd x)))
    (Gateway.call_model Gateway.CouncilGateway_init Models.MODEL_FALLBACKS
       (Spec.scripted
          [Http.RequestError "reset"; Http.Timeout; Http.Timeout]
          (Http.Replied "ok" 1 1 2))
       3 "deepseek-v3" "system" "user" None 0.7 None 0)
  = Some (true, "gemini-flash",
          ["deepseek-v3"; "gemini-flash"; "gemini-flash"; "gemini-flash"]).
Proof. vm_compute. reflexivity. Qed.

(** X2 (gateway.py, [call_model]).  Every response of [call_model] comes
from its last request: the requests issued follow the protocol (first the
request for the alias asked for; the same request again after a timeout
while retries are left; the same request for the fallback alias after a
request failure at a first attempt; nothing after any other outcome), and
the response is the one that the outcome of the last request determines,
under the alias of that request.  In particular the response
[Max retries exceeded] is never given. *)
Theorem call_model_follows_protocol
    (self : Gateway.CouncilGateway) (fallbacks : gmap string string)
    (net : Http.backend) (fuel : nat) (model system_prompt user_prompt : string)
    (timeout : option Z) (temperature : Q) (max_tokens : option Z) (n : nat)
    (r : Gateway.response) (log : list Http.request) :
  Gateway.call_model self fallbacks net fuel model system_prompt user_prompt
    timeout temperature max_tokens n = Some (r, log) ->
  exists rest last o,
    log = Gateway.payload model system_prompt user_prompt temperature
            max_tokens (Http.int_or timeout (Gateway.default_timeout self))
          :: rest
    /\ Spec.protocol (Gateway.max_retries self) fallbacks net 0 n log last o
    /\ r = Spec.response_of last o
    /\ Gateway.error r <> Some "Max retries exceeded".
Proof.
  intros Hcall.
  destruct (call_model_protocol self fallbacks net _ _ _ _ _ _ _ _ _ _ Hcall)
    as (rest & last & o & Hlog & Hp & ->).
  exists rest, last, o. repeat split; try assumption.
  destruct o; simpl; intros [=].
Qed.

Lemma call_model_follows_protocol_witness :
  exists rest last o,
    [Http.mk_request "deepseek-v3" (Some "system") "user" (Some 0.7%Q) None 120;
     Http.mk_request "gemini-flash" (Some "system") "user" (Some 0.7%Q) None 120;
     Http.mk_request "gemini-flash" (Some "system") "user" (Some 0.7%Q) None 120;
     Http.mk_request "gemini-flash" (Some "system") "user" (Some 0.7%Q) None 120]
    = Gateway.payload "deepseek-v3" "system" "user" 0.7 None
        (Http.int_or None
           (Gateway.default_timeout Gateway.CouncilGateway_init))
      :: rest
    /\ Spec.protocol 2 Models.MODEL_FALLBACKS
         (Spec.scripted
            [Http.RequestError "reset"; Http.Timeout; Http.Timeout]
            (Http.Replied "ok" 1 1 2))
         0 0
         [Http.mk_request "deepseek-v3" (Some "system") "user" (Some 0.7%Q)
            None 120;
          Http.mk_request "gemini-flash" (Some "system") "user" (Some 0.7%Q)
            None 120;
          Http.mk_request "gemini-flash" (Some "system") "user" (Some 0.7%Q)
            None 120;
          Http.mk_request "gemini-flash" (Some "system") "user" (Some 0.7%Q)
            None 120]
         last o
    /\ {| Gateway.success := true; Gateway.content := Some "ok";
          Gateway.model := "gemini-flash"; Gateway.tokens := 2;
          Gateway.error := None |} = Spec.response_of last o
    /\ Gateway.error
         {| Gateway.success := true; Gateway.content := Some "ok";
            Gateway.model := "gemini-flash"; Gateway.tokens := 2;
            Gateway.error := None |}
       <> Some "Max retries exceeded".
Proof.
  apply (call_model_follows_protocol Gateway.CouncilGateway_init
           Models.MODEL_FALLBACKS
           (Spec.scripted
              [Http.RequestError "reset"; Http.Timeout; Http.Timeout]
              (Http.Replied "ok" 1 1 2))
           3 "deepseek-v3" "system" "user" None 0.7 None 0).
  vm_compute. reflexivity.
Defined.

(** X3 (gateway.py, [call_model]).  Among the requests of one call, a
request failure that comes right after a timeout ends the call: the
fallback is tried only when the first attempt on an alias fails, not
when a retry does. *)
Theorem call_model_no_fallback_after_retry
    (self : Gateway.CouncilGateway) (fallbacks : gmap string string)
    (net : Http.backend) (fuel : nat) (model system_prompt user_prompt : string)
    (timeout : option Z) (temperature : Q) (max_tokens : option Z) (n : nat)
    (r : Gateway.response) (log : list Http.request)
    (i : nat) (req req' : Http.request) (e : string) :
  Gateway.call_model self fallbacks net fuel model system_prompt user_prompt
    timeout temperature max_tokens n = Some (r, log) ->
  log !! i = Some req -> log !! S i = Some req' ->
  net (n + i)%nat req = Http.Timeout ->
  net (n + S i)%nat req' = Http.RequestError e ->
  S (S i) = length log
  /\ r = Gateway.failure (Http.req_model req)
           ("Request failed: " ++ PyStr.slice_to 100 e).
Proof.
  intros Hcall Hi Hi' Hout Hout'.
  destruct (call_model_protocol self fallbacks net _ _ _ _ _ _ _ _ _ _ Hcall)
    as (rest & last & o & _ & Hp & ->).
  destruct (protocol_failure_after_timeout self fallbacks net _ _ _ _ _ Hp
              i req req' e Hi Hi' Hout Hout') as (Hlen & _ & -> & ->).
  split; [exact Hlen | reflexivity].
Qed.

(** X3 on the shipped table: [gemini-flash] has a fallback, but a request
failure after its timeout ends the call. *)
Lemma call_model_no_fallback_after_retry_witness :
  S (S 0) = length
    [Http.mk_request "gemini-flash" (Some "system") "user" (Some 0.7%Q) None 120;
     Http.mk_request "gemini-flash" (Some "system") "user" (Some 0.7%Q) None 120]
  /\ Gateway.failure "gemini-flash" "Request failed: reset"
     = Gateway.failure
         (Http.req_model
            (Http.mk_request "gemini-flash" (Some "system") "user"
               (Some 0.7%Q) None 120))
         ("Request failed: " ++ PyStr.slice_to 100 "reset").
Proof.
  apply (call_model_no_fallback_after_retry Gateway.CouncilGateway_init
           Models.MODEL_FALLBACKS
           (Spec.scripted [Http.Timeout; Http.RequestError "reset"]
              (Http.Replied "ok" 1 1 2))
           3 "gemini-flash" "system" "user" None 0.7 None 0
           (Gateway.failure "gemini-flash" "Request failed: reset")
           [Http.mk_request "gemini-flash" (Some "system") "user"
              (Some 0.7%Q) None 120;
            Http.mk_request "gemini-flash" (Some "system") "user"
              (Some 0.7%Q) None 120]
           0%nat
           (Http.mk_request "gemini-flash" (Some "system") "user"
              (Some 0.7%Q) None 120)
           (Http.mk_request "gemini-flash" (Some "system") "user"
              (Some 0.7%Q) None 120)
           "reset");
    vm_compute; reflexivity.
Defined.

(** ** One call of the executor *)

Section execute_model_results.
Import PyStr Http Executor.

Variable self : ParallelExecutor.
Variable fallbacks : gmap string string.
Variable net : backend.

Lemma execute_model_mono (fuel fuel' : nat) :
  (fuel <= fuel')%nat ->
  forall (model prompt : string) (system_prompt : option string)
    (max_tokens : Z) (timeout : option Z) (n : nat) x,
    _execute_model self fallbacks net fuel model prompt system_prompt
      max_tokens timeout n = Some x ->
    _execute_model self fallbacks net fuel' model prompt system_prompt
      max_tokens timeout n = Some x.
Proof.
  revert fuel'.
  induction fuel as [|fuel IH]; intros fuel' Hle model prompt sp mt timeout n x;
    cbn [_execute_model]; [discriminate|].
  destruct fuel' as [|fuel']; [lia|]. cbn [_execute_model].
  destruct (if startswith "perplexity-" model then perplexity self else None)
    as [search|]; [trivial|].
  destruct (net n _) as [c pt ct tt|e| |e|e]; try trivial;
    (destruct (truthy (fallbacks !! model)) as [fallback|]; [|trivial]);
    (destruct (String.eqb fallback model); [trivial|]);
    (destruct (_execute_model self fallbacks net fuel _ _ _ _ _ _)
       as [[r l]|] eqn:Hrest; simpl; [|discriminate]);
    rewrite (IH fuel' ltac:(lia) _ _ _ _ _ _ _ Hrest); trivial.
Qed.

(** A response is a success without an error, or a failure with an error
and nothing else. *)
Lemma execute_model_response (fuel : nat) :
  forall (model prompt : string) (system_prompt : option string)
    (max_tokens : Z) (timeout : option Z) (n : nat) r log,
    _execute_model self fallbacks net fuel model prompt system_prompt
      max_tokens timeout n = Some (r, log) ->
    if success r then error r = None
    else content r = "" /\ cost r = 0%Q /\ tokens_used r = 0%Z
         /\ error r <> None.
Proof.
  induction fuel as [|fuel IH]; intros model prompt sp mt timeout n r log;
    cbn [_execute_model]; [discriminate|].
  destruct (if startswith "perplexity-" model then perplexity self else None)
    as [search|].
  { destruct (search _ _ _); intros [= <- <-]; simpl;
      repeat split; try reflexivity; discriminate. }
  destruct (net n _) as [c pt ct tt|e| |e|e];
    try (intros [= <- <-]; simpl; reflexivity);
    (destruct (truthy (fallbacks !! model)) as [fallback|];
     [|intros [= <- <-]; simpl; repeat split; try reflexivity; discriminate]);
    (destruct (String.eqb fallback model);
     [intros [= <- <-]; simpl; repeat split; try reflexivity; discriminate|]);
    (destruct (_execute_model self fallbacks net fuel _ _ _ _ _ _)
       as [[r' l']|] eqn:Hrest; simpl; [|discriminate]);
    intros [= <- <-]; apply IH in Hrest; exact Hrest.
Qed.

(** A response that records a fallback bears the name of the alias that
failed and of the fallback of that alias. *)
Lemma execute_model_renamed (fuel : nat) :
  forall (model prompt : string) (system_prompt : option string)
    (max_tokens : Z) (timeout : option Z) (n : nat) r log alias,
    _execute_model self fallbacks net fuel model prompt system_prompt
      max_tokens timeout n = Some (r, log) ->
    fallback_used r = Some alias ->
    exists fallback,
      truthy (fallbacks !! alias) = Some fallback
      /\ fallback <> alias
      /\ Executor.model r = alias ++ " (via " ++ fallback ++ ")"
      /\ In alias (map req_model log).
Proof.
  induction fuel as [|fuel IH]; intros model prompt sp mt timeout n r log alias;
    cbn [_execute_model]; [discriminate|].
  destruct (if startswith "perplexity-" model then perplexity self else None)
    as [search|].
  { destruct (search _ _ _); intros [= <- <-]; discriminate. }
  destruct (net n _) as [c pt ct tt|e| |e|e];
    try (intros [= <- <-]; discriminate);
    (destruct (truthy (fallbacks !! model)) as [fallback|] eqn:Hfb;
     [|intros [= <- <-]; discriminate]);
    (destruct (String.eqb_spec fallback model) as [|Hne];
     [intros [= <- <-]; discriminate|]);
    (destruct (_execute_model self fallbacks net fuel _ _ _ _ _ _)
       as [[r' l']|] eqn:Hrest; simpl; [|discriminate]);
    intros [= <- <-]; simpl.
  2: { intros Hused.
       destruct (IH _ _ _ _ _ _ _ _ _ Hrest Hused) as (f & ? & ? & ? & ?).
       exists f. auto. }
  all: intros [= <-]; exists fallback; auto.
Qed.

End execute_model_results.

Section execute_model_chains.
Import PyStr Http Executor.

Variable self : ParallelExecutor.
Variable fallbacks : gmap string string.
Variable net : backend.

Lemma executor_chain_nonempty (model : string) (chain : list string) :
  Spec.executor_chain fallbacks model chain -> (1 <= length chain)%nat.
Proof. destruct 1; simpl; lia. Qed.

Lemma execute_model_returns (model : string) (chain : list string) :
  Spec.executor_chain fallbacks model chain ->
  forall fuel (prompt : string) (system_prompt : option string)
    (max_tokens : Z) (timeout : option Z) (n : nat),
    (length chain <= fuel)%nat ->
    exists r log,
      _execute_model self fallbacks net fuel model prompt system_prompt
        max_tokens timeout n = Some (r, log)
      /\ map req_model log `prefix_of` chain.
Proof.
  intros Hchain.
  induction Hchain as [model Hlast|model fallback rest Hnext Hne Hrest IH];
    intros fuel prompt sp mt timeout n Hfuel;
    (destruct fuel as [|fuel]; [simpl in Hfuel; lia|]);
    cbn [_execute_model];
    (destruct (if startswith "perplexity-" model then perplexity self
               else None) as [search|];
     [destruct (search _ _ _); eexists _, _;
      (split; [reflexivity | apply prefix_nil])|]);
    destruct (net n _) as [c pt ct tt|e| |e|e];
    try (eexists _, _; split; [reflexivity | simpl; apply prefix_cons, prefix_nil]).
  1-4: destruct Hlast as [->| ->];
    [|rewrite String.eqb_refl];
    eexists _, _; (split; [reflexivity | simpl; apply prefix_cons, prefix_nil]).
  all: rewrite Hnext;
    (destruct (String.eqb_spec fallback model) as [|_]; [contradiction|]);
    (destruct (IH fuel prompt sp mt
                 (Some (int_or timeout (default_timeout self))) (S n))
       as (r & log & -> & Hlog); [simpl in Hfuel; lia|]);
    simpl; eexists _, _; (split; [reflexivity | simpl; apply prefix_cons, Hlog]).
Qed.

End execute_model_chains.

(** X4 (parallel_executor.py, [_execute_model]).  A response of
[_execute_model] is either a success without an error, or a failure with
an error, an empty content, no cost and no tokens; this holds also for
responses that come back through fallbacks. *)
Theorem execute_model_response_shape
    (self : Executor.ParallelExecutor) (fallbacks : gmap string string)
    (net : Http.backend) (fuel : nat) (model prompt : string)
    (system_prompt : option string) (max_tokens : Z) (timeout : option Z)
    (n : nat) (r : Executor.ModelResponse) (log : list Http.request) :
  Executor._execute_model self fallbacks net fuel model prompt system_prompt
    max_tokens timeout n = Some (r, log) ->
  (Executor.success r = true -> Executor.error r = None)
  /\ (Executor.success r = false ->
      Executor.content r = "" /\ Executor.cost r = 0%Q
      /\ Executor.tokens_used r = 0%Z /\ Executor.error r <> None).
Proof.
  intros Hcall.
  pose proof (execute_model_response self fallbacks net _ _ _ _ _ _ _ _ _ Hcall)
    as Hr.
  destruct (Executor.success r); split; intros; auto; discriminate.
Qed.

Lemma execute_model_response_shape_witness :
  (Executor.success
     {| Executor.model := "deepseek-v3 (via gemini-flash)";
        Executor.content := ""; Executor.success := false;
        Executor.cost := 0; Executor.tokens_used := 0;
        Executor.error := Some "Timeout after 120s";
        Executor.fallback_used := Some "deepseek-v3" |} = true ->
   Executor.error
     {| Executor.model := "deepseek-v3 (via gemini-flash)";
        Executor.content := ""; Executor.success := false;
        Executor.cost := 0; Executor.tokens_used := 0;
        Executor.error := Some "Timeout after 120s";
        Executor.fallback_used := Some "deepseek-v3" |} = None)
  /\ (Executor.success
        {| Executor.model := "deepseek-v3 (via gemini-flash)";
           Executor.content := ""; Executor.success := false;
           Executor.cost := 0; Executor.tokens_used := 0;
           Executor.error := Some "Timeout after 120s";
           Executor.fallback_used := Some "deepseek-v3" |} = false ->
      "" = "" /\ 0%Q = 0%Q /\ 0%Z = 0%Z
      /\ Some "Timeout after 120s" <> None).
Proof.
  apply (execute_model_response_shape (Executor.ParallelExecutor_init None)
           Models.MODEL_FALLBACKS
           (Spec.scripted [Http.RequestError "reset"] Http.Timeout)
           3 "deepseek-v3" "prompt" None 2000 None 0
           {| Executor.model := "deepseek-v3 (via gemini-flash)";
              Executor.content := ""; Executor.success := false;
              Executor.cost := 0; Executor.tokens_used := 0;
              Executor.error := Some "Timeout after 120s";
              Executor.fallback_used := Some "deepseek-v3" |}
           [Http.mk_request "deepseek-v3" None "prompt" None (Some 2000%Z) 120%Z;
            Http.mk_request "gemini-flash" None "prompt" None (Some 2000%Z) 120%Z;
            Http.mk_request "gemini-flash-fallback" None "prompt" None
              (Some 2000%Z) 120%Z]).
  vm_compute. reflexivity.
Defined.

(** X5 (parallel_executor.py, [_execute_model] and
[ParallelResult.get_model_content]).  A response that records a fallback
([fallback_used] is an alias) is named [alias (via fallback)], for an
alias that was requested and the fallback that the table gives for it;
so a stage does not find it under that alias. *)
Theorem execute_model_fallback_renames
    (self : Executor.ParallelExecutor) (fallbacks : gmap string string)
    (net : Http.backend) (fuel : nat) (model prompt : string)
    (system_prompt : option string) (max_tokens : Z) (timeout : option Z)
    (n : nat) (r : Executor.ModelResponse) (log : list Http.request)
    (alias : string) :
  Executor._execute_model self fallbacks net fuel model prompt system_prompt
    max_tokens timeout n = Some (r, log) ->
  Executor.fallback_used r = Some alias ->
  (exists fallback,
     PyStr.truthy (fallbacks !! alias) = Some fallback
     /\ fallback <> alias
     /\ Executor.model r = alias ++ " (via " ++ fallback ++ ")")
  /\ In alias (map Http.req_model log)
  /\ Executor.first_content alias [r] = None.
Proof.
  intros Hcall Hused.
  destruct (execute_model_renamed self fallbacks net _ _ _ _ _ _ _ _ _ _
              Hcall Hused) as (fallback & Hfb & Hne & Hname & Hin).
  split; [exists fallback; auto|]. split; [exact Hin|].
  simpl. rewrite Hname.
  destruct (String.eqb_spec (alias ++ " (via " ++ fallback ++ ")") alias)
    as [Heq|_]; [|reflexivity].
  apply (f_equal String.length) in Heq.
  rewrite !length_append in Heq. simpl in Heq. lia.
Qed.

Lemma execute_model_fallback_renames_witness :
  (exists fallback,
     PyStr.truthy (Models.MODEL_FALLBACKS !! "deepseek-v3") = Some fallback
     /\ fallback <> "deepseek-v3"
     /\ "deepseek-v3 (via gemini-flash)"
        = "deepseek-v3" ++ " (via " ++ fallback ++ ")")
  /\ In "deepseek-v3"
       (map Http.req_model
          [Http.mk_request "deepseek-v3" None "prompt" None (Some 2000%Z) 120%Z;
           Http.mk_request "gemini-flash" None "prompt" None (Some 2000%Z) 120%Z])
  /\ Executor.first_content "deepseek-v3"
       [{| Executor.model := "deepseek-v3 (via gemini-flash)";
           Executor.content := "ok"; Executor.success := true;
           Executor.cost := Executor._estimate_cost "gemini-flash" 0 0;
           Executor.tokens_used := 2; Executor.error := None;
           Executor.fallback_used := Some "deepseek-v3" |}] = None.
Proof.
  apply (execute_model_fallback_renames (Executor.ParallelExecutor_init None)
           Models.MODEL_FALLBACKS
           (Spec.scripted [Http.RequestError "reset"]
              (Http.Replied "ok" 0 0 2))
           3 "deepseek-v3" "prompt" None 2000 None 0
           {| Executor.model := "deepseek-v3 (via gemini-flash)";
              Executor.content := "ok"; Executor.success := true;
              Executor.cost := Executor._estimate_cost "gemini-flash" 0 0;
              Executor.tokens_used := 2; Executor.error := None;
              Executor.fallback_used := Some "deepseek-v3" |}
           [Http.mk_request "deepseek-v3" None "prompt" None (Some 2000%Z) 120%Z;
            Http.mk_request "gemini-flash" None "prompt" None (Some 2000%Z) 120%Z]
           "deepseek-v3");
    vm_compute; reflexivity.
Defined.

(** X6 (parallel_executor.py, [_execute_model]).  Whatever the backend
does, [_execute_model] returns when the fallbacks of the alias, followed
until an alias has none or is its own fallback, do not run into a cycle:
the response is the same for any fuel from the length of that chain on,
and the aliases requested are the first aliases of the chain, one request
each. *)
Theorem execute_model_returns_on_chain
    (self : Executor.ParallelExecutor) (fallbacks : gmap string string)
    (net : Http.backend) (model : string) (chain : list string)
    (prompt : string) (system_prompt : option string) (max_tokens : Z)
    (timeout : option Z) (n : nat) :
  Spec.executor_chain fallbacks model chain ->
  exists r log,
    (forall fuel, (length chain <= fuel)%nat ->
       Executor._execute_model self fallbacks net fuel model prompt
         system_prompt max_tokens timeout n = Some (r, log))
    /\ map Http.req_model log `prefix_of` chain.
Proof.
  intros Hchain.
  destruct (execute_model_returns self fallbacks net model chain Hchain
              (length chain) prompt system_prompt max_tokens timeout n
              (Nat.le_refl _)) as (r & log & Hcall & Hlog).
  exists r, log. split; [|exact Hlog].
  intros fuel Hfuel.
  exact (execute_model_mono self fallbacks net _ _ Hfuel _ _ _ _ _ _ _ Hcall).
Qed.

(** X6 on a table in which an alias is its own fallback. *)
Lemma execute_model_returns_on_chain_witness :
  exists r log,
    (forall fuel, (2 <= fuel)%nat ->
       Executor._execute_model (Executor.ParallelExecutor_init None)
         (<["a" := "b"]> (<["b" := "b"]> ∅)) Spec.silent fuel "a" "prompt"
         None 2000 None 0 = Some (r, log))
    /\ map Http.req_model log `prefix_of` ["a"; "b"].
Proof.
  apply (execute_model_returns_on_chain (Executor.ParallelExecutor_init None)
           (<["a" := "b"]> (<["b" := "b"]> ∅)) Spec.silent "a" ["a"; "b"]
           "prompt" None 2000 None 0).
  apply Spec.executor_chain_hop with (fallback := "b");
    [reflexivity | discriminate |].
  apply Spec.executor_chain_last. right. reflexivity.
Defined.

(** ** The results of a stage *)

Section parallel_result_facts.
Import PyStr Executor.

Lemma sum_Z_Permutation (l l' : list Z) :
  Permutation l l' -> sum_Z l = sum_Z l'.
Proof. induction 1; simpl; lia. Qed.

(** The responses of a stage and the futures it submitted. *)
Lemma execute_parallel_responses
    (self : ParallelExecutor) (run : runner) (sched : list nat)
    (models : list string) (prompt : string)
    (system_prompts : option (gmap string string)) (max_tokens : Z)
    (timeout : option Z) (res : ParallelResult) :
  execute_parallel self run sched models prompt system_prompts max_tokens
    timeout = Ok res ->
  let futures :=
    imap (fun i model =>
            (model, run i model prompt (default ∅ system_prompts !! model)
                      max_tokens timeout))
      models in
  Permutation (responses res) (map collect futures)
  /\ total_cost res = sum_Q (map cost (responses res))
  /\ total_tokens res = sum_Z (map tokens_used (responses res))
  /\ success_count res
     = length (filter (fun r => success r = true) (responses res))
  /\ failure_count res
     = (length (responses res) - success_count res)%nat.
Proof.
  unfold execute_parallel.
  destruct (_ <=? 0)%Z; [discriminate|].
  intros [= <-]. simpl. repeat split.
  apply Permutation_map, as_completed_Permutation. reflexivity.
Qed.

(** [get_model_content] reads the first of the successes that bear the
name. *)
Lemma first_content_filter (name : string) (l : list ModelResponse) :
  first_content name l
  = head (map content
            (filter (fun r => model r = name /\ success r = true) l)).
Proof.
  induction l as [|r l IH]; [reflexivity|].
  cbn [first_content]. rewrite filter_cons.
  destruct (String.eqb_spec (model r) name) as [Hname|Hname];
    destruct (success r) eqn:Hr; cbn [andb];
    (destruct (decide _) as [[Hn Hs]|Hd]; cbn [map head];
     try reflexivity; try exact IH; try discriminate; try contradiction);
    exfalso; apply Hd; auto.
Qed.

Lemma same_name_at_most_once (name : string) (l : list ModelResponse) :
  NoDup (map model (filter (fun r => success r = true) l)) ->
  (length (filter (fun r => model r = name /\ success r = true) l) <= 1)%nat.
Proof.
  induction l as [|r l IH]; [simpl; lia|].
  rewrite !filter_cons. cbn beta.
  destruct (decide (success r = true)) as [Hs|Hs];
    destruct (decide (model r = name /\ success r = true)) as [[Hname Hs']|Hd];
    cbn [map length]; intros Hnd;
    try (apply NoDup_cons in Hnd as [Hnotin Hnd]); auto.
  - specialize (IH Hnd).
    destruct (filter (fun r => model r = name /\ success r = true) l)
      as [|r' rest] eqn:Hf; [simpl; lia|].
    exfalso. apply Hnotin.
    assert (r' ∈ filter (fun r => model r = name /\ success r = true) l)
      as Hin by (rewrite Hf; left).
    apply list_elem_of_filter in Hin as [[Hname' Hr'] Hin].
    apply list_elem_of_fmap. exists r'. split; [congruence|].
    apply list_elem_of_filter. auto.
  - contradiction.
Qed.

Lemma first_content_Permutation (name : string) (l l' : list ModelResponse) :
  Permutation l l' ->
  NoDup (map model (filter (fun r => success r = true) l)) ->
  first_content name l = first_content name l'.
Proof.
  intros Hperm Hnd.
  rewrite !first_content_filter.
  pose proof (same_name_at_most_once name l Hnd) as Hlen.
  assert (Permutation
            (filter (fun r => model r = name /\ success r = true) l)
            (filter (fun r => model r = name /\ success r = true) l'))
    as Hf by (rewrite Hperm; reflexivity).
  destruct (filter (fun r => model r = name /\ success r = true) l)
    as [|r [|r2 rest]].
  - apply Permutation_nil in Hf. rewrite Hf. reflexivity.
  - apply Permutation_singleton_l in Hf. rewrite Hf. reflexivity.
  - simpl in Hlen. lia.
Qed.

End parallel_result_facts.

Section format_facts.
Import PyStr Executor.

Lemma contains_refl (s : string) : contains s s = true.
Proof.
  apply contains_spec. exists "", "". rewrite append_nil.
  induction s as [|c s IH]; [reflexivity|].
  rewrite append_cons. congruence.
Qed.

Lemma contains_append_l (sub s t : string) :
  contains sub t = true -> contains sub (s ++ t) = true.
Proof.
  rewrite !contains_spec. intros [pre [post ->]].
  exists (s ++ pre), post. rewrite !append_assoc. reflexivity.
Qed.

Lemma contains_concat (sep x : string) (l : list string) :
  In x l -> contains x (String.concat sep l) = true.
Proof.
  induction l as [|y l IH]; [intros []|].
  intros [->|Hin]; cbn [String.concat]; destruct l as [|z l].
  - apply contains_refl.
  - apply contains_append_r, contains_refl.
  - destruct Hin.
  - apply contains_append_l, contains_append_l, IH, Hin.
Qed.

End format_facts.

(** X7 (parallel_executor.py, [execute_parallel] and
[ParallelResult.get_successful_responses]).  The token total and the
counts of a stage do not depend on the order in which its calls complete:
with another completion order the stage gives the same responses in
another order, the same token total and the same counts; and
[get_successful_responses] gives as many responses as [success_count]
says.  Nothing is said of [total_cost]: the source adds floats in the
order of completion, and the last digits of such a sum may depend on that
order. *)
Theorem execute_parallel_totals_any_order
    (self : Executor.ParallelExecutor) (run : Executor.runner)
    (sched sched' : list nat) (models : list string) (prompt : string)
    (system_prompts : option (gmap string string)) (max_tokens : Z)
    (timeout : option Z) (res : Executor.ParallelResult) :
  Executor.execute_parallel self run sched models prompt system_prompts
    max_tokens timeout = Executor.Ok res ->
  exists res',
    Executor.execute_parallel self run sched' models prompt system_prompts
      max_tokens timeout = Executor.Ok res'
    /\ Permutation (Executor.responses res') (Executor.responses res)
    /\ Executor.total_tokens res' = Executor.total_tokens res
    /\ Executor.success_count res' = Executor.success_count res
    /\ Executor.failure_count res' = Executor.failure_count res
    /\ length (Executor.get_successful_responses res)
       = Executor.success_count res.
Proof.
  intros Hres.
  assert (exists res',
            Executor.execute_parallel self run sched' models prompt
              system_prompts max_tokens timeout = Executor.Ok res')
    as [res' Hres'].
  { unfold Executor.execute_parallel in *.
    destruct (_ <=? 0)%Z; [discriminate | eauto]. }
  exists res'. split; [exact Hres'|].
  destruct (execute_parallel_responses _ _ _ _ _ _ _ _ _ Hres)
    as (Hp & Hc & Ht & Hs & Hf).
  destruct (execute_parallel_responses _ _ _ _ _ _ _ _ _ Hres')
    as (Hp' & Hc' & Ht' & Hs' & Hf').
  assert (Permutation (Executor.responses res') (Executor.responses res))
    as Hperm by (rewrite Hp, Hp'; reflexivity).
  assert (Executor.success_count res' = Executor.success_count res) as Hcount.
  { rewrite Hs, Hs', Hperm. reflexivity. }
  repeat split.
  - exact Hperm.
  - rewrite Ht, Ht'. apply sum_Z_Permutation, Permutation_map, Hperm.
  - exact Hcount.
  - rewrite Hf, Hf', Hcount, (Permutation_length Hperm). reflexivity.
  - rewrite Hs. reflexivity.
Qed.

(** X7 on a stage of three calls that complete in the order 2, 0, 1, and
then in the order 0, 1, 2. *)
Lemma execute_parallel_totals_any_order_witness :
  exists res',
    Executor.execute_parallel (Executor.ParallelExecutor_init None)
      Spec.mixed_run [0; 0; 0]%nat
      ["kimi-researcher"; "perplexity-online"; "deepseek-v3"]
      "prompt" None 1500 None = Executor.Ok res'
    /\ Permutation (Executor.responses res')
         [Executor.failed "deepseek-v3" "HTTP 500";
          {| Executor.model := "kimi-researcher"; Executor.content := "fine";
             Executor.success := true; Executor.cost := 0.01;
             Executor.tokens_used := 10; Executor.error := None;
             Executor.fallback_used := None |};
          Executor.failed "perplexity-online" "Execution error: boom"]
    /\ Executor.total_tokens res' = 10%Z
    /\ Executor.success_count res' = 1%nat
    /\ Executor.failure_count res' = 2%nat
    /\ length
         (Executor.get_successful_responses
            {| Executor.responses :=
                 [Executor.failed "deepseek-v3" "HTTP 500";
                  {| Executor.model := "kimi-researcher";
                     Executor.content := "fine";
                     Executor.success := true; Executor.cost := 0.01;
                     Executor.tokens_used := 10; Executor.error := None;
                     Executor.fallback_used := None |};
                  Executor.failed "perplexity-online" "Execution error: boom"];
               Executor.total_cost := Executor.sum_Q [0%Q; 0.01%Q; 0%Q];
               Executor.total_tokens := 10;
               Executor.success_count := 1;
               Executor.failure_count := 2 |})
       = 1%nat.
Proof.
  apply (execute_parallel_totals_any_order
           (Executor.ParallelExecutor_init None) Spec.mixed_run
           [2; 0; 0]%nat [0; 0; 0]%nat
           ["kimi-researcher"; "perplexity-online"; "deepseek-v3"]
           "prompt" None 1500 None
           {| Executor.responses :=
                [Executor.failed "deepseek-v3" "HTTP 500";
                 {| Executor.model := "kimi-researcher";
                    Executor.content := "fine";
                    Executor.success := true; Executor.cost := 0.01;
                    Executor.tokens_used := 10; Executor.error := None;
                    Executor.fallback_used := None |};
                 Executor.failed "perplexity-online" "Execution error: boom"];
              Executor.total_cost := Executor.sum_Q [0%Q; 0.01%Q; 0%Q];
              Executor.total_tokens := 10;
              Executor.success_count := 1;
              Executor.failure_count := 2 |}).
  vm_compute. reflexivity.
Defined.

(** X8 (parallel_executor.py, [ParallelResult.get_model_content] after
[execute_parallel]).  When the successful responses of a stage bear
different names, what [get_model_content] finds under a name does not
depend on the order in which the calls complete. *)
Theorem get_model_content_any_order
    (self : Executor.ParallelExecutor) (run : Executor.runner)
    (sched sched' : list nat) (models : list string) (prompt : string)
    (system_prompts : option (gmap string string)) (max_tokens : Z)
    (timeout : option Z) (res res' : Executor.ParallelResult)
    (name : string) :
  Executor.execute_parallel self run sched models prompt system_prompts
    max_tokens timeout = Executor.Ok res ->
  Executor.execute_parallel self run sched' models prompt system_prompts
    max_tokens timeout = Executor.Ok res' ->
  NoDup (map Executor.model (Executor.get_successful_responses res)) ->
  Executor.get_model_content res' name = Executor.get_model_content res name.
Proof.
  intros Hres Hres' Hnd.
  destruct (execute_parallel_responses _ _ _ _ _ _ _ _ _ Hres) as (Hp & _).
  destruct (execute_parallel_responses _ _ _ _ _ _ _ _ _ Hres') as (Hp' & _).
  unfold Executor.get_model_content. symmetry.
  apply first_content_Permutation; [|exact Hnd].
  rewrite Hp, Hp'. reflexivity.
Qed.

(** With two successes of the same name the content found does depend on
the order of completion. *)
Example get_model_content_depends_on_order :
  let run : Executor.runner :=
    fun i model _ _ _ _ =>
      Executor.Returned
        {| Executor.model := model; Executor.content := PyStr.str_nat i;
           Executor.success := true; Executor.cost := 0;
           Executor.tokens_used := 0; Executor.error := None;
           Executor.fallback_used := None |} in
  let stage sched :=
    match Executor.execute_parallel (Executor.ParallelExecutor_init None)
            run sched ["claude-sonnet"; "claude-sonnet"] "prompt" None 1500
            None with
    | Executor.Ok res => Executor.get_model_content res "claude-sonnet"
    | Executor.ValueError _ => None
    end in
  stage [0%nat] = Some "0" /\ stage [1%nat] = Some "1".
Proof. vm_compute. split; reflexivity. Qed.

Lemma get_model_content_any_order_witness :
  Executor.get_model_content
    {| Executor.responses :=
         [{| Executor.model := "kimi-researcher"; Executor.content := "fine";
             Executor.success := true; Executor.cost := 0.01;
             Executor.tokens_used := 10; Executor.error := None;
             Executor.fallback_used := None |};
          Executor.failed "perplexity-online" "Execution error: boom";
          Executor.failed "deepseek-v3" "HTTP 500"];
       Executor.total_cost := Executor.sum_Q [0.01%Q; 0%Q; 0%Q];
       Executor.total_tokens := 10;
       Executor.success_count := 1;
       Executor.failure_count := 2 |}
    "kimi-researcher"
  = Executor.get_model_content
      {| Executor.responses :=
           [Executor.failed "deepseek-v3" "HTTP 500";
            {| Executor.model := "kimi-researcher";
               Executor.content := "fine";
               Executor.success := true; Executor.cost := 0.01;
               Executor.tokens_used := 10; Executor.error := None;
               Executor.fallback_used := None |};
            Executor.failed "perplexity-online" "Execution error: boom"];
         Executor.total_cost := Executor.sum_Q [0%Q; 0.01%Q; 0%Q];
         Executor.total_tokens := 10;
         Executor.success_count := 1;
         Executor.failure_count := 2 |}
      "kimi-researcher".
Proof.
  apply (get_model_content_any_order
           (Executor.ParallelExecutor_init None) Spec.mixed_run
           [2; 0; 0]%nat [0; 0; 0]%nat
           ["kimi-researcher"; "perplexity-online"; "deepseek-v3"]
           "prompt" None 1500 None).
  - vm_compute. reflexivity.
  - vm_compute. reflexivity.
  - apply (bool_decide_unpack _). vm_compute. exact I.
Defined.

(** X9 (parallel_executor.py, [ParallelResult.format_for_synthesis] after
[execute_parallel]).  The text that a stage hands to the synthesizer
begins with the heading and has an entry for every call of the stage,
failed or not: for a call that failed or raised, the entry marked
[(FAILED)] with its error. *)
Theorem format_for_synthesis_lists_every_call
    (self : Executor.ParallelExecutor) (run : Executor.runner)
    (sched : list nat) (models : list string) (prompt : string)
    (system_prompts : option (gmap string string)) (max_tokens : Z)
    (timeout : option Z) (res : Executor.ParallelResult)
    (i : nat) (model : string) :
  Executor.execute_parallel self run sched models prompt system_prompts
    max_tokens timeout = Executor.Ok res ->
  models !! i = Some model ->
  let r :=
    Executor.collect
      (model, run i model prompt (default ∅ system_prompts !! model)
                max_tokens timeout) in
  PyStr.startswith ("## Parallel Deliberation Results" ++ Executor.nl)
    (Executor.format_for_synthesis res) = true
  /\ PyStr.contains (Executor.format_response r)
       (Executor.format_for_synthesis res) = true
  /\ (Executor.success r = false ->
      Executor.format_response r
      = "### " ++ Executor.model r ++ " (FAILED)" ++ Executor.nl
        ++ "Error: " ++ default "None" (Executor.error r) ++ Executor.nl).
Proof.
  intros Hres Hi r.
  destruct (execute_parallel_responses _ _ _ _ _ _ _ _ _ Hres) as (Hp & _).
  assert (In r (Executor.responses res)) as Hin.
  { apply list_elem_of_In. rewrite Hp. apply list_elem_of_fmap.
    eexists. split; [reflexivity|].
    apply list_elem_of_lookup. exists i.
    rewrite list_lookup_imap, Hi. reflexivity. }
  unfold Executor.format_for_synthesis. repeat split.
  - unfold PyStr.startswith. apply prefix_app.
    cbn [String.concat].
    destruct (map Executor.format_response (Executor.responses res)).
    + exists "". clear. generalize ("## Parallel Deliberation Results" ++ Executor.nl).
      intros s. induction s as [|c s IH]; [reflexivity|].
      rewrite append_cons. congruence.
    + eexists. reflexivity.
  - apply contains_concat. right. apply in_map, Hin.
  - unfold Executor.format_response. intros ->. reflexivity.
Qed.

Lemma format_for_synthesis_lists_every_call_witness :
  let r := Executor.failed "perplexity-online" "Execution error: boom" in
  let res :=
    {| Executor.responses :=
         [Executor.failed "deepseek-v3" "HTTP 500";
          {| Executor.model := "kimi-researcher"; Executor.content := "fine";
             Executor.success := true; Executor.cost := 0.01;
             Executor.tokens_used := 10; Executor.error := None;
             Executor.fallback_used := None |};
          Executor.failed "perplexity-online" "Execution error: boom"];
       Executor.total_cost := Executor.sum_Q [0%Q; 0.01%Q; 0%Q];
       Executor.total_tokens := 10;
       Executor.success_count := 1;
       Executor.failure_count := 2 |} in
  PyStr.startswith ("## Parallel Deliberation Results" ++ Executor.nl)
    (Executor.format_for_synthesis res) = true
  /\ PyStr.contains (Executor.format_response r)
       (Executor.format_for_synthesis res) = true
  /\ (Executor.success r = false ->
      Executor.format_response r
      = "### " ++ Executor.model r ++ " (FAILED)" ++ Executor.nl
        ++ "Error: " ++ default "None" (Executor.error r) ++ Executor.nl).
Proof.
  apply (format_for_synthesis_lists_every_call
           (Executor.ParallelExecutor_init None) Spec.mixed_run
           [2; 0; 0]%nat
           ["kimi-researcher"; "perplexity-online"; "deepseek-v3"]
           "prompt" None 1500 None _ 1%nat "perplexity-online").
  - vm_compute. reflexivity.
  - reflexivity.
Defined.

(** ** The Diamond pipeline *)

Section diamond_facts.
Import PyStr Executor Orchestrator.

Lemma execute_parallel_ok
    (self : ParallelExecutor) (run : runner) (sched : list nat)
    (models : list string) (prompt : string)
    (system_prompts : option (gmap string string)) (max_tokens : Z)
    (timeout : option Z) :
  (0 < max_workers self)%Z ->
  models <> [] ->
  exists res,
    execute_parallel self run sched models prompt system_prompts max_tokens
      timeout = Ok res.
Proof.
  intros Hworkers Hmodels. unfold execute_parallel.
  destruct (Z.leb_spec (Z.min (max_workers self) (Z.of_nat (length models))) 0)
    as [Hle|_]; [|eauto].
  destruct models; [congruence | simpl length in Hle; lia].
Qed.

Lemma execute_parallel_length
    (self : ParallelExecutor) (run : runner) (sched : list nat)
    (models : list string) (prompt : string)
    (system_prompts : option (gmap string string)) (max_tokens : Z)
    (timeout : option Z) (res : ParallelResult) :
  execute_parallel self run sched models prompt system_prompts max_tokens
    timeout = Ok res ->
  length (responses res) = length models.
Proof.
  intros Hres.
  destruct (execute_parallel_responses _ _ _ _ _ _ _ _ _ Hres) as (Hp & _).
  rewrite (Permutation_length Hp), length_map. apply length_imap.
Qed.

(** The names of the stages. *)
Lemma stage_configs_names (stage_name : string) (config : StageConfig) :
  stage_configs !! stage_name = Some config ->
  stage_models config <> []
  /\ (stage_name = "stage1_context" \/ stage_name = "stage2_deliberate"
      \/ stage_name = "stage3_synthesize").
Proof.
  unfold stage_configs. cbn [list_to_map foldr uncurry fst snd].
  intros H.
  repeat (apply lookup_insert_Some in H as [[<- <-]|[_ H]];
          [split; [discriminate | auto]|]).
  rewrite lookup_empty in H. discriminate.
Qed.

(** No success under a name: nothing is found under it. *)
Lemma first_content_None (name : string) (l : list ModelResponse) :
  first_content name l = None
  <-> forall r, In r l -> success r = true -> model r <> name.
Proof.
  induction l as [|r l IH]; cbn [first_content].
  - split; [intros _ r [] | reflexivity].
  - destruct (String.eqb_spec (model r) name) as [Hname|Hname];
      destruct (success r) eqn:Hr; cbn [andb].
    + split; [discriminate|]. intros H. exfalso.
      apply (H r (or_introl eq_refl) Hr Hname).
    + rewrite IH. split.
      * intros H r' [<-|Hin]; [congruence | auto].
      * intros H r' Hin. apply H. right. exact Hin.
    + rewrite IH. split.
      * intros H r' [<-|Hin]; [congruence | auto].
      * intros H r' Hin. apply H. right. exact Hin.
    + rewrite IH. split.
      * intros H r' [<-|Hin]; [congruence | auto].
      * intros H r' Hin. apply H. right. exact Hin.
Qed.

Lemma extract_recommendation_empty : _extract_recommendation "" = "UNCLEAR".
Proof. reflexivity. Qed.

Lemma sum_Q_app (l l' : list Q) :
  (sum_Q (l ++ l')%list == sum_Q l + sum_Q l')%Q.
Proof.
  induction l as [|x l IH]; simpl; [ring|]. rewrite IH. ring.
Qed.

(** A stage of the pipeline, run with its defaults. *)
Lemma execute_stage_default
    (self : ParallelExecutor) (run : runner) (sched : list nat)
    (stage_name prompt : string) (config : StageConfig) :
  (0 < max_workers self)%Z ->
  stage_configs !! stage_name = Some config ->
  exists res,
    execute_stage self run sched stage_name prompt None None None None
    = Ok res
    /\ length (responses res) = length (stage_models config)
    /\ total_cost res = sum_Q (map cost (responses res)).
Proof.
  intros Hworkers Hconfig. unfold execute_stage. rewrite Hconfig.
  destruct (stage_configs_names _ _ Hconfig) as [Hmodels _].
  destruct (execute_parallel_ok self run sched (stage_models config) prompt
              (Some (stage_system_prompts config)) (stage_max_tokens config)
              None Hworkers Hmodels) as [res Hres].
  exists res. split; [exact Hres|].
  split; [exact (execute_parallel_length _ _ _ _ _ _ _ _ _ Hres)|].
  apply (execute_parallel_responses _ _ _ _ _ _ _ _ _ Hres).
Qed.

(** What a run of the pipeline that returns has done. *)
Lemma execute_diamond_inv
    (executor : ParallelExecutor) (run : nat -> runner)
    (sched : nat -> list nat) (query context : string) (invoke_opus : bool)
    (opus_threshold : string) (d : DiamondResult) :
  execute_diamond executor run sched query context invoke_opus opus_threshold
  = Ok d ->
  let synthesis_content :=
    default "" (get_model_content (synthesis_stage d) "gemini-pro") in
  let recommendation := _extract_recommendation synthesis_content in
  let cost3 :=
    (0 + total_cost (context_stage d) + total_cost (deliberation_stage d)
     + total_cost (synthesis_stage d))%Q in
  diamond_query d = query
  /\ (if invoke_opus && _should_invoke_opus recommendation opus_threshold
      then exists stage4,
             execute_parallel executor (run 4%nat) (sched 4%nat)
               ["opus-synthesis"] (stage4_prompt query synthesis_content)
               (Some opus_system_prompts) 4000 None = Ok stage4
             /\ ratification_stage d = Some stage4
             /\ opus_decision d
                = Some (default "" (get_model_content stage4 "opus-synthesis"))
             /\ final_recommendation d
                = _extract_recommendation
                    (default "" (get_model_content stage4 "opus-synthesis"))
             /\ diamond_total_cost d = (cost3 + total_cost stage4)%Q
      else ratification_stage d = None
           /\ opus_decision d = None
           /\ final_recommendation d = recommendation
           /\ diamond_total_cost d = cost3).
Proof.
  unfold execute_diamond.
  destruct (execute_stage executor (run 1%nat) _ _ _ _ _ _ _)
    as [stage1|]; [|discriminate].
  destruct (execute_stage executor (run 2%nat) _ _ _ _ _ _ _)
    as [stage2|]; [|discriminate].
  destruct (execute_stage executor (run 3%nat) _ _ _ _ _ _ _)
    as [stage3|]; [|discriminate].
  cbv zeta.
  destruct (invoke_opus && _) eqn:Hopus.
  - destruct (execute_parallel executor (run 4%nat) _ _ _ _ _ _)
      as [stage4|] eqn:Hstage4; [|discriminate].
    intros [= <-]. cbn [synthesis_stage context_stage deliberation_stage
                         diamond_query]. rewrite Hopus.
    split; [reflexivity|]. exists stage4. repeat split. exact Hstage4.
  - intros [= <-]. cbn [synthesis_stage context_stage deliberation_stage
                         diamond_query]. rewrite Hopus.
    repeat split.
Qed.

End diamond_facts.

(** X10 (parallel_executor.py, [execute_stage]).  With a pool of at least
one worker, [execute_stage] runs each of the three stages it knows,
whatever the override: the stage has at least one response, an empty
override gives the models of the stage and another override gives one
response for each of its models.  Every other stage name is refused with
[Unknown stage]. *)
Theorem execute_stage_known_or_unknown
    (self : Executor.ParallelExecutor) (run : Executor.runner)
    (sched : list nat) (stage_name prompt : string)
    (models : option (list string))
    (kw_system_prompts : option (gmap string string))
    (kw_max_tokens kw_timeout : option Z) :
  (0 < Executor.max_workers self)%Z ->
  (In stage_name ["stage1_context"; "stage2_deliberate"; "stage3_synthesize"]
   -> exists res,
        Orchestrator.execute_stage self run sched stage_name prompt models
          kw_system_prompts kw_max_tokens kw_timeout = Executor.Ok res
        /\ (1 <= length (Executor.responses res))%nat
        /\ (models = Some [] ->
            Orchestrator.execute_stage self run sched stage_name prompt None
              kw_system_prompts kw_max_tokens kw_timeout = Executor.Ok res)
        /\ (forall m rest, models = Some (m :: rest) ->
            length (Executor.responses res) = S (length rest)))
  /\ (~ In stage_name
          ["stage1_context"; "stage2_deliberate"; "stage3_synthesize"]
      -> Orchestrator.execute_stage self run sched stage_name prompt models
           kw_system_prompts kw_max_tokens kw_timeout
         = Executor.ValueError ("Unknown stage: " ++ stage_name)).
Proof.
  intros Hworkers. unfold Orchestrator.execute_stage. split.
  - intros Hin.
    assert (exists config, Orchestrator.stage_configs !! stage_name
                           = Some config) as [config Hconfig].
    { destruct Hin as [<-|[<-|[<-|[]]]]; eexists; reflexivity. }
    rewrite Hconfig.
    destruct (stage_configs_names _ _ Hconfig) as [Hmodels _].
    set (ms := match models with
               | Some (m :: rest) => m :: rest
               | _ => Orchestrator.stage_models config
               end).
    assert (ms <> []) as Hms.
    { subst ms. destruct models as [[|m rest]|]; auto; discriminate. }
    destruct (execute_parallel_ok self run sched ms prompt
                (Some (default (Orchestrator.stage_system_prompts config)
                         kw_system_prompts))
                (default (Orchestrator.stage_max_tokens config) kw_max_tokens)
                kw_timeout Hworkers Hms) as [res Hres].
    exists res. split; [exact Hres|].
    pose proof (execute_parallel_length _ _ _ _ _ _ _ _ _ Hres) as Hlen.
    split; [|split].
    + rewrite Hlen. destruct ms; [congruence | simpl; lia].
    + intros ->. exact Hres.
    + intros m rest ->. exact Hlen.
  - intros Hnotin.
    destruct (Orchestrator.stage_configs !! stage_name) as [config|] eqn:Hconfig;
      [|reflexivity].
    destruct (stage_configs_names _ _ Hconfig) as [_ Hname].
    exfalso. apply Hnotin. destruct Hname as [-> | [-> | ->]]; simpl; auto.
Qed.

Lemma execute_stage_known_or_unknown_witness :
  (In "stage3_synthesize"
     ["stage1_context"; "stage2_deliberate"; "stage3_synthesize"]
   -> exists res,
        Orchestrator.execute_stage (Executor.ParallelExecutor_init None)
          Spec.mixed_run [0%nat] "stage3_synthesize" "prompt" (Some []) None None
          None = Executor.Ok res
        /\ (1 <= length (Executor.responses res))%nat
        /\ (Some ([] : list string) = Some [] ->
            Orchestrator.execute_stage (Executor.ParallelExecutor_init None)
              Spec.mixed_run [0%nat] "stage3_synthesize" "prompt" None None None
              None = Executor.Ok res)
        /\ (forall m rest, Some ([] : list string) = Some (m :: rest) ->
            length (Executor.responses res) = S (length rest)))
  /\ (~ In "stage3_synthesize"
          ["stage1_context"; "stage2_deliberate"; "stage3_synthesize"]
      -> Orchestrator.execute_stage (Executor.ParallelExecutor_init None)
           Spec.mixed_run [0%nat] "stage3_synthesize" "prompt" (Some []) None None
           None
         = Executor.ValueError ("Unknown stage: " ++ "stage3_synthesize")).
Proof.
  apply (execute_stage_known_or_unknown (Executor.ParallelExecutor_init None)
           Spec.mixed_run [0%nat] "stage3_synthesize" "prompt" (Some []) None None
           None).
  reflexivity.
Defined.

(** X11 ([DiamondOrchestrator.execute_diamond]).  With a pool of at least
one worker the pipeline never raises, whatever the calls do (fail, raise
or answer) and in whatever order they complete: stages 1, 2 and 3 all run,
with two, three and one response, a ratification stage has one, and the
total cost is the sum of the costs of all the responses. *)
Theorem execute_diamond_runs_every_stage
    (executor : Executor.ParallelExecutor) (run : nat -> Executor.runner)
    (sched : nat -> list nat) (query context : string) (invoke_opus : bool)
    (opus_threshold : string) :
  (0 < Executor.max_workers executor)%Z ->
  exists d,
    Orchestrator.execute_diamond executor run sched query context invoke_opus
      opus_threshold = Executor.Ok d
    /\ length (Executor.responses (Orchestrator.context_stage d)) = 2%nat
    /\ length (Executor.responses (Orchestrator.deliberation_stage d)) = 3%nat
    /\ length (Executor.responses (Orchestrator.synthesis_stage d)) = 1%nat
    /\ (forall stage4,
          Orchestrator.ratification_stage d = Some stage4 ->
          length (Executor.responses stage4) = 1%nat)
    /\ (Orchestrator.diamond_total_cost d
        == Executor.sum_Q
             (map Executor.cost
                (Executor.responses (Orchestrator.context_stage d)
                 ++ Executor.responses (Orchestrator.deliberation_stage d)
                 ++ Executor.responses (Orchestrator.synthesis_stage d)
                 ++ match Orchestrator.ratification_stage d with
                    | Some stage4 => Executor.responses stage4
                    | None => []
                    end)%list))%Q.
Proof.
  intros Hworkers. unfold Orchestrator.execute_diamond.
  destruct (execute_stage_default executor (run 1%nat) (sched 1%nat)
              "stage1_context"
              (PyStr.strip ("Query: " ++ query ++ Executor.nl ++ Executor.nl
                            ++ context)) _ Hworkers eq_refl)
    as (stage1 & -> & Hlen1 & Hcost1).
  destruct (execute_stage_default executor (run 2%nat) (sched 2%nat)
              "stage2_deliberate"
              (Orchestrator.stage2_prompt query
                 (Executor.format_for_synthesis stage1)) _ Hworkers eq_refl)
    as (stage2 & -> & Hlen2 & Hcost2).
  destruct (execute_stage_default executor (run 3%nat) (sched 3%nat)
              "stage3_synthesize"
              (Orchestrator.stage3_prompt query
                 (Executor.format_for_synthesis stage2)) _ Hworkers eq_refl)
    as (stage3 & -> & Hlen3 & Hcost3).
  cbv zeta.
  destruct (invoke_opus && _).
  - destruct (execute_parallel_ok executor (run 4%nat) (sched 4%nat)
                ["opus-synthesis"]
                (Orchestrator.stage4_prompt query
                   (default "" (Executor.get_model_content stage3
                                  "gemini-pro")))
                (Some Orchestrator.opus_system_prompts) 4000 None Hworkers
                ltac:(discriminate)) as [stage4 Hstage4].
    rewrite Hstage4. eexists. split; [reflexivity|]. simpl.
    pose proof (execute_parallel_length _ _ _ _ _ _ _ _ _ Hstage4) as Hlen4.
    destruct (execute_parallel_responses _ _ _ _ _ _ _ _ _ Hstage4)
      as (_ & Hcost4 & _).
    repeat split; try assumption.
    + intros s [= <-]. exact Hlen4.
    + rewrite !map_app, !sum_Q_app, Hcost1, Hcost2, Hcost3, Hcost4. ring.
  - eexists. split; [reflexivity|]. simpl.
    repeat split; try assumption.
    + intros s [=].
    + rewrite !map_app, !sum_Q_app, Hcost1, Hcost2, Hcost3. simpl. ring.
Qed.

Lemma execute_diamond_runs_every_stage_witness :
  exists d,
    Orchestrator.execute_diamond (Executor.ParallelExecutor_init None)
      (fun _ => Spec.mixed_run) (fun _ => [1%nat]) "query" "" true
      "conditional" = Executor.Ok d
    /\ length (Executor.responses (Orchestrator.context_stage d)) = 2%nat
    /\ length (Executor.responses (Orchestrator.deliberation_stage d)) = 3%nat
    /\ length (Executor.responses (Orchestrator.synthesis_stage d)) = 1%nat
    /\ (forall stage4,
          Orchestrator.ratification_stage d = Some stage4 ->
          length (Executor.responses stage4) = 1%nat)
    /\ (Orchestrator.diamond_total_cost d
        == Executor.sum_Q
             (map Executor.cost
                (Executor.responses (Orchestrator.context_stage d)
                 ++ Executor.responses (Orchestrator.deliberation_stage d)
                 ++ Executor.responses (Orchestrator.synthesis_stage d)
                 ++ match Orchestrator.ratification_stage d with
                    | Some stage4 => Executor.responses stage4
                    | None => []
                    end)%list))%Q.
Proof.
  apply (execute_diamond_runs_every_stage (Executor.ParallelExecutor_init None)
           (fun _ => Spec.mixed_run) (fun _ => [1%nat]) "query" "" true
           "conditional").
  reflexivity.
Defined.

(** X12 ([DiamondOrchestrator.execute_diamond] with
[_should_invoke_opus]).  When the ratification stage runs: exactly when
[invoke_opus] is set and the threshold is [always], or is [conditional]
while the verdict read from the synthesis is not [APPROVED]; any other
threshold acts as [never].  Without ratification the final recommendation
is the verdict of the synthesis and no Opus decision is recorded; with it,
the final recommendation is read from the answer of Opus alone. *)
Theorem execute_diamond_ratification_policy
    (executor : Executor.ParallelExecutor) (run : nat -> Executor.runner)
    (sched : nat -> list nat) (query context : string) (invoke_opus : bool)
    (opus_threshold : string) (d : Orchestrator.DiamondResult) :
  Orchestrator.execute_diamond executor run sched query context invoke_opus
    opus_threshold = Executor.Ok d ->
  let verdict :=
    Orchestrator._extract_recommendation
      (default ""
         (Executor.get_model_content (Orchestrator.synthesis_stage d)
            "gemini-pro")) in
  (is_Some (Orchestrator.ratification_stage d)
   <-> invoke_opus = true
       /\ (opus_threshold = "always"
           \/ (opus_threshold = "conditional" /\ verdict <> "APPROVED")))
  /\ (Orchestrator.ratification_stage d = None ->
      Orchestrator.final_recommendation d = verdict
      /\ Orchestrator.opus_decision d = None)
  /\ (forall stage4,
        Orchestrator.ratification_stage d = Some stage4 ->
        Orchestrator.opus_decision d
        = Some (default ""
                  (Executor.get_model_content stage4 "opus-synthesis"))
        /\ Orchestrator.final_recommendation d
           = Orchestrator._extract_recommendation
               (default ""
                  (Executor.get_model_content stage4 "opus-synthesis"))).
Proof.
  intros Hrun verdict.
  destruct (execute_diamond_inv _ _ _ _ _ _ _ _ Hrun) as [_ Hcase].
  fold verdict in Hcase.
  assert (Orchestrator._should_invoke_opus verdict opus_threshold = true
          <-> opus_threshold = "always"
              \/ (opus_threshold = "conditional" /\ verdict <> "APPROVED"))
    as Hpolicy.
  { unfold Orchestrator._should_invoke_opus.
    destruct (String.eqb_spec opus_threshold "always") as [->|Ha];
      [split; auto|].
    destruct (String.eqb_spec opus_threshold "never") as [->|Hn].
    { split; [discriminate|]. intros [|[]]; discriminate. }
    destruct (String.eqb_spec opus_threshold "conditional") as [->|Hc].
    - destruct (String.eqb_spec verdict "APPROVED") as [He|He]; simpl.
      + split; [discriminate|]. intros [|[_ ?]]; [discriminate|contradiction].
      + split; auto.
    - split; [discriminate|]. intros [|[]]; contradiction. }
  destruct (invoke_opus && _) eqn:Hopus.
  - destruct Hcase as (stage4 & _ & Hrat & Hdec & Hfinal & _).
    apply andb_true_iff in Hopus as [-> Hshould].
    split; [|split].
    + split; [intros _; split; [reflexivity | apply Hpolicy, Hshould]|].
      intros _. rewrite Hrat. eauto.
    + rewrite Hrat. discriminate.
    + intros s. rewrite Hrat. intros [= <-]. auto.
  - destruct Hcase as (Hrat & Hdec & Hfinal & _).
    split; [|split].
    + rewrite Hrat. split; [intros [? [=]]|].
      intros [-> Hp]. apply Hpolicy in Hp. simpl in Hopus. congruence.
    + auto.
    + intros s. rewrite Hrat. discriminate.
Qed.

Lemma execute_diamond_ratification_policy_witness :
  exists d,
    Orchestrator.execute_diamond (Executor.ParallelExecutor_init None)
      (fun _ => Spec.answering_run "APPROVED, CONDITIONAL on tests")
      (fun _ => [1%nat]) "query" "" true "conditional" = Executor.Ok d
    /\ (is_Some (Orchestrator.ratification_stage d)
        <-> true = true
            /\ ("conditional" = "always"
                \/ ("conditional" = "conditional"
                    /\ Orchestrator._extract_recommendation
                         (default ""
                            (Executor.get_model_content
                               (Orchestrator.synthesis_stage d) "gemini-pro"))
                       <> "APPROVED")))
    /\ Orchestrator.final_recommendation d = "CONDITIONAL".
Proof.
  eexists. split; [vm_compute; reflexivity|].
  match goal with
  | |- context [Orchestrator.ratification_stage ?d] =>
      destruct (execute_diamond_ratification_policy
                  (Executor.ParallelExecutor_init None)
                  (fun _ => Spec.answering_run "APPROVED, CONDITIONAL on tests")
                  (fun _ => [1%nat]) "query" "" true "conditional" d)
        as (Hwhen & _ & _)
  end.
  - vm_compute. reflexivity.
  - split; [exact Hwhen | reflexivity].
Defined.

(** X13 ([DiamondOrchestrator.execute_diamond] with
[ParallelResult.get_model_content]).  The verdict is read only from a
success that bears the alias asked for.  When the synthesis stage has no
success named [gemini-pro] (its call failed, or was answered by a fallback
and renamed) the synthesis counts as [UNCLEAR]: that is the final
recommendation without ratification, and under the [conditional]
threshold it calls for ratification.  When the ratification stage has no
success named [opus-synthesis], the final recommendation is [UNCLEAR] and
the Opus decision is the empty text. *)
Theorem execute_diamond_unclear_without_named_success
    (executor : Executor.ParallelExecutor) (run : nat -> Executor.runner)
    (sched : nat -> list nat) (query context : string) (invoke_opus : bool)
    (opus_threshold : string) (d : Orchestrator.DiamondResult) :
  Orchestrator.execute_diamond executor run sched query context invoke_opus
    opus_threshold = Executor.Ok d ->
  ((forall r, In r (Executor.responses (Orchestrator.synthesis_stage d)) ->
              Executor.success r = true -> Executor.model r <> "gemini-pro") ->
   (Orchestrator.ratification_stage d = None ->
    Orchestrator.final_recommendation d = "UNCLEAR")
   /\ (invoke_opus = true -> opus_threshold = "conditional" ->
       is_Some (Orchestrator.ratification_stage d)))
  /\ (forall stage4,
        Orchestrator.ratification_stage d = Some stage4 ->
        (forall r, In r (Executor.responses stage4) ->
                   Executor.success r = true ->
                   Executor.model r <> "opus-synthesis") ->
        Orchestrator.final_recommendation d = "UNCLEAR"
        /\ Orchestrator.opus_decision d = Some "").
Proof.
  intros Hrun.
  destruct (execute_diamond_inv _ _ _ _ _ _ _ _ Hrun) as [_ Hcase].
  split.
  - intros Hnone.
    apply first_content_None in Hnone.
    unfold Executor.get_model_content in Hcase. rewrite Hnone in Hcase.
    cbn [default] in Hcase. rewrite extract_recommendation_empty in Hcase.
    destruct (invoke_opus && _) eqn:Hopus.
    + destruct Hcase as (stage4 & _ & Hrat & _).
      split; [congruence | rewrite Hrat; eauto].
    + destruct Hcase as (Hrat & _ & Hfinal & _).
      split; [auto|]. intros -> ->. discriminate.
  - intros stage4 Hrat Hnone.
    apply first_content_None in Hnone.
    destruct (invoke_opus && _).
    + destruct Hcase as (stage4' & _ & Hrat' & Hdec & Hfinal & _).
      assert (stage4' = stage4) as -> by congruence.
      unfold Executor.get_model_content in Hdec, Hfinal.
      rewrite Hnone in Hdec, Hfinal. auto.
    + destruct Hcase as (Hrat' & _). congruence.
Qed.

(** X13 on a run in which every call is answered by a fallback with the
text [APPROVED]. *)
Lemma execute_diamond_unclear_without_named_success_witness :
  exists d,
    Orchestrator.execute_diamond (Executor.ParallelExecutor_init None)
      (fun _ => Spec.via_fallback_run "APPROVED") (fun _ => [1%nat])
      "query" "" true "conditional" = Executor.Ok d
    /\ is_Some (Orchestrator.ratification_stage d)
    /\ Orchestrator.final_recommendation d = "UNCLEAR"
    /\ Orchestrator.opus_decision d = Some "".
Proof.
  eexists. split; [vm_compute; reflexivity|].
  match goal with
  | |- context [Orchestrator.ratification_stage ?d] =>
      destruct (execute_diamond_unclear_without_named_success
                  (Executor.ParallelExecutor_init None)
                  (fun _ => Spec.via_fallback_run "APPROVED")
                  (fun _ => [1%nat]) "query" "" true "conditional" d)
        as (Hsynthesis & Hratification)
  end.
  - vm_compute. reflexivity.
  - destruct Hsynthesis as [_ Hcalls].
    { intros r [<-|[]] _. discriminate. }
    split; [apply Hcalls; reflexivity|].
    apply (Hratification _ eq_refl).
    intros r [<-|[]] _. discriminate.
Defined.

(** ** The debate *)

Section debate_runs.
Import PyStr Http Executor Orchestrator.

Variable executor : ParallelExecutor.
Variable fallbacks : gmap string string.
Variable net : backend.

(** What a debate that returns has done. *)
Lemma execute_diamond_debate_inv (fuel : nat) (topic : string)
    (focus : option string) (context : string) (n : nat)
    (d : DiamondDebateResult) (log : list request) :
  execute_diamond_debate executor fallbacks net fuel topic focus context n
  = Some (d, log) ->
  exists l1,
    _execute_model executor fallbacks net fuel "gemini-architect"
      (step1_prompt topic focus) None 3000 (Some 60%Z) n
    = Some (step1_architect d, l1)
    /\ if success (step1_architect d) then
         exists l2 l3 l4,
           log = (l1 ++ l2 ++ l3 ++ l4)%list
           /\ _execute_model executor fallbacks net fuel "deepseek-v3"
                (step2_prompt (content (step1_architect d))) None 4000
                (Some 90%Z) (n + length l1)
              = Some (step2_auditor d, l2)
           /\ _execute_model executor fallbacks net fuel "kimi-researcher"
                (step3_prompt (content (step1_architect d))
                   (content (step2_auditor d)) context) None 5000
                (Some 180%Z) (n + length l1 + length l2)
              = Some (step3_contextualist d, l3)
           /\ _execute_model executor fallbacks net fuel "opus-synthesis"
                (step4_prompt (content (step1_architect d))
                   (content (step2_auditor d))
                   (content (step3_contextualist d))) None 64000
                (Some 180%Z) (n + length l1 + length l2 + length l3)
              = Some (step4_judge d, l4)
           /\ debate_total_cost d
              = sum_Q [cost (step1_architect d); cost (step2_auditor d);
                       cost (step3_contextualist d); cost (step4_judge d)]
           /\ debate_total_tokens d
              = sum_Z [tokens_used (step1_architect d);
                       tokens_used (step2_auditor d);
                       tokens_used (step3_contextualist d);
                       tokens_used (step4_judge d)]
       else
         log = l1
         /\ step2_auditor d = failed "deepseek-v3" "Architect failed, skipping"
         /\ step3_contextualist d
            = failed "kimi-researcher" "Architect failed, skipping"
         /\ step4_judge d
            = failed "opus-synthesis" "Architect failed, skipping"
         /\ debate_total_cost d = cost (step1_architect d)
         /\ debate_total_tokens d = tokens_used (step1_architect d).
Proof.
  unfold execute_diamond_debate.
  destruct (_execute_model executor fallbacks net fuel "gemini-architect"
              _ _ _ _ _) as [[step1 l1]|]; simpl; [|discriminate].
  destruct (success step1) eqn:Hstep1; simpl.
  - destruct (_execute_model executor fallbacks net fuel "deepseek-v3"
                _ _ _ _ _) as [[step2 l2]|] eqn:H2; simpl; [|discriminate].
    destruct (_execute_model executor fallbacks net fuel "kimi-researcher"
                _ _ _ _ _) as [[step3 l3]|] eqn:H3; simpl; [|discriminate].
    destruct (_execute_model executor fallbacks net fuel "opus-synthesis"
                _ _ _ _ _) as [[step4 l4]|] eqn:H4; simpl; [|discriminate].
    intros [= <- <-]. exists l1. split; [reflexivity|]. simpl.
    rewrite Hstep1. exists l2, l3, l4. repeat split; assumption.
  - intros [= <- <-]. exists l1. split; [reflexivity|]. simpl.
    rewrite Hstep1. repeat split.
Qed.

End debate_runs.

(** X14 ([DiamondOrchestrator.execute_diamond_debate]).  When the
Architect fails, the debate ends there: no further request is sent, the
three other steps are the failures [Architect failed, skipping], and the
totals are zero. *)
Theorem debate_stops_when_architect_fails
    (executor : Executor.ParallelExecutor) (fallbacks : gmap string string)
    (net : Http.backend) (fuel : nat) (topic : string)
    (focus : option string) (context : string) (n : nat)
    (d : Orchestrator.DiamondDebateResult) (log : list Http.request) :
  Orchestrator.execute_diamond_debate executor fallbacks net fuel topic focus
    context n = Some (d, log) ->
  Executor.success (Orchestrator.step1_architect d) = false ->
  Executor._execute_model executor fallbacks net fuel "gemini-architect"
    (Orchestrator.step1_prompt topic focus) None 3000 (Some 60%Z) n
  = Some (Orchestrator.step1_architect d, log)
  /\ Orchestrator.step2_auditor d
     = Executor.failed "deepseek-v3" "Architect failed, skipping"
  /\ Orchestrator.step3_contextualist d
     = Executor.failed "kimi-researcher" "Architect failed, skipping"
  /\ Orchestrator.step4_judge d
     = Executor.failed "opus-synthesis" "Architect failed, skipping"
  /\ Orchestrator.debate_total_cost d = 0%Q
  /\ Orchestrator.debate_total_tokens d = 0%Z.
Proof.
  intros Hrun Hfail.
  destruct (execute_diamond_debate_inv _ _ _ _ _ _ _ _ _ _ Hrun)
    as (l1 & Hstep1 & Hrest).
  rewrite Hfail in Hrest.
  destruct Hrest as (-> & H2 & H3 & H4 & Hcost & Htokens).
  pose proof (execute_model_response _ _ _ _ _ _ _ _ _ _ _ _ Hstep1) as Hshape.
  rewrite Hfail in Hshape. destruct Hshape as (_ & Hc & Ht & _).
  repeat split; try assumption; congruence.
Qed.

(** X14 on the shipped table with a backend that refuses every
connection: the Architect and its two fallbacks are asked, nobody
else. *)
Lemma debate_stops_when_architect_fails_witness :
  exists d log,
    Orchestrator.execute_diamond_debate (Executor.ParallelExecutor_init None)
      Models.MODEL_FALLBACKS Spec.refusing 3 "topic" None "" 0
    = Some (d, log)
    /\ map Http.req_model log
       = ["gemini-architect"; "gemini-flash"; "gemini-flash-fallback"]
    /\ Orchestrator.step2_auditor d
       = Executor.failed "deepseek-v3" "Architect failed, skipping"
    /\ Orchestrator.debate_total_tokens d = 0%Z.
Proof.
  eexists _, _. split; [vm_compute; reflexivity|].
  split; [reflexivity|].
  match goal with
  | |- Orchestrator.step2_auditor ?d = _ /\ _ =>
      destruct (debate_stops_when_architect_fails
                  (Executor.ParallelExecutor_init None) Models.MODEL_FALLBACKS
                  Spec.refusing 3 "topic" None "" 0 d
                  [Http.mk_request "gemini-architect" None
                     (Orchestrator.step1_prompt "topic" None) None
                     (Some 3000%Z) 60%Z;
                   Http.mk_request "gemini-flash" None
                     (Orchestrator.step1_prompt "topic" None) None
                     (Some 3000%Z) 60%Z;
                   Http.mk_request "gemini-flash-fallback" None
                     (Orchestrator.step1_prompt "topic" None) None
                     (Some 3000%Z) 60%Z])
        as (_ & H2 & _ & _ & _ & Htokens)
  end.
  - vm_compute. reflexivity.
  - reflexivity.
  - split; assumption.
Defined.



(** ** The executor on the shipped fallbacks *)

Section executor_cycle.
Import PyStr Http Executor.

Variable self : ParallelExecutor.
Variable net : backend.

Lemma fails_from_S (k : nat) :
  Spec.fails_from net k -> Spec.fails_from net (S k).
Proof. intros H n req Hn. apply H. lia. Qed.

(** Between [claude-sonnet] and [opus-synthesis] every failure, a timeout
included, sends the executor to the other alias. *)
Lemma execute_model_in_cycle (fuel : nat) :
  forall (alias prompt : string) (system_prompt : option string)
    (max_tokens : Z) (timeout : option Z) (n : nat),
    Spec.fails_from net n ->
    alias = "claude-sonnet" \/ alias = "opus-synthesis" ->
    _execute_model self Models.MODEL_FALLBACKS net fuel alias prompt
      system_prompt max_tokens timeout n = None.
Proof.
  induction fuel as [|fuel IH];
    intros alias prompt sp mt timeout n Hnet Halias; [reflexivity|].
  cbn [_execute_model].
  pose proof (Hnet n) as Hout.
  destruct Halias as [-> | ->]; cbn [startswith String.prefix];
    match goal with
    | |- context [net n ?req] =>
        specialize (Hout req (Nat.le_refl n)); destruct (net n req)
    end; try contradiction;
    change (truthy (Models.MODEL_FALLBACKS !! "claude-sonnet"))
      with (Some "opus-synthesis");
    change (truthy (Models.MODEL_FALLBACKS !! "opus-synthesis"))
      with (Some "claude-sonnet");
    cbn [String.eqb Ascii.eqb Bool.eqb];
    rewrite IH; auto using fails_from_S.
Qed.

End executor_cycle.

Section executor_cycle_reached.
Import PyStr Http Executor.

Variable self : ParallelExecutor.
Variable net : backend.

Local Abbreviation never_returns :=
  (Spec.never_returns self Models.MODEL_FALLBACKS net).

Lemma never_returns_hop (alias fallback : string) :
  startswith "perplexity-" alias = false ->
  truthy (Models.MODEL_FALLBACKS !! alias) = Some fallback ->
  String.eqb fallback alias = false ->
  never_returns fallback -> never_returns alias.
Proof.
  intros Hp Hfb Hne Hnext fuel prompt sp mt timeout n Hnet.
  destruct fuel as [|fuel]; [reflexivity|].
  cbn [_execute_model]. rewrite Hp.
  pose proof (Hnet n) as Hout.
  match goal with
  | |- context [net n ?req] =>
      specialize (Hout req (Nat.le_refl n)); destruct (net n req)
  end; try contradiction;
    rewrite Hfb, Hne, Hnext; auto using fails_from_S.
Qed.

Lemma never_returns_cycle (alias : string) :
  In alias Spec.leads_into_cycle -> never_returns alias.
Proof.
  assert (never_returns "claude-sonnet") as Hsonnet.
  { intros fuel prompt sp mt timeout n Hnet.
    apply execute_model_in_cycle; auto. }
  assert (never_returns "opus-synthesis") as Hopus.
  { intros fuel prompt sp mt timeout n Hnet.
    apply execute_model_in_cycle; auto. }
  assert (never_returns "kimi-synthesis") as Hkimi.
  { apply never_returns_hop with (fallback := "claude-sonnet"); auto. }
  assert (never_returns "gemini-pro") as Hpro.
  { apply never_returns_hop with (fallback := "claude-sonnet"); auto. }
  intros [<-|[<-|[<-|[<-|[<-|[<-|[<-|[<-|[]]]]]]]]]; auto.
  - apply never_returns_hop with (fallback := "kimi-synthesis"); auto.
  - apply never_returns_hop with (fallback := "kimi-synthesis"); auto.
  - apply never_returns_hop with (fallback := "claude-sonnet"); auto.
  - apply never_returns_hop with (fallback := "gemini-pro"); auto.
Qed.

End executor_cycle_reached.

(** X16 (parallel_executor.py, [_execute_model], on [MODEL_FALLBACKS] of
models.py).  On the shipped table the executor's recursion through
fallbacks does not end by itself once the backend stops answering, for
any alias that leads to the pair [claude-sonnet], [opus-synthesis]:
whatever the failures are, timeouts included, no number of fallback hops
gives a response.  (The recursion limit of the interpreter is not
modelled.)  The gateway differs: it retries a timeout, so that with a
backend that only times out its call on [claude-sonnet] returns after
three requests. *)
Theorem execute_model_never_returns_on_cycle
    (self : Executor.ParallelExecutor) (net : Http.backend)
    (alias prompt : string) (system_prompt : option string) (max_tokens : Z)
    (timeout : option Z) (n : nat) :
  In alias Spec.leads_into_cycle ->
  Spec.fails_from net n ->
  (forall fuel,
     Executor._execute_model self Models.MODEL_FALLBACKS net fuel alias prompt
       system_prompt max_tokens timeout n = None)
  /\ option_map (fun x => (Gateway.success (fst x), length (snd x)))
       (Gateway.call_model Gateway.CouncilGateway_init Models.MODEL_FALLBACKS
          Spec.silent 1 "claude-sonnet" "system" prompt timeout 0.7 None n)
     = Some (false, 3%nat).
Proof.
  intros Halias Hnet. split.
  - intros fuel. apply never_returns_cycle; assumption.
  - reflexivity.
Qed.

Lemma execute_model_never_returns_on_cycle_witness :
  (forall fuel,
     Executor._execute_model (Executor.ParallelExecutor_init None)
       Models.MODEL_FALLBACKS Spec.silent fuel "kimi-researcher" "prompt"
       None 2000 None 0 = None)
  /\ option_map (fun x => (Gateway.success (fst x), length (snd x)))
       (Gateway.call_model Gateway.CouncilGateway_init Models.MODEL_FALLBACKS
          Spec.silent 1 "claude-sonnet" "system" "prompt" None 0.7 None 0)
     = Some (false, 3%nat).
Proof.
  apply (execute_model_never_returns_on_cycle
           (Executor.ParallelExecutor_init None) Spec.silent
           "kimi-researcher" "prompt" None 2000 None 0).
  - simpl. auto.
  - intros n req _. exact I.
Defined.

(** ** The gatekeeper and its substitute *)

Section gatekeeper_results.
Import PyStr PyNum Gatekeeper.

(** The fields of the result that do not depend on the decision. *)
Lemma should_invoke_opus_fields (self : OpusGatekeeper) (query : string)
    (tier : option string) :
  let r := should_invoke_opus self query tier in
  Gatekeeper.tier r = default (Models.classify_query_tier query) tier
  /\ budget_remaining r
     = (monthly_budget self - current_monthly_spend self)%Q
  /\ budget_threshold_used r = budget_gate self
  /\ category r = fst (_classify_category query).
Proof.
  unfold should_invoke_opus, _check_budget. cbv zeta.
  destruct (_classify_category query) as [c conf]. simpl fst.
  destruct tier as [t|]; simpl default;
    repeat match goal with
           | |- context [if ?b then _ else _] => destruct b
           end; repeat split.
Qed.

End gatekeeper_results.

(** X17 (opus_gatekeeper.py, [recommend_degradation] after
[should_invoke_opus]).  The gatekeeper never invokes Opus with less than
[MIN_OPUS_BUDGET] left, and the result records the tier and the budget
that was left.  The substitute is [gemini-pro] or none: at tier 3 there
is a substitute unless Opus is invoked; at the other tiers there is one
exactly when the budget blocks Opus. *)
Theorem gatekeeper_substitute
    (self : Gatekeeper.OpusGatekeeper) (query : string)
    (tier : option string) :
  let r := Gatekeeper.should_invoke_opus self query tier in
  let remaining :=
    (Gatekeeper.monthly_budget self
     - Gatekeeper.current_monthly_spend self)%Q in
  Gatekeeper.tier r = default (Models.classify_query_tier query) tier
  /\ Gatekeeper.budget_remaining r = remaining
  /\ (Gatekeeper.decision r = Gatekeeper.INVOKE ->
      (0.50 <= remaining)%Q /\ Gatekeeper.recommend_degradation r = None)
  /\ (Gatekeeper.tier r = "tier_3" ->
      Gatekeeper.decision r <> Gatekeeper.INVOKE ->
      Gatekeeper.recommend_degradation r = Some "gemini-pro")
  /\ (Gatekeeper.tier r <> "tier_3" ->
      Gatekeeper.recommend_degradation r
      = match Gatekeeper.decision r with
        | Gatekeeper.BUDGET_BLOCK => Some "gemini-pro"
        | _ => None
        end).
Proof.
  cbv zeta.
  destruct (should_invoke_opus_fields self query tier)
    as (Htier & Hremaining & _ & _).
  split; [exact Htier|]. split; [exact Hremaining|].
  unfold Gatekeeper.recommend_degradation.
  split; [|split].
  - intros Hinvoke. rewrite Hinvoke. split; [|reflexivity].
    rewrite should_invoke_opus_decision in Hinvoke. cbv zeta in Hinvoke.
    destruct (PyNum.ge _ Gatekeeper.MIN_OPUS_BUDGET) eqn:Hfloor.
    + apply ge_true in Hfloor. exact Hfloor.
    + repeat match type of Hinvoke with
             | (if ?b then _ else _) = _ => destruct b
             end; discriminate.
  - intros -> Hdecision.
    destruct (Gatekeeper.decision _); [contradiction | reflexivity..].
  - intros Hne. apply String.eqb_neq in Hne. rewrite Hne.
    destruct (Gatekeeper.decision _); reflexivity.
Qed.

Section gatekeeper_budget.
Import PyStr PyNum Gatekeeper.

Lemma ge_mono (x y z : Q) : (x <= y)%Q -> ge x z = true -> ge y z = true.
Proof.
  unfold ge. rewrite !Qle_bool_iff. intros Hxy Hzx.
  apply (Qle_trans _ _ _ Hzx Hxy).
Qed.

Lemma gt_mono (x y z : Q) : (x <= y)%Q -> gt x z = true -> gt y z = true.
Proof.
  intros Hxy Hx. apply gt_true in Hx.
  destruct (gt y z) eqn:Hy; [reflexivity|].
  apply gt_false in Hy. exfalso.
  apply (Qlt_not_le _ _ Hx). apply (Qle_trans _ _ _ Hxy Hy).
Qed.

End gatekeeper_budget.

(** X18 (opus_gatekeeper.py, [should_invoke_opus]).  The decision is
monotone in the spend: with the same budget and the same gate, a
gatekeeper that has spent less invokes Opus whenever the one that has
spent more does, and never blocks for budget a query that the other
lets through. *)
Theorem gatekeeper_monotone_in_spend
    (self self' : Gatekeeper.OpusGatekeeper) (query : string)
    (tier : option string) :
  Gatekeeper.monthly_budget self' = Gatekeeper.monthly_budget self ->
  Gatekeeper.budget_gate self' = Gatekeeper.budget_gate self ->
  (Gatekeeper.current_monthly_spend self'
   <= Gatekeeper.current_monthly_spend self)%Q ->
  (Gatekeeper.decision (Gatekeeper.should_invoke_opus self query tier)
   = Gatekeeper.INVOKE ->
   Gatekeeper.decision (Gatekeeper.should_invoke_opus self' query tier)
   = Gatekeeper.INVOKE)
  /\ (Gatekeeper.decision (Gatekeeper.should_invoke_opus self' query tier)
      = Gatekeeper.BUDGET_BLOCK ->
      Gatekeeper.decision (Gatekeeper.should_invoke_opus self query tier)
      = Gatekeeper.BUDGET_BLOCK).
Proof.
  intros Hbudget Hgate Hspend.
  rewrite !should_invoke_opus_decision. cbv zeta.
  rewrite Hbudget, Hgate.
  pose proof (ge_mono
                (Gatekeeper.monthly_budget self
                 - Gatekeeper.current_monthly_spend self)
                (Gatekeeper.monthly_budget self
                 - Gatekeeper.current_monthly_spend self')
                Gatekeeper.MIN_OPUS_BUDGET) as Hfloor.
  pose proof (gt_mono (Gatekeeper.current_monthly_spend self')
                (Gatekeeper.current_monthly_spend self)
                (Gatekeeper.budget_gate self) Hspend) as Hover.
  assert (Gatekeeper.monthly_budget self
          - Gatekeeper.current_monthly_spend self
          <= Gatekeeper.monthly_budget self
             - Gatekeeper.current_monthly_spend self')%Q as Hle.
  { apply Qplus_le_r, Qopp_le_compat, Hspend. }
  specialize (Hfloor Hle).
  revert Hfloor Hover.
  generalize (Spec.mentions Gatekeeper.MANDATORY_KEYWORDS query) as mandatory.
  generalize (Spec.mentions Gatekeeper.SKIP_KEYWORDS query) as skip.
  generalize (String.eqb (default (Models.classify_query_tier query) tier)
                "tier_3") as tier3.
  generalize (PyNum.ge (Gatekeeper.monthly_budget self
                        - Gatekeeper.current_monthly_spend self)
                Gatekeeper.MIN_OPUS_BUDGET) as floor.
  generalize (PyNum.ge (Gatekeeper.monthly_budget self
                        - Gatekeeper.current_monthly_spend self')
                Gatekeeper.MIN_OPUS_BUDGET) as floor'.
  generalize (PyNum.gt (Gatekeeper.current_monthly_spend self)
                (Gatekeeper.budget_gate self)) as over.
  generalize (PyNum.gt (Gatekeeper.current_monthly_spend self')
                (Gatekeeper.budget_gate self)) as over'.
  intros [] [] [] [] [] [] [] Hfloor Hover;
    split; intros; try reflexivity; try discriminate;
    try (specialize (Hfloor eq_refl); discriminate);
    try (specialize (Hover eq_refl); discriminate).
Qed.

Lemma gatekeeper_monotone_in_spend_witness :
  (Gatekeeper.decision
     (Gatekeeper.should_invoke_opus
        (Gatekeeper.OpusGatekeeper_init 100 39 Gatekeeper.BUDGET_GATE_THRESHOLD)
        "@council_v2 which queue" None)
   = Gatekeeper.INVOKE ->
   Gatekeeper.decision
     (Gatekeeper.should_invoke_opus
        (Gatekeeper.OpusGatekeeper_init 100 30 Gatekeeper.BUDGET_GATE_THRESHOLD)
        "@council_v2 which queue" None)
   = Gatekeeper.INVOKE)
  /\ (Gatekeeper.decision
        (Gatekeeper.should_invoke_opus
           (Gatekeeper.OpusGatekeeper_init 100 30
              Gatekeeper.BUDGET_GATE_THRESHOLD)
           "@council_v2 which queue" None)
      = Gatekeeper.BUDGET_BLOCK ->
      Gatekeeper.decision
        (Gatekeeper.should_invoke_opus
           (Gatekeeper.OpusGatekeeper_init 100 39
              Gatekeeper.BUDGET_GATE_THRESHOLD)
           "@council_v2 which queue" None)
      = Gatekeeper.BUDGET_BLOCK).
Proof.
  apply (gatekeeper_monotone_in_spend
           (Gatekeeper.OpusGatekeeper_init 100 39
              Gatekeeper.BUDGET_GATE_THRESHOLD)
           (Gatekeeper.OpusGatekeeper_init 100 30
              Gatekeeper.BUDGET_GATE_THRESHOLD)
           "@council_v2 which queue" None).
  - reflexivity.
  - reflexivity.
  - simpl. unfold Qle. simpl. lia.
Defined.

(** ** Costs *)

Section rounding_facts.
Import PyNum.

Lemma round_half_even_comp (q q' : Q) :
  (q == q')%Q -> round_half_even q = round_half_even q'.
Proof.
  intros Hq. unfold round_half_even.
  rewrite (Qfloor_comp _ _ Hq).
  assert ((q - inject_Z (Qfloor q') ?= 1 # 2)%Q
          = (q' - inject_Z (Qfloor q') ?= 1 # 2)%Q) as ->.
  { apply Qcompare_comp; [rewrite Hq|]; reflexivity. }
  reflexivity.
Qed.

Lemma round_comp (q q' : Q) (ndigits : nat) :
  (q == q')%Q -> round q ndigits = round q' ndigits.
Proof.
  intros Hq. unfold round.
  set (scale := inject_Z (10 ^ Z.of_nat ndigits)).
  rewrite (round_half_even_comp (q * scale) (q' * scale)); [reflexivity|].
  rewrite Hq. reflexivity.
Qed.

Lemma round_half_even_nonneg (q : Q) : (0 <= q)%Q -> (0 <= round_half_even q)%Z.
Proof.
  intros Hq. unfold round_half_even.
  assert (0 <= Qfloor q)%Z as Hf.
  { change 0%Z with (Qfloor 0). apply Qfloor_resp_le, Hq. }
  destruct (_ ?= _)%Q; [destruct (Z.even _)| |]; lia.
Qed.

Lemma round_nonneg (q : Q) (ndigits : nat) : (0 <= q)%Q -> (0 <= round q ndigits)%Q.
Proof.
  intros Hq. unfold round.
  assert (0 < 10 ^ Z.of_nat ndigits)%Z as Hscale
    by (apply Z.pow_pos_nonneg; lia).
  assert (0 < inject_Z (10 ^ Z.of_nat ndigits))%Q as Hscale'.
  { change 0%Q with (inject_Z 0). rewrite <- Zlt_Qlt. exact Hscale. }
  apply Qle_shift_div_l; [exact Hscale'|].
  rewrite Qmult_0_l. change 0%Q with (inject_Z 0). rewrite <- Zle_Qle.
  apply round_half_even_nonneg.
  apply Qmult_le_0_compat; [exact Hq | apply Qlt_le_weak, Hscale'].
Qed.

End rounding_facts.

Section pricing_facts.
Import Pricing.

Lemma get_pricing_nonneg (model_alias : string) :
  (0 <= input_price_per_1m (get_pricing model_alias))%Q
  /\ (0 <= output_price_per_1m (get_pricing model_alias))%Q.
Proof.
  unfold get_pricing.
  destruct (PERPLEXITY_PRICING !! model_alias) as [c|] eqn:Hp.
  - apply elem_of_list_to_map_2 in Hp.
    assert (Forall (fun e : string * Q => (0 <= snd e)%Q)
              [("perplexity-online", 0.002%Q);
               ("perplexity-researcher", 0.001%Q)]) as Hall
      by (repeat constructor; discriminate).
    rewrite Forall_forall in Hall. apply Hall in Hp.
    split; [exact Hp | discriminate].
  - destruct (MODEL_PRICING !! _) as [p|] eqn:Hm.
    + apply elem_of_list_to_map_2 in Hm.
      revert Hm. generalize (default model_alias
                               (COUNCIL_MODEL_ALIASES !! model_alias)).
      intros u Hm.
      repeat (apply elem_of_cons in Hm as [[= _ ->]|Hm];
              [split; discriminate|]).
      apply elem_of_nil in Hm. destruct Hm.
    + split; discriminate.
Qed.

End pricing_facts.

(** X19 (pricing.py, [calculate_cost], [estimate_max_cost] and
[get_pricing]).  Every alias has a price, known or not, and no price is
negative: a cost is never negative for token counts that are not, and the
maximum cost of a request is its cost with no input tokens. *)
Theorem pricing_costs
    (model : string) (prompt_tokens completion_tokens : Q) :
  (0 <= prompt_tokens)%Q -> (0 <= completion_tokens)%Q ->
  (0 <= Pricing.calculate_cost model prompt_tokens completion_tokens)%Q
  /\ Pricing.estimate_max_cost model completion_tokens
     = Pricing.calculate_cost model 0 completion_tokens
  /\ (0 <= Pricing.estimate_max_cost model completion_tokens)%Q.
Proof.
  intros Hp Hc.
  destruct (get_pricing_nonneg model) as [Hin Hout].
  assert (forall t p : Q, (0 <= t)%Q -> (0 <= p)%Q -> (0 <= t / 1000000 * p)%Q)
    as Hterm.
  { intros t p Ht Hp'. apply Qmult_le_0_compat; [|exact Hp'].
    apply Qle_shift_div_l; [reflexivity|]. rewrite Qmult_0_l. exact Ht. }
  unfold Pricing.calculate_cost, Pricing.estimate_max_cost. cbv zeta.
  split; [|split].
  - apply round_nonneg.
    rewrite <- (Qplus_0_r 0). apply Qplus_le_compat; apply Hterm; assumption.
  - apply round_comp. unfold Qdiv. ring.
  - apply round_nonneg, Hterm; assumption.
Qed.

Lemma pricing_costs_witness :
  (0 <= Pricing.calculate_cost "opus-synthesis" 10000 5000)%Q
  /\ Pricing.estimate_max_cost "opus-synthesis" 5000
     = Pricing.calculate_cost "opus-synthesis" 0 5000
  /\ (0 <= Pricing.estimate_max_cost "opus-synthesis" 5000)%Q.
Proof.
  apply (pricing_costs "opus-synthesis" 10000 5000); discriminate.
Defined.

Example opus_costs :
  (Pricing.calculate_cost "opus-synthesis" 10000 5000 == 0.525)%Q
  /\ (Pricing.calculate_cost "never-heard-of" 1000000 0 == 1)%Q.
Proof. split; reflexivity. Qed.

Section cost_predictor_estimates.
Import PyStr PyNum CostPredictor.

Lemma int_quarter (n : nat) :
  int (inject_Z (Z.of_nat n) * AVG_INPUT_TOKENS_PER_CHAR)
  = Z.of_nat (n / 4).
Proof.
  unfold int, AVG_INPUT_TOKENS_PER_CHAR. simpl Qnum. simpl Qden.
  rewrite Z.quot_div_nonneg by lia.
  rewrite Nat2Z.inj_div. change (Z.of_nat 4) with 4%Z.
  change (Z.pos (1 * 100)) with (4 * 25)%Z.
  rewrite Z.div_mul_cancel_r by lia. reflexivity.
Qed.

Lemma int_half (z : Z) :
  (0 <= z)%Z ->
  int (inject_Z z * AVG_OUTPUT_TOKENS_PER_INPUT) = (z / 2)%Z.
Proof.
  intros Hz. unfold int, AVG_OUTPUT_TOKENS_PER_INPUT. simpl Qnum. simpl Qden.
  rewrite Z.quot_div_nonneg by lia.
  change (Z.pos (1 * 10)) with (2 * 5)%Z.
  rewrite Z.div_mul_cancel_r by lia. reflexivity.
Qed.

End cost_predictor_estimates.

(** X20 (diamond_cost_predictor.py, [estimate_tokens]).  The input is
estimated at a quarter of its characters, the line break between query
and context included, rounded down.  The output expected of a model is
never negative and never above the cap of that model; the caps go up to
5000 for [gemini-pro] and 4000 for [opus-synthesis], above
[MAX_OUTPUT_TOKENS_PER_MODEL], which the function does not read. *)
Theorem estimate_tokens_bounds (query context : string) :
  let estimate := CostPredictor.estimate_tokens query context in
  let caps : list (string * Q) :=
    [ ("claude-sonnet", 2000%Q); ("deepseek-v3", 2000%Q);
      ("gemini-flash", 1000%Q); ("kimi-researcher", 2000%Q);
      ("gemini-pro", 5000%Q); ("opus-synthesis", 4000%Q);
      ("perplexity-online", 500%Q); ("perplexity-researcher", 300%Q) ] in
  CostPredictor.input_tokens estimate
  = Z.of_nat ((String.length query + 1 + String.length context) / 4)
  /\ (forall model tokens,
        CostPredictor.output_per_model estimate !! model = Some tokens ->
        exists cap, In (model, cap) caps /\ (0 <= tokens <= cap)%Q)
  /\ (forall model cap,
        In (model, cap) caps ->
        is_Some (CostPredictor.output_per_model estimate !! model))
  /\ ((20000 <= Z.of_nat (String.length query))%Z ->
      exists tokens,
        CostPredictor.output_per_model estimate !! "gemini-pro" = Some tokens
        /\ (tokens == 5000)%Q).
Proof.
  cbv zeta. unfold CostPredictor.estimate_tokens. cbv zeta.
  cbn [CostPredictor.input_tokens CostPredictor.output_per_model].
  rewrite int_quarter.
  assert (String.length (query ++ CostPredictor.nl ++ context)
          = (String.length query + 1 + String.length context)%nat) as ->.
  { rewrite !length_append. simpl. lia. }
  set (n := (String.length query + 1 + String.length context)%nat).
  rewrite int_half by apply Nat2Z.is_nonneg.
  set (base := inject_Z (Z.of_nat (n / 4) / 2)).
  assert (0 <= base)%Q as Hbase.
  { subst base. change 0%Q with (inject_Z 0). rewrite <- Zle_Qle.
    apply Z.div_pos; [apply Nat2Z.is_nonneg | lia]. }
  assert (forall f cap : Q, (0 <= f)%Q -> (0 <= cap)%Q ->
            (0 <= Qmin (base * f) cap <= cap)%Q) as Hmin.
  { intros f cap Hf Hcap. split; [|apply Q.le_min_r].
    apply Q.min_glb; [|exact Hcap]. apply Qmult_le_0_compat; assumption. }
  split; [reflexivity|]. split; [|split].
  - intros model tokens Hlookup.
    apply elem_of_list_to_map_2 in Hlookup.
    repeat (apply elem_of_cons in Hlookup as [[= -> ->]|Hlookup];
            [eexists; split;
             [simpl; eauto 10
             |first [ apply Hmin; discriminate
                    | split; [apply Q.min_glb; [exact Hbase | discriminate]
                             |apply Q.le_min_r]
                    | split; discriminate ]]|]).
    apply elem_of_nil in Hlookup. destruct Hlookup.
  - intros model cap Hin. simpl in Hin.
    repeat (destruct Hin as [[= <- <-]|Hin]; [eexists; reflexivity|]).
    destruct Hin.
  - intros Hlong.
    assert (5000 <= base * 2.0)%Q as Hbig.
    { subst base.
      assert (2500 <= Z.of_nat (n / 4) / 2)%Z as Hz.
      { apply Z.div_le_lower_bound; [lia|].
        rewrite Nat2Z.inj_div. apply Z.div_le_lower_bound; [lia|].
        subst n. lia. }
      rewrite Zle_Qle in Hz.
      apply (Qle_trans _ (inject_Z 2500 * 2.0)); [discriminate|].
      apply Qmult_le_compat_r; [exact Hz | discriminate]. }
    exists (Qmin (base * 2.0) 5000). split; [reflexivity|].
    apply Q.min_r, Hbig.
Qed.

Section cost_range_facts.
Import PyStr PyNum Pricing CostPredictor.

Lemma tier_cost_loop_point (tier : string) (input_tokens : Z)
    (output_per_model : gmap string Q) (models : list string) :
  forall acc : Q * Q,
    fst acc = snd acc ->
    let out :=
      fold_left
        (fun '(min_cost, max_cost) model =>
           let output_tokens := default 1000%Q (output_per_model !! model) in
           if negb true then (min_cost + 0.01, max_cost + 0.05)%Q
           else if String.eqb model "perplexity-online"
                   || String.eqb model "perplexity-researcher" then
             let cost := default 0%Q (PERPLEXITY_PRICING !! model) in
             (min_cost + cost, max_cost + cost)%Q
           else
             let cost :=
               calculate_cost model (inject_Z input_tokens) output_tokens in
             (min_cost + cost, max_cost + cost)%Q)
        models acc in
    fst out = snd out.
Proof.
  induction models as [|model models IH]; intros [a b] Hacc; simpl in *;
    [exact Hacc|].
  apply IH. subst b.
  destruct (_ || _); reflexivity.
Qed.

Lemma tier_cost_loop_unpriced (output_per_model : gmap string Q)
    (input_tokens : Z) (models : list string) :
  forall acc : Q * Q,
    let out :=
      fold_left
        (fun '(min_cost, max_cost) model =>
           let output_tokens := default 1000%Q (output_per_model !! model) in
           if negb false then (min_cost + 0.01, max_cost + 0.05)%Q
           else if String.eqb model "perplexity-online"
                   || String.eqb model "perplexity-researcher" then
             let cost := default 0%Q (PERPLEXITY_PRICING !! model) in
             (min_cost + cost, max_cost + cost)%Q
           else
             let cost :=
               calculate_cost model (inject_Z input_tokens) output_tokens in
             (min_cost + cost, max_cost + cost)%Q)
        models acc in
    (fst out == fst acc + 0.01 * inject_Z (Z.of_nat (length models)))%Q
    /\ (snd out == snd acc + 0.05 * inject_Z (Z.of_nat (length models)))%Q.
Proof.
  induction models as [|model models IH]; intros [a b].
  - simpl. split; ring.
  - cbn [fold_left negb length]. cbv zeta.
    destruct (IH (a + 0.01, b + 0.05)%Q) as [Hmin Hmax].
    cbv zeta in Hmin, Hmax. cbn [negb] in Hmin, Hmax.
    rewrite Hmin, Hmax. cbn [fst snd].
    rewrite Nat2Z.inj_succ, <- Z.add_1_r, inject_Z_plus.
    split; ring.
Qed.

End cost_range_facts.

(** X21 (diamond_cost_predictor.py, [estimate_tier_cost] and
[predict_and_reserve]).  The cost range that the predictor reports is a
point: with the pricing module at hand the minimum and the maximum are
the same number, for every list of models.  Only when the pricing module
is missing do they differ: each model then counts for 0.01 in the minimum
and for 0.05 in the maximum. *)
Theorem cost_range_is_a_point
    (self : CostPredictor.DiamondCostPredictor) (query context tier : string)
    (models : option (list string)) (stage : list string)
    (input_tokens : Z) (output_per_model : gmap string Q) :
  fst (CostPredictor.estimate_tier_cost true tier stage input_tokens
         output_per_model)
  = snd (CostPredictor.estimate_tier_cost true tier stage input_tokens
           output_per_model)
  /\ CostPredictor.estimated_min_cost
       (CostPredictor.predict_and_reserve true self query context tier models)
     = CostPredictor.estimated_max_cost
         (CostPredictor.predict_and_reserve true self query context tier
            models)
  /\ CostPredictor.estimate_tier_cost false tier stage input_tokens
       output_per_model
     = (PyNum.round (0.01 * inject_Z (Z.of_nat (length stage))) 4,
        PyNum.round (0.05 * inject_Z (Z.of_nat (length stage))) 4).
Proof.
  assert (forall stage input_tokens output_per_model,
            fst (CostPredictor.estimate_tier_cost true tier stage input_tokens
                   output_per_model)
            = snd (CostPredictor.estimate_tier_cost true tier stage
                     input_tokens output_per_model)) as Hpoint.
  { intros l it opm. unfold CostPredictor.estimate_tier_cost.
    pose proof (tier_cost_loop_point tier it opm l (0%Q, 0%Q) eq_refl)
      as Hloop.
    cbv zeta in Hloop.
    destruct (fold_left _ l (0%Q, 0%Q)) as [a b]. simpl in *.
    rewrite Hloop. reflexivity. }
  split; [apply Hpoint|]. split.
  - unfold CostPredictor.predict_and_reserve. cbv zeta.
    match goal with
    | |- context [CostPredictor.estimate_tier_cost true tier ?l ?it ?opm] =>
        specialize (Hpoint l it opm);
        destruct (CostPredictor.estimate_tier_cost true tier l it opm)
          as [a b]
    end.
    destruct (CostPredictor.check_budget_reservation self tier b).
    exact Hpoint.
  - unfold CostPredictor.estimate_tier_cost.
    pose proof (tier_cost_loop_unpriced output_per_model input_tokens stage
                  (0%Q, 0%Q)) as Hloop.
    cbv zeta in Hloop.
    destruct (fold_left _ stage (0%Q, 0%Q)) as [a b]. simpl in Hloop.
    destruct Hloop as [Ha Hb].
    f_equal; apply round_comp; [rewrite Ha | rewrite Hb]; ring.
Qed.

Example tier_3_estimate_is_a_point :
  let e :=
    CostPredictor.predict_and_reserve true
      (CostPredictor.DiamondCostPredictor_init 100 0)
      "@council_v2 design a new auth system architecture" "" "tier_3" None in
  (CostPredictor.estimated_tokens e, CostPredictor.can_proceed e)
  = (12%Z, true)
  /\ (CostPredictor.estimated_min_cost e == 0.0031)%Q
  /\ (CostPredictor.estimated_max_cost e == 0.0031)%Q.
Proof. vm_compute. repeat split. Qed.

Section degradation_facts.
Import PyStr PyNum CostPredictor.

Lemma lower_app (s t : string) : lower (s ++ t) = lower s ++ lower t.
Proof.
  induction s as [|c s IH]; [reflexivity|].
  rewrite append_cons. simpl. rewrite IH, append_cons. reflexivity.
Qed.

Lemma contains_b_cons (c : ascii) (s : string) :
  contains "b" (String c s)
  = (if ascii_dec "b" c then true else false) || contains "b" s.
Proof.
  cbn [contains String.prefix].
  destruct (ascii_dec "b" c); [|reflexivity].
  destruct s; reflexivity.
Qed.

Lemma contains_b_app (s t : string) :
  contains "b" (s ++ t) = contains "b" s || contains "b" t.
Proof.
  induction s as [|c s IH]; [reflexivity|].
  rewrite append_cons, !contains_b_cons, IH, orb_assoc. reflexivity.
Qed.

Lemma no_b_uint (u : Decimal.uint) :
  contains "b" (lower (NilEmpty.string_of_uint u)) = false.
Proof.
  induction u; cbn [NilEmpty.string_of_uint lower]; [reflexivity|..];
    rewrite contains_b_cons; exact IHu.
Qed.

Lemma no_b_str_Z (z : Z) : contains "b" (lower (str_Z z)) = false.
Proof.
  unfold str_Z. destruct (Z.to_int z) as [u|u];
    cbn [NilEmpty.string_of_int lower]; [apply no_b_uint|].
  rewrite contains_b_cons. apply no_b_uint.
Qed.

Lemma no_b_fmt_2f (q : Q) : contains "b" (lower (fmt_2f q)) = false.
Proof.
  unfold fmt_2f. cbv zeta.
  rewrite !lower_app, !contains_b_app, !no_b_str_Z.
  destruct (Qlt_le_dec q 0); destruct (_ <? 10)%Z; reflexivity.
Qed.

Lemma contains_budget_b (s : string) :
  contains "b" s = false -> contains "budget" s = false.
Proof.
  intros Hb. destruct (contains "budget" s) eqn:Hbudget; [|reflexivity].
  apply contains_spec in Hbudget as (pre & post & ->).
  rewrite <- Hb. symmetry. apply contains_spec.
  exists pre, ("udget" ++ post). reflexivity.
Qed.

(** Which of the reasons of [check_budget_reservation] speak of a
budget. *)
Lemma reason_mentions_budget (self : DiamondCostPredictor) (tier : string)
    (cost : Q) :
  contains "budget" (lower (snd (check_budget_reservation self tier cost)))
  = negb (gt cost MAX_COST_PER_QUERY).
Proof.
  unfold check_budget_reservation.
  destruct (gt cost MAX_COST_PER_QUERY); cbn [negb snd].
  - apply contains_budget_b.
    rewrite !lower_app, !contains_b_app, no_b_fmt_2f. reflexivity.
  - cbv zeta.
    destruct (gt cost (monthly_budget self - current_monthly_spend self));
      cbn [snd].
    { rewrite lower_app. apply contains_append_r. reflexivity. }
    destruct (gt cost _); cbn [snd].
    { rewrite lower_app. apply contains_append_r. reflexivity. }
    reflexivity.
Qed.

End degradation_facts.

(** X22 (diamond_cost_predictor.py, [recommend_degradation] after
[predict_and_reserve]).  For a tier 3 query the predictor recommends
[tier_3_lite] exactly when the estimate is above the ceiling of 2.50 a
query, and [tier_1] otherwise, because every other reason speaks of the
budget, the reason of a reservation that went through included.  For
tier 2 it recommends [tier_1], and any other tier stays as it is. *)
Theorem degradation_after_reservation
    (pricing_imported : bool) (self : CostPredictor.DiamondCostPredictor)
    (query context tier : string) (models : option (list string)) :
  let estimate :=
    CostPredictor.predict_and_reserve pricing_imported self query context
      tier models in
  let recommended := CostPredictor.recommend_degradation estimate in
  (tier = "tier_3" ->
   (2.50 < CostPredictor.estimated_max_cost estimate)%Q ->
   recommended = "tier_3_lite"
   /\ CostPredictor.can_proceed estimate = false)
  /\ (tier = "tier_3" ->
      (CostPredictor.estimated_max_cost estimate <= 2.50)%Q ->
      recommended = "tier_1")
  /\ (tier = "tier_2" -> recommended = "tier_1")
  /\ (tier <> "tier_3" -> tier <> "tier_2" -> recommended = tier).
Proof.
  cbv zeta. unfold CostPredictor.predict_and_reserve. cbv zeta.
  destruct (CostPredictor.estimate_tier_cost _ _ _ _ _) as [a b].
  pose proof (reason_mentions_budget self tier b) as Hreason.
  unfold CostPredictor.recommend_degradation.
  destruct (CostPredictor.check_budget_reservation self tier b)
    as [ok why] eqn:Hcheck.
  cbn [CostPredictor.tier CostPredictor.reason CostPredictor.can_proceed
       CostPredictor.estimated_max_cost snd] in *.
  split; [|split; [|split]].
  - intros -> Hover.
    assert (PyNum.gt b CostPredictor.MAX_COST_PER_QUERY = true) as Hgt.
    { destruct (PyNum.gt b CostPredictor.MAX_COST_PER_QUERY) eqn:Hgt;
        [reflexivity|].
      apply gt_false in Hgt. exfalso. exact (Qlt_not_le _ _ Hover Hgt). }
    split.
    + cbn [String.eqb Ascii.eqb Bool.eqb]. rewrite Hreason, Hgt. reflexivity.
    + unfold CostPredictor.check_budget_reservation in Hcheck.
      rewrite Hgt in Hcheck. congruence.
  - intros -> Hle. cbn [String.eqb Ascii.eqb Bool.eqb]. rewrite Hreason.
    destruct (PyNum.gt b CostPredictor.MAX_COST_PER_QUERY) eqn:Hgt;
      [|reflexivity].
    apply gt_true in Hgt. exfalso. exact (Qlt_not_le _ _ Hgt Hle).
  - intros ->. reflexivity.
  - intros H3 H2. apply String.eqb_neq in H3, H2. rewrite H3, H2.
    reflexivity.
Qed.

Example over_the_ceiling_goes_lite :
  let self := CostPredictor.DiamondCostPredictor_init 100 0 in
  let estimate (reason : string) (ok : bool) :=
    {| CostPredictor.tier := "tier_3"; CostPredictor.models := [];
       CostPredictor.estimated_min_cost := 3;
       CostPredictor.estimated_max_cost := 3;
       CostPredictor.estimated_tokens := 0;
       CostPredictor.can_proceed := ok; CostPredictor.reason := reason |} in
  CostPredictor.check_budget_reservation self "tier_3" 3
  = (false, "Cost $3.00 exceeds per-query ceiling of $2.5")
  /\ CostPredictor.recommend_degradation
       (estimate "Cost $3.00 exceeds per-query ceiling of $2.5" false)
     = "tier_3_lite"
  /\ CostPredictor.recommend_degradation (estimate "Budget available" true)
     = "tier_1".
Proof. vm_compute. repeat split. Qed.

(** ** Tiers *)

Section tier_facts.
Import PyStr Models.

Lemma classify_query_tier_cases (query : string) :
  classify_query_tier query = "tier_1"
  \/ classify_query_tier query = "tier_2"
  \/ classify_query_tier query = "tier_3"
  \/ classify_query_tier query = "tier_3_lite".
Proof.
  unfold classify_query_tier. cbv zeta.
  generalize (lower query) as q. intros q.
  destruct (contains "@council_v2" q); [auto|].
  destruct (contains "@council_lite" q); [auto|].
  destruct (contains "@research" q); [auto|].
  destruct (any_in SIMPLE_IMPLEMENTATION_KEYWORDS q); [auto|].
  destruct (any_in EXTERNAL_DOCS_KEYWORDS q); [auto|].
  destruct (any_in ARCHITECTURAL_KEYWORDS q); auto.
Qed.

End tier_facts.

(** X23 (models.py, [get_models_for_tier] and [estimate_tier_cost] after
[classify_query_tier]; pricing.py, [get_tier_estimate];
diamond_cost_predictor.py, [predict_and_reserve]).  The tier of a query
is always one that the tables know: the lookups never raise for it, its
models are not empty and include [claude-sonnet], the two cost tables
give the same range, with its lower end below its upper end, and the
predictor takes the models of the tier, not its fallback. *)
Theorem classified_tier_is_configured
    (pricing_imported : bool) (self : CostPredictor.DiamondCostPredictor)
    (query context : string) :
  let tier := Models.classify_query_tier query in
  exists models low high,
    Models.get_models_for_tier tier = Some models
    /\ In "claude-sonnet" models
    /\ Models.estimate_tier_cost tier = Some (low, high)
    /\ Pricing.get_tier_estimate tier = Some (low, high)
    /\ (0 < low < high)%Q
    /\ CostPredictor.models
         (CostPredictor.predict_and_reserve pricing_imported self query
            context tier None)
       = models.
Proof.
  cbv zeta.
  assert (forall tier,
            CostPredictor.models
              (CostPredictor.predict_and_reserve pricing_imported self query
                 context tier None)
            = default ["claude-sonnet"] (Models.get_models_for_tier tier))
    as Hmodels.
  { intros tier. unfold CostPredictor.predict_and_reserve. cbv zeta.
    destruct (CostPredictor.estimate_tier_cost _ _ _ _ _) as [a b].
    destruct (CostPredictor.check_budget_reservation self tier b).
    reflexivity. }
  rewrite Hmodels.
  destruct (classify_query_tier_cases query) as [-> | [-> | [-> | ->]]];
    eexists _, _, _;
    (split; [reflexivity|]); (split; [simpl; tauto|]);
    (split; [reflexivity|]); (split; [reflexivity|]);
    (split; [split; reflexivity | reflexivity]).
Qed.

(** ** Sanitizing output *)

Section sanitize_facts.
Import Sanitize.

Lemma replace_char_absent (old : N) (new text : list N) :
  Forall (fun c => c <> old) text -> replace_char old new text = text.
Proof.
  unfold replace_char.
  induction 1 as [|c text Hc _ IH]; [reflexivity|].
  simpl. apply N.eqb_neq in Hc. rewrite Hc, IH. reflexivity.
Qed.

Lemma replacements_on_ascii (table : list (N * list N)) (text : list N) :
  Forall (fun entry => (128 <= fst entry)%N) table ->
  Forall (fun c => (c < 128)%N) text ->
  fold_left (fun text entry => replace_char (fst entry) (snd entry) text)
    table text = text.
Proof.
  intros Htable Htext.
  induction Htable as [|entry table Hentry _ IH]; [reflexivity|].
  simpl. rewrite replace_char_absent; [exact IH|].
  eapply Forall_impl; [exact Htext|]. simpl. intros c Hc. lia.
Qed.

Lemma replacements_above_ascii :
  Forall (fun entry : N * list N => (128 <= fst entry)%N) replacements.
Proof. repeat constructor; discriminate. Qed.

Lemma replace_char_length (old : N) (new text : list N) :
  new <> [] -> (length text <= length (replace_char old new text))%nat.
Proof.
  intros Hnew. unfold replace_char.
  induction text as [|c text IH]; [reflexivity|].
  simpl. rewrite length_app.
  destruct (c =? old)%N; [|simpl; lia].
  destruct new; [congruence | simpl; lia].
Qed.

Lemma replacements_length (table : list (N * list N)) :
  Forall (fun entry => snd entry <> []) table ->
  forall text,
    (length text
     <= length
          (fold_left
             (fun text entry => replace_char (fst entry) (snd entry) text)
             table text))%nat.
Proof.
  induction 1 as [|entry table Hentry _ IH]; intros text; [reflexivity|].
  simpl. etransitivity; [|apply IH].
  apply replace_char_length, Hentry.
Qed.

Lemma sanitize_output_ascii (text : list N) :
  Forall (fun c => (c < 128)%N) (sanitize_output text).
Proof.
  unfold sanitize_output. destruct text as [|c text]; [constructor|].
  destruct (forallb _ _) eqn:Hall.
  - rewrite forallb_forall in Hall. apply Forall_forall.
    intros x Hx. apply list_elem_of_In in Hx.
    apply N.ltb_lt, Hall, Hx.
  - unfold ascii_replace. apply Forall_forall. intros x Hx.
    apply list_elem_of_fmap in Hx as (y & -> & _).
    destruct (N.ltb_spec y 128); lia.
Qed.

Lemma sanitize_output_on_ascii (text : list N) :
  Forall (fun c => (c < 128)%N) text -> sanitize_output text = text.
Proof.
  intros Htext. unfold sanitize_output.
  destruct text as [|c text]; [reflexivity|].
  rewrite (replacements_on_ascii _ _ replacements_above_ascii Htext).
  assert (forallb (fun c => (c <? 128)%N) (c :: text) = true) as ->;
    [|reflexivity].
  apply forallb_forall. intros x Hx. apply N.ltb_lt.
  rewrite Forall_forall in Htext. apply Htext, list_elem_of_In, Hx.
Qed.

End sanitize_facts.

(** X24 (gateway.py, [sanitize_output]).  The output holds only ASCII
code points, whatever the input; an ASCII text comes back unchanged, so
that sanitizing twice is sanitizing once; and the output is never shorter
than the input. *)
Theorem sanitize_output_is_ascii (text : list N) :
  Forall (fun c => (c < 128)%N) (Sanitize.sanitize_output text)
  /\ (Forall (fun c => (c < 128)%N) text ->
      Sanitize.sanitize_output text = text)
  /\ Sanitize.sanitize_output (Sanitize.sanitize_output text)
     = Sanitize.sanitize_output text
  /\ (length text <= length (Sanitize.sanitize_output text))%nat.
Proof.
  split; [apply sanitize_output_ascii|].
  split; [apply sanitize_output_on_ascii|].
  split; [apply sanitize_output_on_ascii, sanitize_output_ascii|].
  unfold Sanitize.sanitize_output. destruct text as [|c text]; [reflexivity|].
  assert (length (c :: text)
          <= length
               (fold_left
                  (fun text entry =>
                     Sanitize.replace_char (fst entry) (snd entry) text)
                  Sanitize.replacements (c :: text)))%nat as Hlen.
  { apply replacements_length. repeat constructor; discriminate. }
  destruct (forallb _ _); [exact Hlen|].
  unfold Sanitize.ascii_replace. rewrite length_map. exact Hlen.
Qed.

Example sanitize_arrows :
  Sanitize.sanitize_output
    (Sanitize.codes "a " ++ [0x2192; 0x2014; 0x00e9; 0x2713]%N)%list
  = Sanitize.codes "a ->--?[OK]".
Proof. vm_compute. reflexivity. Qed.

(** ** Truncating output *)

Section truncate_facts.
Import PyStr BuildPlanner.




End truncate_facts.


Example truncate_at_line_break :
  BuildPlanner.truncate_output ("abcdefgh" ++ Executor.nl ++ "ijkl") 9
  = "abcdefgh" ++ BuildPlanner.truncation_notice
  /\ BuildPlanner.truncate_output ("abcdefgh" ++ Executor.nl ++ "ijkl") 10
     = "abcdefgh" ++ Executor.nl ++ "i" ++ BuildPlanner.truncation_notice.
Proof. vm_compute. split; reflexivity. Qed.

(** ** The rollback store *)

Section rollback_store_facts.
Import Schemas.
Context {A : Type}.

Lemma list_states_save (self : RollbackStore A) (now id : string) (s : A) :
  list_states (save_state self now id s) id
  = (list_states self id ++ [{| timestamp := now; state := s |}])%list.
Proof.
  unfold list_states, save_state, RollbackStore in *.
  rewrite lookup_insert_eq. reflexivity.
Qed.

Lemma list_states_save_ne (self : RollbackStore A) (now id id' : string)
    (s : A) :
  id' <> id ->
  list_states (save_state self now id s) id' = list_states self id'.
Proof.
  intros Hne. unfold list_states, save_state, RollbackStore in *.
  rewrite lookup_insert_ne by congruence. reflexivity.
Qed.

(** The getters read the list of states of the session. *)
Lemma get_original_list (self : RollbackStore A) (id : string) :
  get_original self id = option_map state (head (list_states self id)).
Proof.
  unfold get_original, list_states.
  destruct (self !! id) as [[|e l]|]; reflexivity.
Qed.

Lemma get_latest_list (self : RollbackStore A) (id : string) :
  get_latest self id = option_map state (last (list_states self id)).
Proof.
  unfold get_latest, list_states.
  destruct (self !! id) as [[|e l]|]; reflexivity.
Qed.

Lemma get_previous_list (self : RollbackStore A) (id : string) (k : Z) :
  get_previous self id k
  = let states := list_states self id in
    let idx := (Z.of_nat (length states) - 1 - k)%Z in
    match states with
    | [] => Value None
    | _ =>
        if (idx <? 0)%Z then Value None
        else match states !! Z.to_nat idx with
             | Some e => Value (Some (state e))
             | None => IndexError
             end
    end.
Proof.
  unfold get_previous, list_states.
  destruct (self !! id) as [[|e l]|]; reflexivity.
Qed.

End rollback_store_facts.

(** X26 (schemas.py, [RollbackStore]).  Saving a state makes it the
latest of its session and leaves the original of the session as it was
(the state saved is the original only of a session that had none); the
state before the latest is the one that was the latest before; and the
other sessions are not touched. *)
Theorem rollback_store_save_state
    (A : Type) (self : Schemas.RollbackStore A) (now id id' : string)
    (s : A) :
  let self' := Schemas.save_state self now id s in
  Schemas.get_latest self' id = Some s
  /\ Schemas.get_original self' id
     = Some (default s (Schemas.get_original self id))
  /\ Schemas.get_previous self' id 0 = Schemas.Value (Some s)
  /\ Schemas.get_previous self' id 1
     = Schemas.Value (Schemas.get_latest self id)
  /\ length (Schemas.list_states self' id)
     = S (length (Schemas.list_states self id))
  /\ (id' <> id ->
      Schemas.list_states self' id' = Schemas.list_states self id'
      /\ Schemas.get_original self' id' = Schemas.get_original self id'
      /\ Schemas.get_latest self' id' = Schemas.get_latest self id').
Proof.
  cbv zeta.
  split; [|split; [|split; [|split; [|split]]]].
  - rewrite get_latest_list, list_states_save, last_snoc. reflexivity.
  - rewrite !get_original_list, list_states_save.
    destruct (Schemas.list_states self id); reflexivity.
  - rewrite get_previous_list, list_states_save. cbv zeta.
    rewrite length_app. simpl length.
    destruct (Schemas.list_states self id ++ [_])%list eqn:Hl.
    { destruct (Schemas.list_states self id); discriminate. }
    rewrite <- Hl.
    destruct (Z.ltb_spec (Z.of_nat (length (Schemas.list_states self id) + 1)
                          - 1 - 0) 0); [lia|].
    replace (Z.to_nat (Z.of_nat (length (Schemas.list_states self id) + 1)
                       - 1 - 0))
      with (length (Schemas.list_states self id)) by lia.
    rewrite list_lookup_middle by reflexivity. reflexivity.
  - rewrite get_previous_list, get_latest_list, list_states_save. cbv zeta.
    rewrite length_app. simpl length.
    induction (Schemas.list_states self id) as [|e l _] using rev_ind;
      [reflexivity|].
    destruct ((l ++ [e]) ++ [_])%list eqn:Hl'.
    { destruct l; discriminate. }
    rewrite <- Hl'. rewrite length_app. simpl length.
    destruct (Z.ltb_spec (Z.of_nat (length l + 1 + 1) - 1 - 1) 0); [lia|].
    replace (Z.to_nat (Z.of_nat (length l + 1 + 1) - 1 - 1))
      with (length l) by lia.
    rewrite <- app_assoc. cbn [app].
    rewrite list_lookup_middle by reflexivity.
    rewrite last_snoc. reflexivity.
  - rewrite list_states_save, length_app. simpl. lia.
  - intros Hne.
    rewrite !get_original_list, !get_latest_list,
      (list_states_save_ne _ _ _ _ _ Hne).
    repeat split.
Qed.

(** X27 (schemas.py, [RollbackStore.get_previous]).  For a session
without states the answer is [None], whatever the number of steps.
Otherwise going back less than the number of states gives the state at
that distance from the latest, going back further gives [None], and a
negative number of steps raises [IndexError]. *)
Theorem get_previous_by_steps
    (A : Type) (self : Schemas.RollbackStore A) (id : string)
    (steps_back : Z) :
  let states := Schemas.list_states self id in
  let n := Z.of_nat (length states) in
  (states = [] -> Schemas.get_previous self id steps_back = Schemas.Value None)
  /\ (states <> [] ->
      ((steps_back < 0)%Z ->
       Schemas.get_previous self id steps_back = Schemas.IndexError)
      /\ ((0 <= steps_back < n)%Z ->
          exists e,
            states !! Z.to_nat (n - 1 - steps_back) = Some e
            /\ Schemas.get_previous self id steps_back
               = Schemas.Value (Some (Schemas.state e)))
      /\ ((n <= steps_back)%Z ->
          Schemas.get_previous self id steps_back = Schemas.Value None)).
Proof.
  cbv zeta. rewrite get_previous_list. cbv zeta.
  set (states := Schemas.list_states self id).
  split; [intros ->; reflexivity|].
  intros Hne. destruct states as [|e0 l] eqn:Hstates; [congruence|].
  rewrite <- Hstates. clear Hne.
  assert (0 < length states)%nat as Hpos by (rewrite Hstates; simpl; lia).
  split; [|split].
  - intros Hneg.
    destruct (Z.ltb_spec (Z.of_nat (length states) - 1 - steps_back) 0); [lia|].
    rewrite lookup_ge_None_2; [reflexivity | lia].
  - intros Hin.
    destruct (Z.ltb_spec (Z.of_nat (length states) - 1 - steps_back) 0); [lia|].
    destruct (lookup_lt_is_Some_2 states
                (Z.to_nat (Z.of_nat (length states) - 1 - steps_back)))
      as [e He]; [lia|].
    exists e. rewrite He. auto.
  - intros Hfar.
    destruct (Z.ltb_spec (Z.of_nat (length states) - 1 - steps_back) 0);
      [reflexivity | lia].
Qed.

Example get_previous_negative_steps :
  let store :=
    Schemas.save_state
      (Schemas.save_state Schemas.RollbackStore_init "t0" "s" "first")
      "t1" "s" "second" in
  Schemas.get_previous store "s" 1 = Schemas.Value (Some "first")
  /\ Schemas.get_previous store "s" 2 = Schemas.Value None
  /\ Schemas.get_previous store "s" (-1) = Schemas.IndexError
  /\ Schemas.get_previous store "other" (-1) = Schemas.Value None.
Proof. vm_compute. repeat split. Qed.

(** ** The quality gate of the refinement *)

Section quality_gate_facts.
Import PyStr Schemas.

Lemma length_lower (s : string) : String.length (lower s) = String.length s.
Proof. induction s as [|c s IH]; simpl; congruence. Qed.

Lemma append_inv_head (s t u : string) : s ++ t = s ++ u -> t = u.
Proof.
  induction s as [|c s IH]; [trivial|].
  rewrite !append_cons. intros [= H]. auto.
Qed.

(** A text of fifty characters or more is none of the unhelpful
answers. *)
Lemma no_unhelpful_pattern_matches (s : string) :
  (50 <= String.length s)%nat ->
  existsb (fun pattern => re_match_alternatives pattern s) unhelpful_patterns
  = false.
Proof.
  intros Hlen.
  assert (forall a, (String.length a <= 30)%nat ->
                    String.eqb s a || String.eqb s (a ++ nl) = false) as Hno.
  { intros a Ha. apply orb_false_iff.
    split; apply String.eqb_neq; intros ->;
      rewrite ?length_append in Hlen; simpl in Hlen; lia. }
  unfold unhelpful_patterns, re_match_alternatives. cbn [existsb].
  rewrite !Hno by (simpl; lia). reflexivity.
Qed.

End quality_gate_facts.

(** X28 (schemas.py, [QualityGate.validate_refinement_output]).  An
output passes the gate exactly when, white space at its ends apart, it
has fifty characters or more and, after round 1, one of the words of a
critique.  The check for answers such as [looks good] never decides: all
of them are shorter than fifty characters, so the reason
[provided no actual refinement] is never given. *)
Theorem validate_refinement_output_passes (output : string) (round_num : nat) :
  let result := Schemas.validate_refinement_output output round_num in
  let text := PyStr.lower (PyStr.strip output) in
  let has_critique :=
    existsb (fun word => PyStr.contains word text)
      [ "concern"; "issue"; "problem"; "improve"; "recommend"; "however" ] in
  (fst result = true
   <-> (50 <= String.length (PyStr.strip output))%nat
       /\ ((round_num <= 1)%nat \/ has_critique = true))
  /\ (fst result = true <-> snd result = None)
  /\ snd result
     <> Some ("Round " ++ PyStr.str_nat round_num
              ++ " provided no actual refinement").
Proof.
  cbv zeta. unfold Schemas.validate_refinement_output.
  destruct (String.eqb_spec output "") as [->|Hne].
  { cbn [orb fst snd]. split; [|split].
    - split; [discriminate|]. intros [Hlen _]. simpl in Hlen. lia.
    - split; discriminate.
    - intros [= H]. apply append_inv_head, append_inv_head in H.
      discriminate. }
  cbn [orb].
  destruct (Nat.ltb_spec (String.length (PyStr.strip output)) 50) as [Hlt|Hge].
  { cbn [fst snd]. split; [|split].
    - split; [discriminate|]. intros [Hlen _]. lia.
    - split; discriminate.
    - intros [= H]. apply append_inv_head, append_inv_head in H.
      discriminate. }
  cbv zeta.
  rewrite no_unhelpful_pattern_matches by (rewrite length_lower; exact Hge).
  cbn [existsb]. rewrite orb_false_r, !orb_assoc.
  destruct (Nat.ltb_spec 1 round_num) as [Hlate|Hfirst];
    destruct (_ || _) eqn:Hwords; cbn [andb negb fst snd].
  - split; [|split]; [split; auto | split; auto | discriminate].
  - split; [|split].
    + split; [discriminate|]. intros [_ [?|?]]; [lia | discriminate].
    + split; discriminate.
    + intros [= H]. apply append_inv_head, append_inv_head in H.
      discriminate.
  - split; [|split]; [split; auto | split; auto | discriminate].
  - split; [|split]; [split; auto | split; auto | discriminate].
Qed.

Example gate_examples :
  Schemas.validate_refinement_output "looks good" 1
  = (false, Some "Round 1 output too short or empty")
  /\ Schemas.validate_refinement_output
       "The draft is fine as it stands and I would ship it as it is today."
       2
     = (false, Some "Round 2 lacks critical review")
  /\ Schemas.validate_refinement_output
       "The draft is fine as it stands; however, the retry path is untested."
       2
     = (true, None).
Proof. vm_compute. repeat split. Qed.

(** ** Refinement in series *)

Section refine_facts.
Import PyStr Http Schemas Refine.

Variable gateway : Gateway.CouncilGateway.
Variable fallbacks : gmap string string.
Variable net : backend.
Variable fuel : nat.
Variable now : nat -> string.
Variable input_text : string.
Variable context : string.

Lemma slice_to_all (k : nat) (s : string) :
  (String.length s <= k)%nat -> slice_to k s = s.
Proof.
  revert k. induction s as [|c s IH]; intros [|k] Hk; simpl in *;
    try reflexivity; try lia.
  f_equal. apply IH. lia.
Qed.

Lemma get_original_save (store : RollbackStore saved) (t : string)
    (s first : saved) :
  get_original store session = Some first ->
  get_original (save_state store t session s) session = Some first.
Proof.
  intros Hfirst. rewrite get_original_list, list_states_save.
  rewrite get_original_list in Hfirst.
  destruct (list_states store session); [discriminate | exact Hfirst].
Qed.


Local Opaque PyStr.slice_to.

(** A run of the loop that succeeds has gone through every round. *)
Lemma rounds_from_success (first : saved) (rounds : list (string * string * Z)) :
  forall i refined critiques store n res store' log,
    get_original store session = Some first ->
    rounds_from gateway fallbacks net fuel now input_text context rounds i
      refined critiques store n = Some (res, store', log) ->
    success res = true ->
    exists new,
      Refine.critiques res = Some (critiques ++ new)%list
      /\ map critique_model new = map (fun x => fst (fst x)) rounds
      /\ map critique_round new = seq i (length rounds)
      /\ Forall (fun c =>
                   fst (validate_refinement_output (full_output c)
                          (critique_round c)) = true
                   /\ critique_text c = slice_to 500 (full_output c)) new
      /\ refined_output res
         = Some (default refined (option_map full_output (last new)))
      /\ length (list_states store' session)
         = (length (list_states store session) + length rounds)%nat
      /\ error res = None.
Proof.
  induction rounds as [|[[model role] timeout] rounds IH];
    intros i refined critiques store n res store' log Hfirst;
    cbn [rounds_from].
  { intros [= <- <- <-] _. exists []. rewrite app_nil_r. simpl.
    repeat split; auto. }
  destruct (Gateway.call_model _ _ _ _ _ _ _ _ _ _ _) as [[r l]|];
    simpl; [|discriminate].
  destruct (Gateway.success r); cbn [negb];
    [|intros [= <- <- <-]; discriminate].
  destruct (validate_refinement_output _ i) as [passes reason] eqn:Hgate.
  destruct passes; [|rewrite Hfirst; intros [= <- <- <-]; discriminate].
  destruct (rounds_from _ _ _ _ _ _ _ _ _ _ _ _ _)
    as [[[res2 store2] l2]|] eqn:Hrest; simpl; [|discriminate].
  intros [= <- <- <-] Hok.
  destruct (IH _ _ _ _ _ _ _ _ (get_original_save _ _ _ _ Hfirst) Hrest Hok)
    as (new & Hcrit & Hmodels & Hrounds & Hall & Hout & Hlen & Herr).
  set (output := default "" (Gateway.content r)) in *.
  eexists (_ :: new). rewrite <- app_assoc in Hcrit.
  split; [exact Hcrit|]. cbn [map length seq].
  split; [f_equal; exact Hmodels|].
  split; [f_equal; exact Hrounds|].
  split; [|split; [|split]].
  - constructor; [|exact Hall]. cbn [full_output critique_round critique_text].
    rewrite Hgate. split; [reflexivity|].
    destruct (Nat.ltb_spec 500 (String.length output)) as [_|Hshort];
      [reflexivity|].
    symmetry. apply slice_to_all, Hshort.
  - rewrite Hout. destruct new as [|c new]; [reflexivity|].
    rewrite last_cons_cons.
    destruct (last (c :: new)) as [y|] eqn:Hlast; [reflexivity|].
    apply last_None in Hlast. discriminate.
  - rewrite Hlen, list_states_save, length_app. simpl. lia.
  - exact Herr.
Qed.

(** What a run of the loop that succeeds leaves as the latest state. *)
Lemma rounds_from_latest (first : saved) (rounds : list (string * string * Z)) :
  forall i refined critiques store n res store' log,
    get_original store session = Some first ->
    rounds_from gateway fallbacks net fuel now input_text context rounds i
      refined critiques store n = Some (res, store', log) ->
    success res = true ->
    rollback_state res = get_latest store' session
    /\ (rounds <> [] ->
        exists text,
          refined_output res = Some text
          /\ get_latest store' session
             = Some {| saved_original := input_text;
                       saved_context := context;
                       saved_round := Some (i + length rounds - 1)%nat;
                       saved_output := Some text;
                       saved_model :=
                         option_map (fun x => fst (fst x)) (last rounds) |}).
Proof.
  induction rounds as [|[[model role] timeout] rounds IH];
    intros i refined critiques store n res store' log Hfirst;
    cbn [rounds_from].
  { intros [= <- <- <-] _. split; [reflexivity | congruence]. }
  destruct (Gateway.call_model _ _ _ _ _ _ _ _ _ _ _) as [[r l]|];
    simpl; [|discriminate].
  destruct (Gateway.success r); cbn [negb];
    [|intros [= <- <- <-]; discriminate].
  destruct (validate_refinement_output _ i) as [passes reason] eqn:Hgate.
  destruct passes; [|rewrite Hfirst; intros [= <- <- <-]; discriminate].
  destruct (rounds_from _ _ _ _ _ _ _ _ _ _ _ _ _)
    as [[[res2 store2] l2]|] eqn:Hrest; simpl; [|discriminate].
  intros [= <- <- <-] Hok.
  destruct (IH _ _ _ _ _ _ _ _ (get_original_save _ _ _ _ Hfirst) Hrest Hok)
    as (Hstate & Hlatest).
  split; [exact Hstate|]. intros _.
  destruct rounds as [|next rounds].
  - cbn [rounds_from] in Hrest. injection Hrest as <- <- <-.
    eexists. split; [reflexivity|].
    rewrite get_latest_list, list_states_save, last_snoc. simpl.
    repeat f_equal. lia.
  - destruct Hlatest as (text & Hout & Hlast); [discriminate|].
    exists text. split; [exact Hout|]. rewrite Hlast.
    rewrite last_cons_cons.
    replace (S i + length (next :: rounds) - 1)%nat
      with (i + length ((model, role, timeout) :: next :: rounds) - 1)%nat
      by (simpl; lia).
    reflexivity.
Qed.

Local Transparent PyStr.slice_to.

End refine_facts.




(** X30 (refine.py, [refine]).  A refinement that succeeds has gone
through the three rounds, in order: it returns three critiques, of
[kimi-synthesis], [claude-sonnet] and [opus-synthesis], each with an
output that passed the quality gate of its round and with the first 500
characters of that output as its text; the refined output is the output
of the last round; four states were added to the store, and the rollback
state reported is the last of them, the one of round 3. *)
Theorem refine_success_went_through_every_round
    (gateway : Gateway.CouncilGateway) (fallbacks : gmap string string)
    (net : Http.backend) (fuel : nat) (now : nat -> string)
    (input_text context : string)
    (store store' : Schemas.RollbackStore Refine.saved) (n : nat)
    (res : Refine.result) (log : list Http.request) :
  Refine.refine gateway fallbacks net fuel now input_text context store n
  = Some (res, store', log) ->
  Refine.success res = true ->
  exists c1 c2 c3,
    Refine.critiques res = Some [c1; c2; c3]
    /\ map Refine.critique_model [c1; c2; c3]
       = ["kimi-synthesis"; "claude-sonnet"; "opus-synthesis"]
    /\ map Refine.critique_round [c1; c2; c3] = [1; 2; 3]%nat
    /\ Forall
         (fun c =>
            fst (Schemas.validate_refinement_output (Refine.full_output c)
                   (Refine.critique_round c)) = true
            /\ Refine.critique_text c
               = PyStr.slice_to 500 (Refine.full_output c))
         [c1; c2; c3]
    /\ Refine.refined_output res = Some (Refine.full_output c3)
    /\ Refine.rollback_state res
       = Some {| Refine.saved_original := input_text;
                 Refine.saved_context := context;
                 Refine.saved_round := Some 3%nat;
                 Refine.saved_output := Some (Refine.full_output c3);
                 Refine.saved_model := Some "opus-synthesis" |}
    /\ length (Schemas.list_states store' Refine.session)
       = (length (Schemas.list_states store Refine.session) + 4)%nat
    /\ Refine.error res = None.
Proof.
  intros Hrun Hok. unfold Refine.refine in Hrun.
  set (initial := {| Refine.saved_original := input_text;
                     Refine.saved_context := context;
                     Refine.saved_round := None; Refine.saved_output := None;
                     Refine.saved_model := None |}) in Hrun.
  assert (Schemas.get_original
            (Schemas.save_state store (now 0%nat) Refine.session initial)
            Refine.session
          = Some (default initial
                    (Schemas.get_original store Refine.session))) as Hfirst.
  { rewrite !get_original_list, list_states_save.
    destruct (Schemas.list_states store Refine.session); reflexivity. }
  destruct (rounds_from_success _ _ _ _ _ _ _ _ _ _ _ _ _ _ _ _ _
              Hfirst Hrun Hok)
    as (new & Hcrit & Hmodels & Hrounds & Hall & Hout & Hlen & Herr).
  destruct (rounds_from_latest _ _ _ _ _ _ _ _ _ _ _ _ _ _ _ _ _
              Hfirst Hrun Hok) as (Hstate & Hlatest).
  destruct Hlatest as (text & Htext & Hlatest); [discriminate|].
  destruct new as [|c1 [|c2 [|c3 [|c4 new]]]]; try discriminate.
  exists c1, c2, c3.
  cbn [last option_map default] in Hout.
  rewrite Hout in Htext. injection Htext as <-.
  repeat split; try assumption.
  - rewrite Hstate, Hlatest. reflexivity.
  - rewrite Hlen, list_states_save, length_app. simpl. lia.
Qed.

Lemma refine_success_went_through_every_round_witness :
  exists res store' log,
    Refine.refine Gateway.CouncilGateway_init Models.MODEL_FALLBACKS
      (Spec.scripted []
         (Http.Replied
            "The plan holds; however, the retry path needs a test first."
            1 1 2))
      1 (fun _ => "now") "plan" "" Schemas.RollbackStore_init 0
    = Some (res, store', log)
    /\ Refine.success res = true
    /\ map Http.req_model log
       = ["kimi-synthesis"; "claude-sonnet"; "opus-synthesis"]
    /\ exists c1 c2 c3,
         Refine.critiques res = Some [c1; c2; c3]
         /\ Refine.refined_output res = Some (Refine.full_output c3)
         /\ length (Schemas.list_states store' Refine.session) = 4%nat.
Proof.
  eexists _, _, _. split; [vm_compute; reflexivity|].
  split; [reflexivity|]. split; [reflexivity|].
  destruct (refine_success_went_through_every_round
              Gateway.CouncilGateway_init Models.MODEL_FALLBACKS
              (Spec.scripted []
                 (Http.Replied
                    "The plan holds; however, the retry path needs a test first."
                    1 1 2))
              1 (fun _ => "now") "plan" "" Schemas.RollbackStore_init
              _ 0 _ _ eq_refl eq_refl)
    as (c1 & c2 & c3 & Hcrit & _ & _ & _ & Hout & _ & Hlen & _).
  exists c1, c2, c3. repeat split; assumption.
Defined.
